(** * EuropTry: the analysis-and-engagement pipeline of the IRC bot

    A shallow embedding of [src/EuropTry.py] (classes [DatabaseManager],
    [DeepSeekIntegration] and [IRCBotAdvanced]) together with the properties
    stated about it.

    Conventions of the embedding.
    - Python [str] is [string]; handles are IRC nicknames, so [str.lower] and
      [str.capitalize] are modelled on the ASCII letters.
    - Python [int] is [Z]; [Optional[...]] is [option]; the truth value
      Python gives to an object in [if x:] is written out ([truthy_int],
      [truthy_str]).
    - [datetime.now()], [random.choice] and the state of the IRC connection
      are inputs of the functions that consult them.
    - [datetime.now()], as [datetime] has it, gives a year from 1 to 9999.
    - The SQLite file is a finite map from handle to row and a list of
      conversation rows.  Its integers have 64 bits: a statement given a
      Python [int] outside that range raises, and so no row holds one.
      The file itself is taken to be reachable, so a statement fails for
      no other reason.  [queue.Queue] is a list with the head at the
      front.
    - The calls into the Tk interface ([log_message], [root.after]) leave
      the shared state as it is; the one in the middle of [_analyze_user]
      may raise.
    - Threads are interleavings of atomic steps; reads of the database see
      what the writer thread has executed so far. *)

From stdpp Require Import gmap strings list fin_maps pretty.
From Stdlib Require Import ZArith Lia.

#[local] Open Scope Z_scope.

(** ** Python string primitives *)

Module PyStr.

(** [c.lower()] for one ASCII character. *)
Definition lower_ascii (c : Ascii.ascii) : Ascii.ascii :=
  let n := Ascii.N_of_ascii c in
  if ((65 <=? n) && (n <=? 90))%N then Ascii.ascii_of_N (n + 32) else c.

(** [c.upper()] for one ASCII character. *)
Definition upper_ascii (c : Ascii.ascii) : Ascii.ascii :=
  let n := Ascii.N_of_ascii c in
  if ((97 <=? n) && (n <=? 122))%N then Ascii.ascii_of_N (n - 32) else c.

(** [s.lower()] *)
Fixpoint lower (s : string) : string :=
  match s with
  | EmptyString => EmptyString
  | String c t => String (lower_ascii c) (lower t)
  end.

(** [s.capitalize()]: first character upper-cased, the rest lower-cased. *)
Definition capitalize (s : string) : string :=
  match s with
  | EmptyString => EmptyString
  | String c t => String (upper_ascii c) (lower t)
  end.

(** [s.startswith(p)] *)
Fixpoint startswith (p s : string) : bool :=
  match p, s with
  | EmptyString, _ => true
  | String _ _, EmptyString => false
  | String a p', String b s' =>
      if Ascii.eqb a b then startswith p' s' else false
  end.

(** [needle in hay] on strings: substring test. *)
Fixpoint contains (needle hay : string) : bool :=
  startswith needle hay ||
  match hay with
  | EmptyString => false
  | String _ t => contains needle t
  end.

(** [str(i)] for an integer. *)
Definition str (i : Z) : string := pretty i.

(** [s.lstrip(chars)]: drop leading characters that occur in [chars]. *)
Fixpoint lstrip (chars : list Ascii.ascii) (s : string) : string :=
  match s with
  | EmptyString => EmptyString
  | String c t => if bool_decide (c ∈ chars) then lstrip chars t else s
  end.

(** [range(a, b)] *)
Definition range (a b : Z) : list Z :=
  map (fun i : nat => a + Z.of_nat i) (seq 0 (Z.to_nat (b - a))).

(** Truth value of an [Optional[int]]: [None] and [0] are false. *)
Definition truthy_int (o : option Z) : bool :=
  match o with
  | Some z => negb (z =? 0)
  | None => false
  end.

(** Truth value of an [Optional[str]]: [None] and the empty string are
    false. *)
Definition truthy_str (o : option string) : bool :=
  match o with
  | Some EmptyString => false
  | Some (String _ _) => true
  | None => false
  end.

End PyStr.

(** ** Profile derivation: [IRCBotAdvanced._analyze_username] *)

Module Derivation.
Import PyStr.

Definition male_indicators : list string :=
  ["alex"; "max"; "tom"; "ben"; "sam"; "mike"; "dave"; "john"; "paul";
   "marc"; "pierre"; "jean"].

Definition female_indicators : list string :=
  ["anna"; "lisa"; "emma"; "sara"; "julie"; "marie"; "chloe"; "lea";
   "nina"; "eva"; "sophie"; "claire"].

Definition cities : list string :=
  ["paris"; "lyon"; "marseille"; "toulouse"; "nice"; "nantes";
   "strasbourg"; "bordeaux"; "lille"; "rennes"].

(** The [result] dictionary: each key is present or absent. *)
Record analyzed_info := {
  info_gender : option string;
  info_age : option Z;
  info_city : option string
}.

(** The two gender loops: the female list is scanned only when the key
    ['gender'] is still absent after the male loop. *)
Definition detect_gender (username_lower : string) : option string :=
  match find (fun indicator => contains indicator username_lower) male_indicators with
  | Some _ => Some "Homme"
  | None =>
      match find (fun indicator => contains indicator username_lower) female_indicators with
      | Some _ => Some "Femme"
      | None => None
      end
  end.

(** [for year in range(1980, 2010): if str(year) in username: ...; break] *)
Definition birth_year (username : string) : option Z :=
  find (fun year => contains (str year) username) (range 1980 2010).

(** [for i in range(18, 100): if str(i) in username: ...; break] *)
Definition direct_age (username : string) : option Z :=
  find (fun i => contains (str i) username) (range 18 100).

(** The age is looked for in [username], not in its lower-cased copy; the
    direct scan runs only when the key ['age'] is absent. *)
Definition detect_age (current_year : Z) (username : string) : option Z :=
  match birth_year username with
  | Some year => Some (current_year - year)
  | None => direct_age username
  end.

Definition detect_city (username_lower : string) : option string :=
  match find (fun city => contains city username_lower) cities with
  | Some city => Some (capitalize city)
  | None => None
  end.

Definition _analyze_username (current_year : Z) (username : string) : analyzed_info :=
  let username_lower := lower username in
  {| info_gender := detect_gender username_lower;
     info_age := detect_age current_year username;
     info_city := detect_city username_lower |}.

End Derivation.


(** ** Records of the program *)

(** [bot_profile.target_criteria]: a dictionary read with
    [criteria.get(key, default)], so each key may be absent. *)
Record TargetCriteria := {
  age_min : option Z;
  age_max : option Z;
  target_gender : option string
}.

Record BotProfile := {
  bot_name : string;
  bot_age : Z;
  bot_gender : string;
  bot_city : string;
  bot_role : string;
  nickname : string;
  target_criteria : TargetCriteria
}.

Record UserProfile := {
  username : string;
  age : option Z;
  gender : option string;
  city : option string;
  last_seen : option string;
  conversation_count : Z;
  targeted : bool;
  whois_info : option (list (string * string))
}.

(** [UserProfile(username=username)]: every other field at its default. *)
Definition default_profile (u : string) : UserProfile :=
  {| username := u; age := None; gender := None; city := None;
     last_seen := None; conversation_count := 0; targeted := false;
     whois_info := None |}.

(** ** Targeting policy: [IRCBotAdvanced._matches_targeting_criteria] *)

Module Targeting.
Import PyStr.

(** The wildcard of the gender criterion. *)
Definition Tous : string := "Tous".

Definition age_check (criteria : TargetCriteria) (p : UserProfile) : bool :=
  if truthy_int (age p) then
    let min_age := default 18 (age_min criteria) in
    let max_age := default 99 (age_max criteria) in
    match age p with
    | Some a => (min_age <=? a) && (a <=? max_age)
    | None => true
    end
  else true.

Definition gender_check (criteria : TargetCriteria) (p : UserProfile) : bool :=
  let tg := default Tous (target_gender criteria) in
  if negb (String.eqb tg Tous) && truthy_str (gender p) then
    match gender p with
    | Some g => String.eqb g tg
    | None => true
    end
  else true.

Definition _matches_targeting_criteria (bot : BotProfile) (p : UserProfile) : bool :=
  let criteria := target_criteria bot in
  if negb (age_check criteria p) then false
  else if negb (gender_check criteria p) then false
  else true.

End Targeting.

(** ** [queue.Queue] *)

Module PyQueue.

Inductive put_result (Q : Type) :=
| Enqueued (q : Q)        (** the item was appended, [q] is the new state *)
| Full                    (** [put(block=False)] raised [queue.Full] *)
| Blocked.                (** [put(block=True)] waits for a free slot *)
Arguments Enqueued {Q} q.
Arguments Full {Q}.
Arguments Blocked {Q}.

(** [Queue.full]: a [maxsize] of zero or less means no bound. *)
Definition full {A} (maxsize : Z) (q : list A) : bool :=
  (0 <? maxsize) && (maxsize <=? Z.of_nat (length q)).

Definition put {A} (maxsize : Z) (block : bool) (q : list A) (x : A)
  : put_result (list A) :=
  if full maxsize q then (if block then Blocked else Full)
  else Enqueued (q ++ [x]).

(** [Queue.get]: the oldest item, or [None] for [queue.Empty]. *)
Definition get {A} (q : list A) : option (A * list A) :=
  match q with
  | [] => None
  | x :: q' => Some (x, q')
  end.

End PyQueue.

(** ** Persistence: [DatabaseManager] *)

Module Database.
Import PyStr.

(** A row of table [users]; the [username] column is the primary key and
    is the key of the map below.  [whois_info] holds the JSON text of the
    dictionary, kept here as the dictionary itself. *)
Record user_row := {
  col_age : option Z;
  col_gender : option string;
  col_city : option string;
  col_last_seen : option string;
  col_conversation_count : Z;
  col_targeted : bool;
  col_whois_info : option (list (string * string));
  col_created_at : string
}.

(** A row of table [conversations]; [id] is the position in the list, and
    the [sentiment] column always receives its default here. *)
Record conversation_row := {
  conv_username : string;
  conv_message : string;
  conv_timestamp : string;
  conv_bot_response : string;
  conv_prompt_used : string
}.

(** SQLite keeps an INTEGER in at most 8 bytes, and [sqlite3] raises
    [OverflowError] when a statement is given a Python [int] outside that
    range. *)
Definition sqlite_integer (z : Z) : bool := (- 2 ^ 63 <=? z) && (z <? 2 ^ 63).

(** The tuples [cursor.execute] accepts for table [users]: the two
    integers of the tuple fit ([None] is stored as NULL, a [bool] as 0 or
    1, and the other columns are text). *)
Definition storable (data : user_row) : bool :=
  match col_age data with
  | Some a => sqlite_integer a
  | None => true
  end && sqlite_integer (col_conversation_count data).

(** The tables [sqlite3] can hold. *)
Definition all_storable (m : gmap string user_row) : bool :=
  bool_decide (map_Forall (fun _ r => Is_true (storable r)) m).

(** The content of the database file.  A row of [users] is there because
    [sqlite3] accepted it, so the integers of every row fit. *)
Record store := {
  users : gmap string user_row;
  conversations : list conversation_row;
  users_stored : Is_true (all_storable users)
}.

(** The pairs [(operation, data)] put on [write_queue].  [data] is a tuple
    built when the intent is submitted, a snapshot of the profile. *)
Inductive write_op :=
| save_user (key : string) (data : user_row)
| save_conversation (data : conversation_row).

Record DatabaseManager := {
  db : store;
  write_queue : list write_op
}.

(** [queue.Queue()]: no [maxsize] argument. *)
Definition write_queue_maxsize : Z := 0.

(** [cursor.execute(sql, data)] and [conn.commit()] in
    [_execute_write_operation]: [INSERT OR REPLACE INTO users] or
    [INSERT INTO conversations].  [None] stands for the exception
    [sqlite3] raises when it cannot bind [data]: the table with the new row
    is not one it can hold, and nothing is written.  The rows already
    there were accepted before, so this happens exactly when [data] is not
    [storable] (lemmas [execute_write_stored] and [execute_write_refused]
    below).  The database file itself is taken to be reachable. *)
Definition execute (op : write_op) (s : store) : option store :=
  match op with
  | save_user key data =>
      match decide (Is_true (all_storable (<[key := data]> (users s)))) with
      | left accepted =>
          Some {| users := <[key := data]> (users s);
                  conversations := conversations s;
                  users_stored := accepted |}
      | right _ => None
      end
  | save_conversation data =>
      Some {| users := users s; conversations := conversations s ++ [data];
              users_stored := users_stored s |}
  end.

(** [_execute_write_operation]: [try: ... except Exception as e:
    logger.error(...)].  When the statement raises, the error goes to the
    log, the database is as it was and the intent is gone. *)
Definition _execute_write_operation (op : write_op) (s : store) : store :=
  match execute op s with
  | Some s' => s'
  | None => s
  end.
#[global] Arguments _execute_write_operation : simpl never.

(** One iteration of the loop of [_database_writer]: take the oldest intent
    and execute it; on [queue.Empty], [continue]. *)
Definition _database_writer_step (dm : DatabaseManager) : DatabaseManager :=
  match PyQueue.get (write_queue dm) with
  | Some (op, rest) =>
      {| db := _execute_write_operation op (db dm); write_queue := rest |}
  | None => dm
  end.

(** [n] iterations of the writer loop. *)
Fixpoint _database_writer (n : nat) (dm : DatabaseManager) : DatabaseManager :=
  match n with
  | O => dm
  | S n' => _database_writer n' (_database_writer_step dm)
  end.

(** The writer left alone until the queue is empty. *)
Definition drain (dm : DatabaseManager) : DatabaseManager :=
  _database_writer (length (write_queue dm)) dm.

Definition profile_tuple (now : string) (p : UserProfile) : user_row :=
  {| col_age := age p;
     col_gender := gender p;
     col_city := city p;
     col_last_seen := Some (if truthy_str (last_seen p)
                            then default now (last_seen p) else now);
     col_conversation_count := conversation_count p;
     col_targeted := targeted p;
     col_whois_info := match whois_info p with
                       | Some (_ :: _) => whois_info p
                       | _ => None
                       end;
     col_created_at := now |}.

(** [self.write_queue.put(item)] *)
Definition submit (op : write_op) (dm : DatabaseManager)
  : PyQueue.put_result DatabaseManager :=
  match PyQueue.put write_queue_maxsize true (write_queue dm) op with
  | PyQueue.Enqueued q => PyQueue.Enqueued {| db := db dm; write_queue := q |}
  | PyQueue.Full => PyQueue.Full
  | PyQueue.Blocked => PyQueue.Blocked
  end.

Definition save_user_profile (now : string) (p : UserProfile) (dm : DatabaseManager)
  : PyQueue.put_result DatabaseManager :=
  submit (save_user (username p) (profile_tuple now p)) dm.

Definition save_conversation_record (now : string) (u message bot_response : string)
    (dm : DatabaseManager) : PyQueue.put_result DatabaseManager :=
  submit (save_conversation
            {| conv_username := u; conv_message := message;
               conv_timestamp := now; conv_bot_response := bot_response;
               conv_prompt_used := "" |}) dm.

(** [get_user_profile]: the row found by [WHERE username = ?], or a fresh
    default profile. *)
Definition get_user_profile (u : string) (dm : DatabaseManager) : UserProfile :=
  match users (db dm) !! u with
  | Some r =>
      {| username := u;
         age := col_age r;
         gender := col_gender r;
         city := col_city r;
         last_seen := col_last_seen r;
         conversation_count := col_conversation_count r;
         targeted := col_targeted r;
         whois_info := col_whois_info r |}
  | None => default_profile u
  end.

End Database.

(** ** Text generation: [DeepSeekIntegration] *)

Module DeepSeek.
Import PyStr.

(** What [requests.post] does: it returns a response with a status code
    and, when the body has the expected JSON shape, the generated text; or
    it raises. *)
Inductive api_reply :=
| Response (status_code : Z) (content : option string)
| RaisesTimeout
| RaisesConnectionError
| RaisesOther.

Definition fallback_responses (bot : BotProfile) : list string :=
  [ "Salut ! Comment ça va ? Je suis " +:+ bot_name bot +:+ " de " +:+ bot_city bot +:+ " 😊";
    "C'est intéressant ce que tu dis ! Raconte-moi en plus ?";
    "Ah oui, je vois ! Moi aussi j'ai vécu ça récemment.";
    "En tant que " +:+ bot_role bot +:+ ", je peux te dire que...";
    "Haha, c'est marrant ! Tu as l'air sympa 😄" ].

(** [random.choice(l)], the draw being [pick]. *)
Definition random_choice (pick : nat) (l : list string) : string :=
  nth (pick `mod` length l)%nat l "".

Definition _get_fallback_response (pick : nat) (bot : BotProfile) : string :=
  "[Mode démo] " +:+ random_choice pick (fallback_responses bot).

Definition is_space (c : Ascii.ascii) : bool :=
  let n := Ascii.N_of_ascii c in
  ((9 <=? n) && (n <=? 13) || (28 <=? n) && (n <=? 32))%N.

Fixpoint lstrip_space (s : string) : string :=
  match s with
  | EmptyString => EmptyString
  | String c t => if is_space c then lstrip_space t else s
  end.

Fixpoint rstrip_space (s : string) : string :=
  match s with
  | EmptyString => EmptyString
  | String c t =>
      match rstrip_space t with
      | EmptyString => if is_space c then EmptyString else String c EmptyString
      | t' => String c t'
      end
  end.

(** [s.strip()] *)
Definition strip (s : string) : string := rstrip_space (lstrip_space s).

Definition generate_response (api_key : option string) (reply : api_reply)
    (pick : nat) (bot : BotProfile) : string :=
  if negb (truthy_str api_key) then
    "⚠️ Clé API DeepSeek non configurée. Allez dans Configuration API."
  else
    match reply with
    | Response status_code content =>
        if status_code =? 200 then
          match content with
          | Some text => strip text
          | None => _get_fallback_response pick bot
          end
        else if status_code =? 401 then
          "❌ Clé API invalide. Vérifiez votre configuration."
        else if status_code =? 429 then
          "⏳ Limite de taux atteinte. Attendez un moment."
        else "❌ Erreur API: " +:+ str status_code
    | RaisesTimeout => "⏰ Timeout de l'API. Réessayez."
    | RaisesConnectionError => "🌐 Problème de connexion à l'API."
    | RaisesOther => _get_fallback_response pick bot
    end.

End DeepSeek.

(** ** The bot: [IRCBotAdvanced] *)

Module Bot.
Import PyStr Database.

(** The objects the bot's threads share.  [outbox] lists the calls
    [connection.privmsg(target, text)] in the order they were made; the
    tasks of [analysis_queue] are the pairs [(connection, username)] of
    the single connection, kept as the username. *)
Record state := {
  dbm : DatabaseManager;
  users_being_analyzed : gset string;
  analysis_queue : list string;
  analysis_worker_started : bool;
  outbox : list (string * string)
}.

(** [Semaphore(3)] is acquired by the one worker thread only and never
    waits; [Queue(maxsize=50)]. *)
Definition analysis_queue_maxsize : Z := 50.

Definition set_dbm (d : DatabaseManager) (w : state) : state :=
  {| dbm := d; users_being_analyzed := users_being_analyzed w;
     analysis_queue := analysis_queue w;
     analysis_worker_started := analysis_worker_started w;
     outbox := outbox w |}.

Definition set_users_being_analyzed (s : gset string) (w : state) : state :=
  {| dbm := dbm w; users_being_analyzed := s;
     analysis_queue := analysis_queue w;
     analysis_worker_started := analysis_worker_started w;
     outbox := outbox w |}.

Definition set_analysis_queue (q : list string) (w : state) : state :=
  {| dbm := dbm w; users_being_analyzed := users_being_analyzed w;
     analysis_queue := q;
     analysis_worker_started := analysis_worker_started w;
     outbox := outbox w |}.

Definition set_analysis_worker_started (w : state) : state :=
  {| dbm := dbm w; users_being_analyzed := users_being_analyzed w;
     analysis_queue := analysis_queue w;
     analysis_worker_started := true;
     outbox := outbox w |}.

Definition send (target text : string) (w : state) : state :=
  {| dbm := dbm w; users_being_analyzed := users_being_analyzed w;
     analysis_queue := analysis_queue w;
     analysis_worker_started := analysis_worker_started w;
     outbox := outbox w ++ [(target, text)] |}.

(** How a block of statements ends: it completes with a value, an
    exception leaves it, or the thread waits forever. *)
Inductive outcome (A : Type) :=
| Returned (a : A) (w : state)
| Raised (w : state)
| Hung.
Arguments Returned {A} a w.
Arguments Raised {A} w.
Arguments Hung {A}.

Definition bind {A B} (m : outcome A) (k : A -> state -> outcome B) : outcome B :=
  match m with
  | Returned a w => k a w
  | Raised w => Raised w
  | Hung => Hung
  end.

Notation "'do' w <- m ; k" := (bind m (fun _ w => k))
  (at level 10, w name, m at level 100, k at level 200).

(** [try: body except Exception: handler] *)
Definition try_except {A} (body : outcome A) (handler : state -> outcome A)
  : outcome A :=
  match body with
  | Raised w => handler w
  | other => other
  end.

(** [try: body finally: final] *)
Definition try_finally {A} (body : outcome A) (final : state -> state)
  : outcome A :=
  match body with
  | Returned a w => Returned a (final w)
  | Raised w => Raised (final w)
  | Hung => Hung
  end.

(** A call into [DatabaseManager] that ends in [write_queue.put]. *)
Definition db_call (f : DatabaseManager -> PyQueue.put_result DatabaseManager)
    (w : state) : outcome unit :=
  match f (dbm w) with
  | PyQueue.Enqueued d => Returned tt (set_dbm d w)
  | PyQueue.Full => Raised w
  | PyQueue.Blocked => Hung
  end.

(** The IRC connection as a handler finds it. *)
Inductive connection :=
| Connected
| Disconnected
| SendFails.    (** [is_connected()] holds and [privmsg] raises *)

Definition _is_connected (c : connection) : bool :=
  match c with
  | Disconnected => false
  | _ => true
  end.

(** [with self._connection_lock: connection.privmsg(target, text)] *)
Definition privmsg (c : connection) (target text : string) (w : state)
  : outcome unit :=
  match c with
  | Connected => Returned tt (send target text w)
  | _ => Raised w
  end.

(** What a handler reads from outside the program. *)
Record env := {
  now : string;            (** [datetime.now().isoformat()] *)
  current_year : Z;        (** [datetime.now().year] *)
  conn : connection;
  pick : nat;              (** the draw of [random.choice] *)
  gui_fault : bool;        (** [self.app.root.after] raises in [_analyze_user] *)
  api_key : option string;
  reply : DeepSeek.api_reply;
  (** the years of [datetime]: [MINYEAR] to [MAXYEAR] *)
  year_of_datetime : Is_true ((1 <=? current_year) && (current_year <=? 9999))
}.

Definition with_last_seen (t : string) (p : UserProfile) : UserProfile :=
  {| username := username p; age := age p; gender := gender p; city := city p;
     last_seen := Some t; conversation_count := conversation_count p;
     targeted := targeted p; whois_info := whois_info p |}.

Definition with_targeted (b : bool) (p : UserProfile) : UserProfile :=
  {| username := username p; age := age p; gender := gender p; city := city p;
     last_seen := last_seen p; conversation_count := conversation_count p;
     targeted := b; whois_info := whois_info p |}.

Definition incr_conversation_count (p : UserProfile) : UserProfile :=
  {| username := username p; age := age p; gender := gender p; city := city p;
     last_seen := last_seen p; conversation_count := conversation_count p + 1;
     targeted := targeted p; whois_info := whois_info p |}.

(** Lines 511 to 516 of [_analyze_user]: a derived attribute is taken when
    the stored one is false in Python's sense and the derived one is not. *)
Definition merge_analyzed_info (p : UserProfile) (info : Derivation.analyzed_info)
  : UserProfile :=
  {| username := username p;
     age := if negb (truthy_int (age p)) && truthy_int (Derivation.info_age info)
            then Derivation.info_age info else age p;
     gender := if negb (truthy_str (gender p)) && truthy_str (Derivation.info_gender info)
               then Derivation.info_gender info else gender p;
     city := if negb (truthy_str (city p)) && truthy_str (Derivation.info_city info)
             then Derivation.info_city info else city p;
     last_seen := last_seen p;
     conversation_count := conversation_count p;
     targeted := targeted p;
     whois_info := whois_info p |}.

Definition opening_messages (u : string) (p : UserProfile) : list string :=
  [ "Salut " +:+ u +:+ " ! Comment ça va ?";
    "Hello " +:+ u +:+ " ! Tu es souvent sur ce salon ?";
    "Coucou " +:+ u +:+ " ! Belle journée n'est-ce pas ?";
    "Salut " +:+ u +:+ " ! Tu fais quoi de beau ?" ]
  ++ (if truthy_str (city p)
      then ["Salut " +:+ u +:+ " ! Tu es de " +:+ default "" (city p) +:+ " aussi ?"]
      else [])
  ++ (if truthy_int (age p) && (18 <=? default 0 (age p)) && (default 0 (age p) <=? 25)
      then ["Hey " +:+ u +:+ " ! Tu es étudiant ?"]
      else []).

Definition _initiate_conversation (e : env) (u : string) (p : UserProfile)
    (w : state) : outcome unit :=
  try_except
    (if negb (_is_connected (conn e)) then Returned tt w
     else
       let message := DeepSeek.random_choice (pick e) (opening_messages u p) in
       do w1 <- privmsg (conn e) u message w;
       db_call (save_user_profile (now e) (incr_conversation_count p)) w1)
    (fun w' => Returned tt w').

(** [self.app.root.after(0, self.app.update_users_list)] *)
Definition root_after (e : env) (w : state) : outcome unit :=
  if gui_fault e then Raised w else Returned tt w.

(** The profile [_analyze_user] works on once lines 504 to 518 have run. *)
Definition analyzed_profile (e : env) (bot : BotProfile) (u : string) (w : state)
  : UserProfile :=
  let user_profile := with_last_seen (now e) (get_user_profile u (dbm w)) in
  let analyzed_info := Derivation._analyze_username (current_year e) u in
  let user_profile := merge_analyzed_info user_profile analyzed_info in
  with_targeted (Targeting._matches_targeting_criteria bot user_profile) user_profile.

Definition _analyze_user (e : env) (bot : BotProfile) (u : string) (w : state)
  : outcome unit :=
  try_finally
    (try_except
       (let user_profile := analyzed_profile e bot u w in
        do w1 <- db_call (save_user_profile (now e) user_profile) w;
        do w2 <- root_after e w1;
        if targeted user_profile && (conversation_count user_profile =? 0)
        then _initiate_conversation e u user_profile w2
        else Returned tt w2)
       (fun w' => Returned tt w'))
    (fun w' => set_users_being_analyzed (users_being_analyzed w' ∖ {[u]}) w').

Definition technical_problem : string :=
  "Désolé, j'ai eu un petit problème technique. Peux-tu répéter ?".

(** The conversation history read for the prompt reaches the collaborator
    only; its answer is [reply e]. *)
Definition _generate_intelligent_response (e : env) (bot : BotProfile)
    (u message : string) (w : state) : outcome string :=
  try_except
    (let response :=
       DeepSeek.generate_response (api_key e) (reply e) (pick e) bot in
     bind (db_call (save_conversation_record (now e) u message response) w)
          (fun _ w1 => Returned response w1))
    (fun w' => Returned technical_problem w').

Definition on_privmsg (e : env) (bot : BotProfile) (nick message : string)
    (w : state) : outcome unit :=
  try_except
    (if String.eqb nick (nickname bot) then Returned tt w
     else if negb (_is_connected (conn e)) then Returned tt w
     else
       bind (_generate_intelligent_response e bot nick message w)
            (fun response w1 =>
               if truthy_str (Some response)
               then privmsg (conn e) nick response w1
               else Returned tt w1))
    (fun w' => Returned tt w').

Definition on_pubmsg (e : env) (bot : BotProfile) (nick : string) (w : state)
  : outcome unit :=
  try_except
    (if String.eqb nick (nickname bot) then Returned tt w
     else
       let user_profile := with_last_seen (now e) (get_user_profile nick (dbm w)) in
       db_call (save_user_profile (now e) user_profile) w)
    (fun w' => Returned tt w').

End Bot.

(** ** The threads of the running bot

    Three threads share [Bot.state]: the IRC reactor, which calls the
    [on_...] handlers one event at a time; the analysis worker
    ([_analysis_worker]); the database writer ([_database_writer]).  A
    handler that touches [users_being_analyzed] is cut into its statements,
    so that steps of the other threads fall between the membership test, the
    [add] and the [put]. *)

Module Threads.
Import PyStr Database Bot.

Inductive handler := Namreply | Join.

(** Where the reactor thread stands inside [on_namreply] or [on_join]. *)
Inductive reactor_pc :=
| RIdle
| RScan (k : handler) (names : list string)
    (** at the head of the loop, [names] still to visit *)
| RAdd (k : handler) (name : string) (rest : list string)
    (** the test of line 472 (or 677 and 679) passed; [add] comes next *)
| RPut (k : handler) (name : string) (rest : list string).
    (** [add] done; [put(..., block=False)] comes next *)

(** Where the worker thread stands inside [_analysis_worker]. *)
Inductive worker_pc :=
| WWaiting
| WBusy (u : string).

(** [admitted] and [finished] are history variables: the usernames whose
    [put] succeeded, and those whose [_analyze_user] call has ended. *)
Record sys := {
  bot : Bot.state;
  reactor : reactor_pc;
  worker : worker_pc;
  admitted : list string;
  finished : list string
}.

Definition init (s0 : store) : sys :=
  {| bot := {| dbm := {| db := s0; write_queue := [] |};
               users_being_analyzed := ∅;
               analysis_queue := [];
               analysis_worker_started := false;
               outbox := [] |};
     reactor := RIdle; worker := WWaiting; admitted := []; finished := [] |}.

Definition role_prefixes : list Ascii.ascii :=
  String.list_ascii_of_string "@+%&~".

(** [on_namreply]: the loop runs over [names[:20]]. *)
Definition on_namreply (names : list string) : reactor_pc :=
  RScan Namreply (firstn 20 names).

(** [on_join]: the body of the loop of [on_namreply] for the one nick of
    the event, without [lstrip]. *)
Definition on_join (nick : string) : reactor_pc :=
  RScan Join [nick].

Definition clean (k : handler) (name : string) : string :=
  match k with
  | Namreply => lstrip role_prefixes name
  | Join => name
  end.

Definition with_reactor (r : reactor_pc) (s : sys) : sys :=
  {| bot := bot s; reactor := r; worker := worker s;
     admitted := admitted s; finished := finished s |}.

Definition with_bot (w : Bot.state) (s : sys) : sys :=
  {| bot := w; reactor := reactor s; worker := worker s;
     admitted := admitted s; finished := finished s |}.

(** One statement of the handler the reactor is in. *)
Definition reactor_step (bp : BotProfile) (s : sys) : option sys :=
  match reactor s with
  | RIdle => None
  | RScan k [] =>
      (* lines 481 to 483: the worker thread is started once *)
      let w := match k with
               | Namreply => set_analysis_worker_started (bot s)
               | Join => bot s
               end in
      Some (with_reactor RIdle (with_bot w s))
  | RScan k (name :: rest) =>
      let clean_name := clean k name in
      if negb (String.eqb clean_name (nickname bp))
         && negb (bool_decide (clean_name ∈ users_being_analyzed (bot s)))
      then Some (with_reactor (RAdd k clean_name rest) s)
      else Some (with_reactor (RScan k rest) s)
  | RAdd k name rest =>
      Some (with_reactor (RPut k name rest)
              (with_bot (set_users_being_analyzed
                           ({[name]} ∪ users_being_analyzed (bot s)) (bot s)) s))
  | RPut k name rest =>
      match PyQueue.put analysis_queue_maxsize false (analysis_queue (bot s)) name with
      | PyQueue.Enqueued q =>
          Some {| bot := set_analysis_queue q (bot s);
                  reactor := RScan k rest;
                  worker := worker s;
                  admitted := admitted s ++ [name];
                  finished := finished s |}
      | PyQueue.Full =>
          (* the warning is logged; [break] in [on_namreply] *)
          Some (with_reactor (RScan k []) s)
      | PyQueue.Blocked => None
      end
  end.

(** [self.analysis_queue.get(timeout=5)] succeeds. *)
Definition worker_get (s : sys) : option sys :=
  match worker s, PyQueue.get (analysis_queue (bot s)) with
  | WWaiting, Some (u, q) =>
      if analysis_worker_started (bot s) then
        Some {| bot := set_analysis_queue q (bot s); reactor := reactor s;
                worker := WBusy u; admitted := admitted s;
                finished := finished s |}
      else None
  | _, _ => None
  end.

(** [self._analyze_user(connection, username)], then back to [get]; an
    exception that leaves it is logged by the worker loop. *)
Definition worker_run (e : env) (bp : BotProfile) (s : sys) : option sys :=
  match worker s with
  | WBusy u =>
      match _analyze_user e bp u (bot s) with
      | Returned _ w | Raised w =>
          Some {| bot := w; reactor := reactor s; worker := WWaiting;
                  admitted := admitted s; finished := finished s ++ [u] |}
      | Hung => None
      end
  | WWaiting => None
  end.

Definition writer_step (s : sys) : option sys :=
  Some (with_bot (set_dbm (_database_writer_step (dbm (bot s))) (bot s)) s).

(** A handler the reactor runs from start to end. *)
Definition reactor_call (m : outcome unit) (s : sys) : option sys :=
  match reactor s, m with
  | RIdle, Returned _ w => Some (with_bot w s)
  | RIdle, Raised w => Some (with_bot w s)
  | _, _ => None
  end.

Inductive label :=
| EvNamreply (names : list string)
| EvJoin (nick : string)
| EvPubmsg (e : env) (nick : string)
| EvPrivmsg (e : env) (nick message : string)
| ReactorStep
| WorkerGet
| WorkerRun (e : env)
| WriterStep.

Definition step (bp : BotProfile) (l : label) (s : sys) : option sys :=
  match l with
  | EvNamreply names =>
      match reactor s with
      | RIdle => Some (with_reactor (on_namreply names) s)
      | _ => None
      end
  | EvJoin nick =>
      match reactor s with
      | RIdle => Some (with_reactor (on_join nick) s)
      | _ => None
      end
  | EvPubmsg e nick => reactor_call (on_pubmsg e bp nick (bot s)) s
  | EvPrivmsg e nick message => reactor_call (on_privmsg e bp nick message (bot s)) s
  | ReactorStep => reactor_step bp s
  | WorkerGet => worker_get s
  | WorkerRun e => worker_run e bp s
  | WriterStep => writer_step s
  end.

Fixpoint run (bp : BotProfile) (ls : list label) (s : sys) : option sys :=
  match ls with
  | [] => Some s
  | l :: ls' =>
      match step bp l s with
      | Some s' => run bp ls' s'
      | None => None
      end
  end.

(** The tasks not yet completed, in the order of their processing: the
    one held by the worker, then the queued ones. *)
Definition pending (s : sys) : list string :=
  match worker s with
  | WBusy u => [u]
  | WWaiting => []
  end ++ analysis_queue (bot s).

(** The name the reactor has tested and not yet put on the queue. *)
Definition in_hand (r : reactor_pc) : list string :=
  match r with
  | RAdd _ name _ | RPut _ name _ => [name]
  | _ => []
  end.

(** The name the reactor has added to the set and not yet put. *)
Definition added (r : reactor_pc) : list string :=
  match r with
  | RPut _ name _ => [name]
  | _ => []
  end.

(** Occurrences of [u] in a history. *)
Definition occurrences (u : string) (l : list string) : nat :=
  length (filter (fun x => x = u) l).

(** What holds in every state the threads can reach. *)
Record invariant (s : sys) : Prop := {
  inv_nodup : NoDup (pending s);
  inv_marked : forall u, u ∈ pending s -> u ∈ users_being_analyzed (bot s);
  inv_in_hand : forall u, u ∈ in_hand (reactor s) -> u ∉ pending s;
  inv_added : forall u, u ∈ added (reactor s) -> u ∈ users_being_analyzed (bot s);
  inv_history : forall u,
    occurrences u (admitted s) =
    (occurrences u (finished s) + occurrences u (pending s))%nat
}.

(** [u] is marked in flight although no task for it exists or is about to
    be created. *)
Definition leaked (u : string) (s : sys) : Prop :=
  u ∈ users_being_analyzed (bot s) /\ (u ∉ pending s) /\ (u ∉ in_hand (reactor s)).

(** [w'] differs from [w] at most in the database manager and the
    messages sent. *)
Definition same_pipeline (w w' : state) : Prop :=
  users_being_analyzed w' = users_being_analyzed w /\
  analysis_queue w' = analysis_queue w /\
  analysis_worker_started w' = analysis_worker_started w.

End Threads.

(** ** Submissions to the write serializer interleaved with the writer *)

Module Serializer.
Import Database.

(** What happens to a [DatabaseManager] over time: some thread submits an
    intent, or the writer thread runs one iteration of its loop. *)
Inductive event :=
| Submit (op : write_op)
| WriterTurn.

Definition run_event (ev : event) (dm : DatabaseManager) : option DatabaseManager :=
  match ev with
  | Submit op =>
      match submit op dm with
      | PyQueue.Enqueued dm' => Some dm'
      | _ => None
      end
  | WriterTurn => Some (_database_writer_step dm)
  end.

Fixpoint run_schedule (sched : list event) (dm : DatabaseManager)
  : option DatabaseManager :=
  match sched with
  | [] => Some dm
  | ev :: sched' =>
      match run_event ev dm with
      | Some dm' => run_schedule sched' dm'
      | None => None
      end
  end.

(** The intents of a schedule, in the order they were submitted. *)
Fixpoint submitted (sched : list event) : list write_op :=
  match sched with
  | [] => []
  | Submit op :: sched' => op :: submitted sched'
  | WriterTurn :: sched' => submitted sched'
  end.

(** The intents executed one after the other on a store. *)
Definition replay (ops : list write_op) (s : store) : store :=
  fold_left (fun acc op => _execute_write_operation op acc) ops s.

End Serializer.

(** ** Analysis cycles run one after the other *)

Module Sequential.
Import Database Bot.

(** One analysis of [u], after which the writer empties its queue. *)
Definition cycle (bp : BotProfile) (c : env * string) (w : state) : outcome unit :=
  do w' <- _analyze_user c.1 bp c.2 w;
  Returned tt (set_dbm (drain (dbm w')) w').

(** One public message of [nick], after which the writer empties its
    queue. *)
Definition public_message (bp : BotProfile) (c : env * string) (w : state)
  : outcome unit :=
  do w' <- on_pubmsg c.1 bp c.2 w;
  Returned tt (set_dbm (drain (dbm w')) w').

(** What touches a row of [users]: an analysis, or a public message. *)
Inductive activity :=
| Analysis (c : env * string)
| PublicMessage (c : env * string).

Definition turn (bp : BotProfile) (a : activity) (w : state) : outcome unit :=
  match a with
  | Analysis c => cycle bp c w
  | PublicMessage c => public_message bp c w
  end.

Fixpoint turns (bp : BotProfile) (acts : list activity) (w : state)
  : outcome unit :=
  match acts with
  | [] => Returned tt w
  | a :: acts' => do w' <- turn bp a w; turns bp acts' w'
  end.

(** The messages the bot has sent to [u]. *)
Definition engagements (u : string) (w : state) : nat :=
  length (filter (fun m : string * string => m.1 = u) (outbox w)).

(** The condition under which [_analyze_user] reaches
    [connection.privmsg]: lines 522, 525 and 601. *)
Definition engagement_fires (e : env) (bp : BotProfile) (u : string) (w : state)
  : bool :=
  let p := analyzed_profile e bp u w in
  negb (gui_fault e) && targeted p && (conversation_count p =? 0)
  && match conn e with
     | Connected => true
     | _ => false
     end.

Definition opening_message (e : env) (bp : BotProfile) (u : string) (w : state)
  : string :=
  DeepSeek.random_choice (pick e) (opening_messages u (analyzed_profile e bp u w)).

(** The intents one analysis submits: the profile, and after an opening
    message the profile with its counter incremented. *)
Definition analysis_writes (e : env) (bp : BotProfile) (u : string) (w : state)
  : list write_op :=
  let p := analyzed_profile e bp u w in
  save_user u (profile_tuple (now e) p) ::
  (if engagement_fires e bp u w
   then [save_user u (profile_tuple (now e) (incr_conversation_count p))]
   else []).

(** The counter of [u] as [get_user_profile] reads it. *)
Definition stored_count (u : string) (w : state) : Z :=
  conversation_count (get_user_profile u (dbm w)).

End Sequential.

(** ** Concrete inputs used below *)

Module Examples.
Import Database Bot.

Definition profile_age_zero : UserProfile :=
  {| username := "bob25"; age := Some 0; gender := None; city := None;
     last_seen := None; conversation_count := 0; targeted := false;
     whois_info := None |}.

Definition criteria_18_35 (g : string) : TargetCriteria :=
  {| age_min := Some 18; age_max := Some 35; target_gender := Some g |}.

Definition bot_18_35 (g : string) : BotProfile :=
  {| bot_name := "Camille"; bot_age := 27; bot_gender := "Femme";
     bot_city := "Lyon"; bot_role := "étudiante"; nickname := "camille";
     target_criteria := criteria_18_35 g |}.

Definition profile_homme : UserProfile :=
  {| username := "max"; age := None; gender := Some "Homme"; city := None;
     last_seen := None; conversation_count := 0; targeted := false;
     whois_info := None |}.

Definition profile_age_40 : UserProfile :=
  {| username := "visitor"; age := Some 40; gender := None; city := None;
     last_seen := None; conversation_count := 0; targeted := false;
     whois_info := None |}.

Definition env0 : env :=
  {| now := "2026-01-01T12:00:00"; current_year := 2026; conn := Connected;
     pick := 0; gui_fault := false; api_key := Some "sk-test";
     reply := DeepSeek.Response 401 None; year_of_datetime := I |}.

Definition empty_store : store :=
  {| users := ∅; conversations := []; users_stored := I |}.

(** The nicks "u1", ..., "u51". *)
Definition nicks51 : list string :=
  map (fun n : nat => "u" +:+ pretty n) (seq 1 51).

(** A join event and the four statements of [on_join] that follow. *)
Definition join_steps (nick : string) : list Threads.label :=
  [Threads.EvJoin nick; Threads.ReactorStep; Threads.ReactorStep;
   Threads.ReactorStep; Threads.ReactorStep].

(** The membership snapshot that lists the bot alone, with the three
    statements of [on_namreply] that follow: the worker thread is started. *)
Definition snapshot_of_bot_alone : list Threads.label :=
  [Threads.EvNamreply ["@camille"]; Threads.ReactorStep; Threads.ReactorStep].

(** The snapshot starts the worker; 51 users join before
    the worker takes its first task; the worker then completes every task
    there is. *)
Definition burst : list Threads.label :=
  snapshot_of_bot_alone
  ++ flat_map join_steps nicks51
  ++ flat_map (fun _ : nat => [Threads.WorkerGet; Threads.WorkerRun env0]) (seq 0 50).

(** The state a run from the empty database ends in. *)
Definition after (ls : list Threads.label) : Threads.sys :=
  default (Threads.init empty_store)
          (Threads.run (bot_18_35 "Tous") ls (Threads.init empty_store)).

(** "bob" joins, is listed by a membership snapshot with a role prefix
    while his task waits, the worker takes the task, and he joins again
    before the analysis ends. *)
Definition bob_thrice : list Threads.label :=
  snapshot_of_bot_alone
  ++ join_steps "bob"
  ++ [Threads.EvNamreply ["@bob"; "+amy"]; Threads.ReactorStep;
      Threads.ReactorStep; Threads.ReactorStep; Threads.ReactorStep;
      Threads.ReactorStep]
  ++ [Threads.WorkerGet]
  ++ [Threads.EvJoin "bob"; Threads.ReactorStep; Threads.ReactorStep]
  ++ [Threads.WorkerRun env0].

(** "bob" joins and is analysed, then joins and is analysed again; the
    writer takes its two turns after the second analysis, or between the
    two. *)
Definition bob_rejoins_unwritten : list Threads.label :=
  snapshot_of_bot_alone
  ++ join_steps "bob" ++ [Threads.WorkerGet; Threads.WorkerRun env0]
  ++ join_steps "bob" ++ [Threads.WorkerGet; Threads.WorkerRun env0]
  ++ [Threads.WriterStep; Threads.WriterStep].

Definition bob_rejoins_written : list Threads.label :=
  snapshot_of_bot_alone
  ++ join_steps "bob" ++ [Threads.WorkerGet; Threads.WorkerRun env0]
  ++ [Threads.WriterStep; Threads.WriterStep]
  ++ join_steps "bob" ++ [Threads.WorkerGet; Threads.WorkerRun env0].



(** "bob" joins and is analysed; he speaks on the channel before
    the writer has taken its turns; the writer then executes the three
    intents there are. *)
Definition bob_spoke : list Threads.label :=
  snapshot_of_bot_alone
  ++ join_steps "bob" ++ [Threads.WorkerGet; Threads.WorkerRun env0]
  ++ [Threads.EvPubmsg env0 "bob"]
  ++ [Threads.WriterStep; Threads.WriterStep; Threads.WriterStep].

(** After that he joins again and is analysed again. *)
Definition bob_speaks_then_rejoins : list Threads.label :=
  bob_spoke ++ join_steps "bob" ++ [Threads.WorkerGet; Threads.WorkerRun env0].

Definition env_with (r : DeepSeek.api_reply) : env :=
  {| now := "2026-01-01T12:00:00"; current_year := 2026; conn := Connected;
     pick := 0; gui_fault := false; api_key := Some "sk-test"; reply := r;
     year_of_datetime := I |}.

Definition idle_bot : Bot.state := Threads.bot (Threads.init empty_store).

(** The messages sent when a handler is over. *)
Definition sent (m : outcome unit) : list (string * string) :=
  match m with
  | Returned _ w | Raised w => outbox w
  | Hung => []
  end.

End Examples.

(** ** Loading the API key: [DeepSeekIntegration.__init__] and [_load_api_key] *)

Module ApiKey.
Import PyStr.

(** The file [deepseek_config.txt] as [_load_api_key] finds it. *)
Inductive config_file :=
| NoFile                       (** [os.path.exists] is false *)
| FileText (content : string)  (** the file is read *)
| FileUnreadable.              (** [open] or [read] raises *)

(** [env_var] is [os.getenv('DEEPSEEK_API_KEY')]; [db_key] is the key the
    row of table [api_keys] decrypts to, [None] when there is no row or when
    the query or the decryption raises. *)
Definition _load_api_key (env_var : option string) (file : config_file)
    (db_key : option string) : option string :=
  if truthy_str env_var then env_var
  else
    match file with
    | FileText content => Some (DeepSeek.strip content)
    | NoFile | FileUnreadable => db_key
    end.

(** [self.api_key = api_key or self._load_api_key()] *)
Definition init_api_key (api_key env_var : option string) (file : config_file)
    (db_key : option string) : option string :=
  if truthy_str api_key then api_key else _load_api_key env_var file db_key.

(** The notice [generate_response] returns when no key is configured. *)
Definition not_configured : string :=
  "⚠️ Clé API DeepSeek non configurée. Allez dans Configuration API.".

(** [BotControlApp.test_api_key]: the profiles it builds for the request. *)
Definition test_bot_profile : BotProfile :=
  {| bot_name := "Test"; bot_age := 25; bot_gender := "Test"; bot_city := "Test";
     bot_role := "Test"; nickname := "test";
     target_criteria := {| age_min := None; age_max := None; target_gender := None |} |}.

Inductive key_verdict :=
| NoKeyEntered    (** "Veuillez saisir une clé API" *)
| KeyInvalid      (** "Clé API invalide ou problème de connexion" *)
| KeyValid.       (** "Clé API testée avec succès!" *)

(** [BotControlApp.test_api_key], [entry] being the text of the key field
    and [reply] what the collaborator does with the request. *)
Definition test_api_key (entry : string) (reply : DeepSeek.api_reply) (pick : nat)
  : key_verdict :=
  let api_key := DeepSeek.strip entry in
  if negb (truthy_str (Some api_key)) then NoKeyEntered
  else
    let response :=
      DeepSeek.generate_response (Some api_key) reply pick test_bot_profile in
    if contains "❌" response || contains "⚠️" response then KeyInvalid
    else KeyValid.

End ApiKey.

(** ** The control window: [BotControlApp] *)

Module Control.
Import PyStr Database Bot.

(** [toggle_user_targeting] for the user selected in the list. *)
Definition toggle_user_targeting (now : string) (u : string) (dm : DatabaseManager)
  : PyQueue.put_result DatabaseManager :=
  let user_profile := get_user_profile u dm in
  save_user_profile now (with_targeted (negb (targeted user_profile)) user_profile) dm.

(** The settings of the users tab. *)
Record filters := {
  search_var : string;
  filter_homme : bool;
  filter_femme : bool;
  filter_autre : bool;
  age_filter : string
}.

(** A row of [get_all_users]:
    [SELECT username, age, gender, city, targeted FROM users]. *)
Record listed_user := {
  lu_username : string;
  lu_age : option Z;
  lu_gender : option string;
  lu_city : option string;
  lu_targeted : bool
}.

Definition search_rejects (f : filters) (r : listed_user) : bool :=
  let search_term := lower (search_var f) in
  truthy_str (Some search_term) && negb (contains search_term (lower (lu_username r))).

Definition gender_rejects (f : filters) (r : listed_user) : bool :=
  if bool_decide (lu_gender r = Some "Homme") then negb (filter_homme f)
  else if bool_decide (lu_gender r = Some "Femme") then negb (filter_femme f)
  else negb (filter_autre f).

Definition age_rejects (f : filters) (r : listed_user) : bool :=
  if negb (String.eqb (age_filter f) "Tous") && truthy_int (lu_age r) then
    let a := default 0 (lu_age r) in
    if String.eqb (age_filter f) "18-25" then negb ((18 <=? a) && (a <=? 25))
    else if String.eqb (age_filter f) "26-35" then negb ((26 <=? a) && (a <=? 35))
    else if String.eqb (age_filter f) "36-45" then negb ((36 <=? a) && (a <=? 45))
    else if String.eqb (age_filter f) "46+" then a <? 46
    else false
  else false.

(** The body of the loop of [update_users_list]: the row is inserted in the
    list unless one of the three filters says [continue]. *)
Definition listed (f : filters) (r : listed_user) : bool :=
  negb (search_rejects f r) && negb (gender_rejects f r) && negb (age_rejects f r).

(** [update_users_list], [users] being the result of [get_all_users]. *)
Definition update_users_list (f : filters) (users : list listed_user)
  : list listed_user :=
  filter (fun r => listed f r = true) users.

(** The settings the window starts with. *)
Definition initial_filters : filters :=
  {| search_var := ""; filter_homme := true; filter_femme := true;
     filter_autre := true; age_filter := "Tous" |}.

(** [f] with the age filter set to [label]. *)
Definition with_age_filter (label : string) (f : filters) : filters :=
  {| search_var := search_var f; filter_homme := filter_homme f;
     filter_femme := filter_femme f; filter_autre := filter_autre f;
     age_filter := label |}.

End Control.

(** ** More about the threads *)

Module Intake.
Import PyStr Database Bot Threads.

(** The names the handler under way may still put on the queue, in order. *)
Definition todo (r : reactor_pc) : list string :=
  match r with
  | RIdle => []
  | RScan k names => map (clean k) names
  | RAdd k name rest | RPut k name rest => name :: map (clean k) rest
  end.

(** The labels that are no event of the reactor. *)
Definition no_event (l : label) : bool :=
  match l with
  | ReactorStep | WorkerGet | WorkerRun _ | WriterStep => true
  | _ => false
  end.

(** The bot's own nickname is nowhere in the pipeline. *)
Definition self_absent (bp : BotProfile) (s : sys) : Prop :=
  (nickname bp ∉ users_being_analyzed (bot s)) /\
  (nickname bp ∉ in_hand (reactor s)) /\
  (nickname bp ∉ admitted s).

(** The worker left alone with the tasks there are: it takes and analyses
    them one by one, [e] being what every analysis finds outside. *)
Definition worker_labels (e : env) (s : sys) : list label :=
  match worker s with
  | WBusy _ => [WorkerRun e]
  | WWaiting => []
  end ++ flat_map (fun _ : string => [WorkerGet; WorkerRun e]) (analysis_queue (bot s)).

End Intake.

(** ** More concrete inputs *)

Module MoreExamples.
Import Database Bot Examples.

(** 50 users have joined and the join of "u51" has reached its [put]. *)
Definition put_on_full : list Threads.label :=
  snapshot_of_bot_alone
  ++ flat_map join_steps (take 50 nicks51)
  ++ [Threads.EvJoin "u51"; Threads.ReactorStep; Threads.ReactorStep].

(** The statements of [on_namreply] for a snapshot of two names, and the
    worker taking the first task meanwhile. *)
Definition snapshot_steps : list Threads.label :=
  [Threads.ReactorStep; Threads.ReactorStep; Threads.ReactorStep;
   Threads.WriterStep; Threads.ReactorStep; Threads.ReactorStep;
   Threads.ReactorStep; Threads.ReactorStep].

(** Two users have joined after the snapshot that starts the worker. *)
Definition two_joined : list Threads.label :=
  snapshot_of_bot_alone ++ join_steps "bob" ++ join_steps "amy".

(** "bob" joins before any membership snapshot. *)
Definition joined_before_snapshot : list Threads.label := join_steps "bob".

(** "bob" is analysed, speaks in public, and is analysed again. *)
Definition bob_activities : list Sequential.activity :=
  [Sequential.Analysis (env0, "bob"); Sequential.PublicMessage (env0, "bob");
   Sequential.Analysis (env0, "bob")].

End MoreExamples.

(** * Properties *)

(** ** Strings and loops *)

Section PyStrFacts.
Import PyStr.

Lemma append_cons c s t : String c s +:+ t = String c (s +:+ t).
Proof. reflexivity. Qed.

Lemma append_nil t : "" +:+ t = t.
Proof. reflexivity. Qed.

Lemma startswith_spec p s :
  startswith p s = true <-> exists post, s = p +:+ post.
Proof.
  revert s. induction p as [|a p IH]; intros s; simpl.
  - split; [intros _; by exists s | done].
  - destruct s as [|b s].
    + split; [done | intros [post H]; discriminate].
    + destruct (Ascii.eqb a b) eqn:E.
      * apply Ascii.eqb_eq in E as ->. rewrite IH.
        split; intros [post H]; exists post; rewrite append_cons in *; congruence.
      * apply Ascii.eqb_neq in E.
        split; [done | intros [post H]; rewrite append_cons in H; congruence].
Qed.

(** [contains] is the substring relation. *)
Lemma contains_spec needle hay :
  contains needle hay = true <-> exists pre post, hay = pre +:+ needle +:+ post.
Proof.
  induction hay as [|c hay IH]; simpl.
  - rewrite orb_false_r, startswith_spec. split.
    + intros [post H]. by exists "", post.
    + intros [pre [post H]]. destruct pre; [by exists post | discriminate].
  - rewrite orb_true_iff, startswith_spec, IH. split.
    + intros [[post H] | [pre [post H]]].
      * by exists "", post.
      * exists (String c pre), post. rewrite append_cons. by rewrite H.
    + intros [pre [post H]]. destruct pre as [|c' pre].
      * left. by exists post.
      * right. exists pre, post. rewrite append_cons in H. congruence.
Qed.

Lemma find_from_Some (f : Z -> bool) a k n y :
  find f (map (fun i : nat => a + Z.of_nat i) (seq k n)) = Some y ->
  a + Z.of_nat k <= y < a + Z.of_nat k + Z.of_nat n /\ f y = true /\
  forall y', a + Z.of_nat k <= y' < y -> f y' = false.
Proof.
  revert k. induction n as [|n IH]; intros k; simpl; [done|].
  destruct (f (a + Z.of_nat k)) eqn:E.
  - intros [= <-]. repeat split; [lia | lia | done | intros; lia].
  - intros H. apply IH in H as (Hr & Hf & Hmin).
    repeat split; [lia | lia | done |].
    intros y' Hy'. destruct (decide (y' = a + Z.of_nat k)) as [-> | Hne]; [done|].
    apply Hmin. lia.
Qed.

Lemma find_from_None (f : Z -> bool) a k n :
  find f (map (fun i : nat => a + Z.of_nat i) (seq k n)) = None ->
  forall y, a + Z.of_nat k <= y < a + Z.of_nat k + Z.of_nat n -> f y = false.
Proof.
  revert k. induction n as [|n IH]; intros k; simpl; [intros; lia|].
  destruct (f (a + Z.of_nat k)) eqn:E; [done|].
  intros H y Hy. destruct (decide (y = a + Z.of_nat k)) as [-> | Hne]; [done|].
  apply (IH (S k) H). lia.
Qed.

(** A [for x in range(a, b)] loop that stops at the first hit returns the
    least hit. *)
Lemma find_range_Some (f : Z -> bool) a b y :
  find f (range a b) = Some y ->
  a <= y < b /\ f y = true /\ forall y', a <= y' < y -> f y' = false.
Proof.
  unfold range. intros H. apply find_from_Some in H as (Hr & Hf & Hmin).
  repeat split; [lia | lia | done | intros; apply Hmin; lia].
Qed.

Lemma find_range_None (f : Z -> bool) a b :
  find f (range a b) = None -> forall y, a <= y < b -> f y = false.
Proof.
  unfold range. intros H y Hy. apply (find_from_None _ _ _ _ H). lia.
Qed.

Lemma find_range_least (f : Z -> bool) a b y :
  a <= y < b -> f y = true -> (forall y', a <= y' < y -> f y' = false) ->
  find f (range a b) = Some y.
Proof.
  intros Hr Hf Hmin. destruct (find f (range a b)) as [z|] eqn:E.
  - apply find_range_Some in E as (Hz & Hfz & Hzmin). f_equal.
    destruct (Z.lt_trichotomy z y) as [Hlt | [-> | Hgt]]; [|done|].
    + rewrite Hmin in Hfz; [done | lia].
    + rewrite Hzmin in Hf; [done | lia].
  - rewrite (find_range_None _ _ _ E) in Hf; [done | lia].
Qed.

Lemma find_some_iff {A} (f : A -> bool) (l : list A) :
  is_Some (find f l) <-> exists x, x ∈ l /\ f x = true.
Proof.
  induction l as [|a l IH]; simpl.
  - split; [intros [? [=]] | intros (x & Hx & _); by apply elem_of_nil in Hx].
  - destruct (f a) eqn:E.
    + split; [intros _; exists a; split; [left | done] | by eauto].
    + rewrite IH. split; intros (x & Hx & Hf).
      * exists x. split; [by right | done].
      * apply elem_of_cons in Hx as [-> | Hx]; [congruence | eauto].
Qed.

End PyStrFacts.

(** ** Profile derivation *)

Section DerivationFacts.
Import PyStr Derivation.

Lemma detect_gender_male u :
  (exists m, m ∈ male_indicators /\ contains m u = true) ->
  detect_gender u = Some "Homme".
Proof.
  intros H. apply find_some_iff in H as [m Hm].
  unfold detect_gender. by rewrite Hm.
Qed.

Lemma detect_gender_female u :
  (forall m, m ∈ male_indicators -> contains m u = false) ->
  (exists f, f ∈ female_indicators /\ contains f u = true) ->
  detect_gender u = Some "Femme".
Proof.
  intros Hm Hf. unfold detect_gender.
  destruct (find _ male_indicators) as [m|] eqn:E.
  - assert (is_Some (find (fun i => contains i u) male_indicators)) as Hs by (rewrite E; eauto).
    apply find_some_iff in Hs as (x & Hx & Hc). rewrite Hm in Hc; done.
  - apply find_some_iff in Hf as [f Hf]. by rewrite Hf.
Qed.

Lemma detect_gender_none u :
  (forall m, m ∈ male_indicators -> contains m u = false) ->
  (forall f, f ∈ female_indicators -> contains f u = false) ->
  detect_gender u = None.
Proof.
  intros Hm Hf. unfold detect_gender.
  destruct (find _ male_indicators) as [m|] eqn:E.
  - assert (is_Some (find (fun i => contains i u) male_indicators)) as Hs by (rewrite E; eauto).
    apply find_some_iff in Hs as (x & Hx & Hc). rewrite Hm in Hc; done.
  - destruct (find _ female_indicators) as [f|] eqn:E'; [|done].
    assert (is_Some (find (fun i => contains i u) female_indicators)) as Hs by (rewrite E'; eauto).
    apply find_some_iff in Hs as (x & Hx & Hc). rewrite Hf in Hc; done.
Qed.

(** C6: derivation is a function of the handle and the current year; the
    male indicators are scanned first and the female ones only when none
    of them occurs in the lower-cased handle, so "AnnaMax" is "Homme"; and
    the handle "alex1990paris07" gives gender "Homme", age
    [current_year - 1990] and city "Paris". *)
Theorem derivation_male_first_and_example :
  (forall current_year,
     _analyze_username current_year "alex1990paris07" =
     {| info_gender := Some "Homme";
        info_age := Some (current_year - 1990);
        info_city := Some "Paris" |})
  /\ (forall current_year,
        info_gender (_analyze_username current_year "AnnaMax") = Some "Homme")
  /\ (forall current_year u,
        (exists m, m ∈ male_indicators /\ contains m (lower u) = true) ->
        info_gender (_analyze_username current_year u) = Some "Homme")
  /\ (forall current_year u,
        (forall m, m ∈ male_indicators -> contains m (lower u) = false) ->
        (exists f, f ∈ female_indicators /\ contains f (lower u) = true) ->
        info_gender (_analyze_username current_year u) = Some "Femme")
  /\ (forall current_year u,
        (forall m, m ∈ male_indicators -> contains m (lower u) = false) ->
        (forall f, f ∈ female_indicators -> contains f (lower u) = false) ->
        info_gender (_analyze_username current_year u) = None).
Proof.
  split; [|split; [|split; [|split]]].
  - intros cy. unfold _analyze_username, detect_age.
    replace (birth_year "alex1990paris07") with (Some 1990) by (vm_compute; reflexivity).
    replace (detect_gender (lower "alex1990paris07")) with (Some "Homme")
      by (vm_compute; reflexivity).
    replace (detect_city (lower "alex1990paris07")) with (Some "Paris")
      by (vm_compute; reflexivity).
    reflexivity.
  - intros cy. vm_compute. reflexivity.
  - intros cy u H. simpl. by apply detect_gender_male.
  - intros cy u Hm Hf. simpl. by apply detect_gender_female.
  - intros cy u Hm Hf. simpl. by apply detect_gender_none.
Qed.

End DerivationFacts.

Section AgeScanFacts.
Import PyStr Derivation.

Lemma detect_age_birth_year cy u y :
  1980 <= y <= 2009 -> contains (str y) u = true ->
  (forall y', 1980 <= y' < y -> contains (str y') u = false) ->
  detect_age cy u = Some (cy - y).
Proof.
  intros Hr Hc Hmin. unfold detect_age, birth_year.
  rewrite (find_range_least (fun year => contains (str year) u) 1980 2010 y);
    [done | lia | done | done].
Qed.

Lemma detect_age_direct cy u i :
  (forall y, 1980 <= y <= 2009 -> contains (str y) u = false) ->
  18 <= i <= 99 -> contains (str i) u = true ->
  (forall i', 18 <= i' < i -> contains (str i') u = false) ->
  detect_age cy u = Some i.
Proof.
  intros Hno Hr Hc Hmin. unfold detect_age, birth_year, direct_age.
  destruct (find _ (range 1980 2010)) as [y|] eqn:E.
  - apply find_range_Some in E as (Hy & Hfy & _). rewrite Hno in Hfy; [done | lia].
  - apply (find_range_least (fun j => contains (str j) u)); [lia | done | done].
Qed.

Lemma detect_age_origin cy u a :
  detect_age cy u = Some a ->
  (exists y, 1980 <= y <= 2009 /\ contains (str y) u = true /\
             (forall y', 1980 <= y' < y -> contains (str y') u = false) /\
             a = cy - y)
  \/ ((forall y, 1980 <= y <= 2009 -> contains (str y) u = false) /\
      18 <= a <= 99 /\ contains (str a) u = true /\
      (forall i', 18 <= i' < a -> contains (str i') u = false)).
Proof.
  unfold detect_age, birth_year, direct_age.
  destruct (find _ (range 1980 2010)) as [y|] eqn:E.
  - intros [= <-]. left. apply find_range_Some in E as (Hy & Hfy & Hmin).
    exists y. repeat split; [lia | lia | done | done].
  - intros H. right. apply find_range_Some in H as (Ha & Hfa & Hmin).
    repeat split; [|lia|lia|done|done].
    intros y Hy. apply (find_range_None _ _ _ E). lia.
Qed.

(** C10: the birth-year scan tries 1980, 1981, ..., 2009 in this order, so
    the age comes from the least year of that range that occurs in the
    handle, wherever it stands; a year from 2010 on is never the year the
    age is computed from; and when no year of the range occurs, the age
    is the least number of 18..99 whose decimal writing occurs in the
    handle. *)
Theorem age_scan_is_numeric_order :
  (forall cy u y,
      1980 <= y <= 2009 -> contains (str y) u = true ->
      (forall y', 1980 <= y' < y -> contains (str y') u = false) ->
      info_age (_analyze_username cy u) = Some (cy - y))
  /\ (forall cy u i,
      (forall y, 1980 <= y <= 2009 -> contains (str y) u = false) ->
      18 <= i <= 99 -> contains (str i) u = true ->
      (forall i', 18 <= i' < i -> contains (str i') u = false) ->
      info_age (_analyze_username cy u) = Some i)
  /\ (forall cy u a,
      info_age (_analyze_username cy u) = Some a ->
      (exists y, 1980 <= y <= 2009 /\ contains (str y) u = true /\
                 (forall y', 1980 <= y' < y -> contains (str y') u = false) /\
                 a = cy - y)
      \/ ((forall y, 1980 <= y <= 2009 -> contains (str y) u = false) /\
          18 <= a <= 99 /\ contains (str a) u = true /\
          (forall i', 18 <= i' < a -> contains (str i') u = false)))
  /\ (forall cy, info_age (_analyze_username cy "x2005y1985") = Some (cy - 1985))
  /\ (forall cy, info_age (_analyze_username cy "bob2010") = Some 20)
  /\ (forall cy, info_age (_analyze_username cy "a99b18") = Some 18).
Proof.
  refine (conj _ (conj _ (conj _ (conj _ (conj _ _))))).
  - intros cy u y. apply detect_age_birth_year.
  - intros cy u i. apply detect_age_direct.
  - intros cy u a. apply detect_age_origin.
  - intros cy. simpl. unfold detect_age.
    replace (birth_year "x2005y1985") with (Some 1985) by (vm_compute; reflexivity).
    reflexivity.
  - intros cy. simpl. unfold detect_age.
    replace (birth_year "bob2010") with (@None Z) by (vm_compute; reflexivity).
    vm_compute. reflexivity.
  - intros cy. simpl. unfold detect_age.
    replace (birth_year "a99b18") with (@None Z) by (vm_compute; reflexivity).
    vm_compute. reflexivity.
Qed.

End AgeScanFacts.

(** ** The write serializer *)

Section SerializerFacts.
Import Database Serializer.

Lemma put_unbounded {A} (block : bool) (q : list A) (x : A) :
  PyQueue.put write_queue_maxsize block q x = PyQueue.Enqueued (q ++ [x]).
Proof. reflexivity. Qed.

Lemma submit_enqueues op dm :
  submit op dm =
  PyQueue.Enqueued {| db := db dm; write_queue := write_queue dm ++ [op] |}.
Proof. reflexivity. Qed.

Lemma replay_app ops1 ops2 s :
  replay (ops1 ++ ops2) s = replay ops2 (replay ops1 s).
Proof. unfold replay. apply fold_left_app. Qed.

Lemma database_writer_prefix q q' s :
  _database_writer (length q) {| db := s; write_queue := q ++ q' |} =
  {| db := replay q s; write_queue := q' |}.
Proof.
  revert s. induction q as [|op q IH]; intros s; [done|].
  simpl. unfold _database_writer_step. simpl. apply IH.
Qed.

Lemma drain_replay dm :
  drain dm = {| db := replay (write_queue dm) (db dm); write_queue := [] |}.
Proof.
  unfold drain. destruct dm as [s q]. simpl.
  rewrite <- (app_nil_r q) at 2. apply database_writer_prefix.
Qed.

Lemma drain_submit op dm :
  drain {| db := db dm; write_queue := write_queue dm ++ [op] |} =
  {| db := _execute_write_operation op (replay (write_queue dm) (db dm));
     write_queue := [] |}.
Proof. rewrite drain_replay. simpl. by rewrite replay_app. Qed.

(** What the store will hold once the queue is empty does not change when
    the writer takes a turn. *)
Lemma writer_step_pending dm :
  replay (write_queue (_database_writer_step dm)) (db (_database_writer_step dm)) =
  replay (write_queue dm) (db dm).
Proof. destruct dm as [s [|op q]]; reflexivity. Qed.

Lemma run_schedule_pending sched dm :
  exists dm',
    run_schedule sched dm = Some dm' /\
    replay (write_queue dm') (db dm') =
    replay (write_queue dm ++ submitted sched) (db dm).
Proof.
  revert dm. induction sched as [|ev sched IH]; intros dm.
  - exists dm. by rewrite app_nil_r.
  - destruct ev as [op|]; simpl.
    + destruct (IH {| db := db dm; write_queue := write_queue dm ++ [op] |})
        as (dm' & Hrun & Hrep).
      exists dm'. split; [done|]. rewrite Hrep. simpl. by rewrite <- app_assoc.
    + destruct (IH (_database_writer_step dm)) as (dm' & Hrun & Hrep).
      exists dm'. split; [done|]. rewrite Hrep.
      rewrite !replay_app. by rewrite writer_step_pending.
Qed.

(** C3: whatever the interleaving of submissions and turns of the one
    writer thread, the schedule runs to its end, a submission leaves the
    store untouched, each turn of the writer executes the oldest queued
    intent, and once the writer has emptied the queue the store is the one
    obtained by executing the intents one by one in submission order. *)
Theorem writer_applies_in_submission_order :
  (forall sched dm,
      exists dm',
        run_schedule sched dm = Some dm' /\
        write_queue (drain dm') = [] /\
        db (drain dm') = replay (write_queue dm ++ submitted sched) (db dm))
  /\ (forall sched s0,
      exists dm',
        run_schedule sched {| db := s0; write_queue := [] |} = Some dm' /\
        db (drain dm') = replay (submitted sched) s0)
  /\ (forall op dm dm', run_event (Submit op) dm = Some dm' -> db dm' = db dm)
  /\ (forall op q s,
      _database_writer_step {| db := s; write_queue := op :: q |} =
      {| db := _execute_write_operation op s; write_queue := q |}).
Proof.
  refine (conj _ (conj _ (conj _ _))).
  - intros sched dm. destruct (run_schedule_pending sched dm) as (dm' & Hrun & Hrep).
    exists dm'. rewrite drain_replay. simpl. by rewrite Hrep.
  - intros sched s0.
    destruct (run_schedule_pending sched {| db := s0; write_queue := [] |})
      as (dm' & Hrun & Hrep).
    exists dm'. rewrite drain_replay. simpl. by rewrite Hrep.
  - intros op dm dm'. simpl. by intros [= <-].
  - reflexivity.
Qed.

End SerializerFacts.

(** ** What [sqlite3] accepts *)

Section StorableFacts.
Import PyStr Derivation Database Bot Serializer.

Lemma sqlite_integer_range z :
  Is_true (sqlite_integer z) <-> (- 2 ^ 63 <= z < 2 ^ 63).
Proof.
  unfold sqlite_integer.
  rewrite andb_True, !Is_true_true, Z.leb_le, Z.ltb_lt. done.
Qed.

Lemma storable_spec data :
  Is_true (storable data) <->
  (forall a, col_age data = Some a -> - 2 ^ 63 <= a < 2 ^ 63) /\
  - 2 ^ 63 <= col_conversation_count data < 2 ^ 63.
Proof.
  unfold storable. rewrite andb_True, (sqlite_integer_range (col_conversation_count data)).
  destruct (col_age data) as [a|].
  - rewrite sqlite_integer_range. split.
    + intros [Ha Hc]. split; [by intros ? [= <-] | done].
    + intros [Ha Hc]. split; [by apply Ha | done].
  - split; [intros [_ Hc]; by split | intros [_ Hc]; by split].
Qed.

Lemma all_storable_spec (m : gmap string user_row) :
  Is_true (all_storable m) <-> map_Forall (fun _ r => Is_true (storable r)) m.
Proof. unfold all_storable. by rewrite bool_decide_spec. Qed.

(** An accepted tuple becomes the row of its key. *)
Lemma execute_write_stored key data s :
  Is_true (storable data) ->
  users (_execute_write_operation (save_user key data) s) = <[key := data]> (users s)
  /\ conversations (_execute_write_operation (save_user key data) s) = conversations s.
Proof.
  intros H. unfold _execute_write_operation, execute.
  destruct (decide (Is_true (all_storable (<[key:=data]> (users s))))) as [|No];
    [done|].
  destruct No. apply all_storable_spec, map_Forall_insert_2; [done|].
  apply all_storable_spec, users_stored.
Qed.

(** A refused tuple leaves the database as it was. *)
Lemma execute_write_refused key data s :
  ~ Is_true (storable data) ->
  _execute_write_operation (save_user key data) s = s.
Proof.
  intros H. unfold _execute_write_operation, execute.
  destruct (decide (Is_true (all_storable (<[key:=data]> (users s))))) as [Yes|];
    [|done].
  destruct H. apply all_storable_spec in Yes.
  apply (Yes key data). apply lookup_insert_eq.
Qed.

(** Accepted or not, a tuple for [users] leaves [conversations] alone. *)
Lemma execute_write_user_conversations key data s :
  conversations (_execute_write_operation (save_user key data) s) = conversations s.
Proof.
  destruct (decide (Is_true (storable data))) as [Yes|No].
  - by apply execute_write_stored.
  - by rewrite execute_write_refused.
Qed.

Lemma execute_write_conversation data s :
  users (_execute_write_operation (save_conversation data) s) = users s
  /\ conversations (_execute_write_operation (save_conversation data) s) =
     conversations s ++ [data].
Proof. done. Qed.

(** What [get_user_profile] reads can be written back. *)
Lemma get_user_profile_storable now u dm :
  Is_true (storable (profile_tuple now (get_user_profile u dm))).
Proof.
  unfold get_user_profile. destruct (users (db dm) !! u) as [r|] eqn:E; [|done].
  exact (proj1 (all_storable_spec _) (users_stored (db dm)) u r E).
Qed.

(** The row of an accepted tuple as [get_user_profile] reads it. *)
Lemma get_inserted u r s q :
  Is_true (storable r) ->
  get_user_profile u
    {| db := _execute_write_operation (save_user u r) s; write_queue := q |} =
  {| username := u; age := col_age r; gender := col_gender r;
     city := col_city r; last_seen := col_last_seen r;
     conversation_count := col_conversation_count r;
     targeted := col_targeted r; whois_info := col_whois_info r |}.
Proof.
  intros H. unfold get_user_profile. simpl.
  destruct (execute_write_stored u r s H) as [-> _]. by rewrite lookup_insert_eq.
Qed.

Lemma storable_profile now p :
  Is_true (storable (profile_tuple now p)) <->
  (forall a, age p = Some a -> - 2 ^ 63 <= a < 2 ^ 63) /\
  - 2 ^ 63 <= conversation_count p < 2 ^ 63.
Proof. by rewrite storable_spec. Qed.

(** The ages derived from a handle in a year of [datetime]. *)
Lemma detect_age_small cy u a :
  1 <= cy <= 9999 -> detect_age cy u = Some a -> (- 2 ^ 63 <= a < 2 ^ 63).
Proof.
  intros Hcy [(y & Hy & _ & _ & ->) | (_ & Ha & _)]%detect_age_origin; lia.
Qed.

Lemma current_year_range e : 1 <= current_year e <= 9999.
Proof.
  pose proof (year_of_datetime e) as H.
  apply andb_True in H as [H1 H2]. apply Is_true_true in H1, H2. lia.
Qed.

(** What an analysis works out can be written, with the counter as it is
    and with the counter of a first opening message. *)
Lemma analyzed_profile_storable e bp u w :
  Is_true (storable (profile_tuple (now e) (analyzed_profile e bp u w))).
Proof.
  pose proof (get_user_profile_storable (now e) u (dbm w)) as Hs.
  apply storable_profile in Hs as [Hage Hcount].
  apply storable_profile. split; [|done].
  unfold analyzed_profile. simpl. intros a.
  destruct (negb _ && _) eqn:E.
  - apply (detect_age_small _ _ _ (current_year_range e)).
  - apply Hage.
Qed.

Lemma incr_storable now p :
  Is_true (storable (profile_tuple now p)) ->
  conversation_count p = 0 ->
  Is_true (storable (profile_tuple now (incr_conversation_count p))).
Proof.
  rewrite !storable_profile. simpl. intros [Hage _] ->. split; [done | lia].
Qed.

End StorableFacts.

(** ** Submissions and what becomes of them *)

Section SubmissionFacts.
Import PyStr Database Serializer Examples.



End SubmissionFacts.

(** ** One analysis, and analyses in sequence *)

Section AnalysisFacts.
Import PyStr Database Bot Serializer Sequential.

Lemma analyzed_profile_username e bp u w :
  username (analyzed_profile e bp u w) = u.
Proof. unfold analyzed_profile, get_user_profile. by destruct (users _ !! u). Qed.

Lemma analyzed_profile_count e bp u w :
  conversation_count (analyzed_profile e bp u w) =
  conversation_count (get_user_profile u (dbm w)).
Proof. reflexivity. Qed.

(** [_analyze_user] always returns, and this is the state it leaves. *)
Lemma analyze_user_returns e bp u w :
  _analyze_user e bp u w =
  Returned tt
    {| dbm := {| db := db (dbm w);
                 write_queue := write_queue (dbm w) ++ analysis_writes e bp u w |};
       users_being_analyzed := users_being_analyzed w ∖ {[u]};
       analysis_queue := analysis_queue w;
       analysis_worker_started := analysis_worker_started w;
       outbox := outbox w ++
                 (if engagement_fires e bp u w
                  then [(u, opening_message e bp u w)] else []) |}.
Proof.
  unfold _analyze_user, analysis_writes, engagement_fires, opening_message,
    _initiate_conversation, root_after, db_call, save_user_profile.
  rewrite !submit_enqueues.
  pose proof (analyzed_profile_username e bp u w) as Hu.
  remember (analyzed_profile e bp u w) as p eqn:Hp. clear Hp.
  destruct w as [[s q] uba aq st ob].
  destruct (gui_fault e), (targeted p), (conversation_count p =? 0), (conn e);
    simpl; rewrite ?Hu, ?app_nil_r, <- ?app_assoc; reflexivity.
Qed.

Lemma users_replay_save_user u r s :
  Is_true (storable r) ->
  users (replay [save_user u r] s) = <[u := r]> (users s).
Proof. intros H. by apply execute_write_stored. Qed.

Lemma users_replay_analysis_writes e bp u w s :
  users (replay (analysis_writes e bp u w) s) =
  <[u := profile_tuple (now e)
           (if engagement_fires e bp u w
            then incr_conversation_count (analyzed_profile e bp u w)
            else analyzed_profile e bp u w)]> (users s).
Proof.
  pose proof (analyzed_profile_storable e bp u w) as Hs.
  unfold analysis_writes. destruct (engagement_fires e bp u w) eqn:Hf; simpl.
  - destruct (execute_write_stored u _ s Hs) as [H1 _].
    assert (conversation_count (analyzed_profile e bp u w) = 0) as H0.
    { unfold engagement_fires in Hf.
      repeat (apply andb_prop in Hf as [Hf ?]). lia. }
    destruct (execute_write_stored u _
                (_execute_write_operation
                   (save_user u (profile_tuple (now e) (analyzed_profile e bp u w))) s)
                (incr_storable _ _ Hs H0)) as [H2 _].
    unfold replay. simpl. rewrite H2, H1. by rewrite insert_insert_eq.
  - by apply execute_write_stored.
Qed.

Lemma engagement_fires_count e bp u w :
  engagement_fires e bp u w = true -> stored_count u w = 0.
Proof.
  unfold engagement_fires, stored_count. rewrite analyzed_profile_count.
  intros H. repeat (apply andb_prop in H as [H ?]). lia.
Qed.

(** One cycle: the analysis, then the writer until its queue is empty. *)
Lemma cycle_returns bp e u w :
  exists w',
    cycle bp (e, u) w = Returned tt w' /\
    write_queue (dbm w') = [] /\
    outbox w' = outbox w ++
                (if engagement_fires e bp u w
                 then [(u, opening_message e bp u w)] else []) /\
    users (db (dbm w')) =
    <[u := profile_tuple (now e)
             (if engagement_fires e bp u w
              then incr_conversation_count (analyzed_profile e bp u w)
              else analyzed_profile e bp u w)]>
      (users (replay (write_queue (dbm w)) (db (dbm w)))).
Proof.
  unfold cycle. simpl. rewrite analyze_user_returns. simpl.
  eexists. split; [reflexivity|]. simpl.
  rewrite drain_replay. simpl.
  repeat split. by rewrite replay_app, users_replay_analysis_writes.
Qed.

Lemma cycle_stored_count bp e u w w' :
  cycle bp (e, u) w = Returned tt w' ->
  stored_count u w' =
  stored_count u w + (if engagement_fires e bp u w then 1 else 0).
Proof.
  destruct (cycle_returns bp e u w) as (w1 & -> & _ & _ & Husers).
  intros [= <-]. unfold stored_count at 1, get_user_profile.
  rewrite Husers, lookup_insert_eq.
  destruct (engagement_fires e bp u w); unfold stored_count; simpl; lia.
Qed.

Lemma cycle_stored_count_other bp e u h w w' :
  u <> h -> write_queue (dbm w) = [] ->
  cycle bp (e, u) w = Returned tt w' ->
  stored_count h w' = stored_count h w.
Proof.
  intros Hne Hq.
  destruct (cycle_returns bp e u w) as (w1 & -> & _ & _ & Husers).
  intros [= <-]. unfold stored_count, get_user_profile.
  rewrite Husers, Hq. simpl. by rewrite lookup_insert_ne.
Qed.

Lemma engagements_app h w l :
  length (filter (fun m : string * string => m.1 = h) (outbox w ++ l)) =
  (engagements h w + length (filter (fun m : string * string => m.1 = h) l))%nat.
Proof. unfold engagements. by rewrite filter_app, length_app. Qed.

Lemma cycle_engagements bp e u h w w' :
  cycle bp (e, u) w = Returned tt w' ->
  engagements h w' =
  (engagements h w +
   (if bool_decide (u = h) && engagement_fires e bp u w then 1 else 0))%nat.
Proof.
  destruct (cycle_returns bp e u w) as (w1 & -> & _ & Hob & _).
  intros [= <-]. unfold engagements at 1. rewrite Hob, engagements_app.
  f_equal. destruct (engagement_fires e bp u w); simpl.
  - rewrite filter_cons. simpl. case_bool_decide; case_decide; simpl; congruence.
  - by rewrite andb_false_r.
Qed.

Lemma get_user_profile_username u dm : username (get_user_profile u dm) = u.
Proof. unfold get_user_profile. by destruct (users (db dm) !! u). Qed.

Lemma public_message_returns bp e nick w :
  exists w',
    public_message bp (e, nick) w = Returned tt w' /\
    write_queue (dbm w') = [] /\
    outbox w' = outbox w /\
    (write_queue (dbm w) = [] -> forall h, stored_count h w' = stored_count h w).
Proof.
  unfold public_message, on_pubmsg, db_call, save_user_profile. cbn [fst snd].
  rewrite submit_enqueues.
  destruct (String.eqb nick (nickname bp)); simpl;
    (eexists; split; [reflexivity|]); rewrite drain_replay; simpl;
    (split; [done|]); (split; [done|]); intros Hq h; rewrite Hq;
    unfold stored_count, get_user_profile at 1; simpl; [done|].
  rewrite get_user_profile_username.
  destruct (execute_write_stored nick
              (profile_tuple (now e)
                 (with_last_seen (now e) (get_user_profile nick (dbm w))))
              (db (dbm w)) (get_user_profile_storable (now e) nick (dbm w))) as [Hus _].
  unfold replay. simpl. rewrite Hus.
  destruct (decide (nick = h)) as [-> | Hne].
  - rewrite lookup_insert_eq. simpl. unfold get_user_profile.
    by destruct (users (db (dbm w)) !! h).
  - by rewrite lookup_insert_ne.
Qed.

Lemma public_message_engagements bp e nick h w w' :
  public_message bp (e, nick) w = Returned tt w' ->
  engagements h w' = engagements h w.
Proof.
  destruct (public_message_returns bp e nick w) as (w1 & -> & _ & Hob & _).
  intros [= <-]. unfold engagements. by rewrite Hob.
Qed.

(** Every turn returns, with the write queue empty. *)
Lemma turn_returns bp a w :
  exists w', turn bp a w = Returned tt w' /\ write_queue (dbm w') = [].
Proof.
  destruct a as [[e u] | [e nick]]; simpl.
  - destruct (cycle_returns bp e u w) as (w' & ? & ? & _). eauto.
  - destruct (public_message_returns bp e nick w) as (w' & ? & ? & _). eauto.
Qed.

(** What one turn does to the messages sent to [h] and to the counter
    stored for [h], from a state whose write queue is empty. *)
Lemma turn_effect bp a h w w' :
  write_queue (dbm w) = [] ->
  turn bp a w = Returned tt w' ->
  (engagements h w' = engagements h w /\ stored_count h w' = stored_count h w)
  \/ (engagements h w' = S (engagements h w) /\ stored_count h w = 0 /\
      stored_count h w' = 1).
Proof.
  intros Hq. destruct a as [[e u] | [e nick]]; simpl; intros Ht.
  - pose proof (cycle_engagements bp e u h w w' Ht) as Heng.
    destruct (decide (u = h)) as [-> | Hne].
    + rewrite bool_decide_true in Heng by done. simpl in Heng.
      pose proof (cycle_stored_count bp e h w w' Ht) as Hcount.
      destruct (engagement_fires e bp h w) eqn:Hf.
      * apply engagement_fires_count in Hf. right. repeat split; lia.
      * left. split; lia.
    + rewrite bool_decide_false in Heng by done. simpl in Heng.
      left. split; [lia|]. by eapply cycle_stored_count_other.
  - left. split; [by eapply public_message_engagements|].
    destruct (public_message_returns bp e nick w) as (w1 & Hr & _ & _ & Hsame).
    rewrite Hr in Ht. injection Ht as <-. by apply Hsame.
Qed.

(** Turns taken in sequence from a state whose write queue is empty. *)
Lemma turns_bounded bp acts : forall w h,
  write_queue (dbm w) = [] ->
  exists w',
    turns bp acts w = Returned tt w' /\
    (engagements h w' <= engagements h w + 1)%nat /\
    (stored_count h w <> 0 -> engagements h w' = engagements h w).
Proof.
  induction acts as [|a acts IH]; intros w h Hq.
  - exists w. simpl. split; [done|]. split; [lia | done].
  - destruct (turn_returns bp a w) as (w1 & Ht & Hq1).
    destruct (IH w1 h Hq1) as (w' & Hts & Hle & Hkeep).
    exists w'. simpl. rewrite Ht. simpl. split; [done|].
    destruct (turn_effect bp a h w w1 Hq Ht) as [[He Hc] | (He & Hc0 & Hc1)].
    + split; [lia|]. intros Hnz. rewrite Hkeep; [lia | congruence].
    + split; [rewrite Hkeep; lia | intros; lia].
Qed.

End AnalysisFacts.

Section EngagementFacts.
Import PyStr Database Bot Serializer Sequential.

Lemma first_turn_engagements bp a h w w' :
  turn bp a w = Returned tt w' ->
  (engagements h w' = engagements h w)
  \/ (engagements h w' = S (engagements h w) /\ stored_count h w' <> 0).
Proof.
  destruct a as [[e u] | [e nick]]; simpl; intros Ht.
  - pose proof (cycle_engagements bp e u h w w' Ht) as Heng.
    destruct (decide (u = h)) as [-> | Hne].
    + rewrite bool_decide_true in Heng by done. simpl in Heng.
      pose proof (cycle_stored_count bp e h w w' Ht) as Hcount.
      destruct (engagement_fires e bp h w) eqn:Hf; [|left; lia].
      apply engagement_fires_count in Hf. right. split; lia.
    + rewrite bool_decide_false in Heng by done. simpl in Heng. left. lia.
  - left. by eapply public_message_engagements.
Qed.

Lemma turns_bounded_any bp acts w h :
  exists w',
    turns bp acts w = Returned tt w' /\
    (engagements h w' <= engagements h w + 1)%nat.
Proof.
  destruct acts as [|a acts].
  - exists w. split; [done | lia].
  - destruct (turn_returns bp a w) as (w1 & Ht & Hq1).
    destruct (turns_bounded bp acts w1 h Hq1) as (w' & Hts & Hle & Hkeep).
    exists w'. simpl. rewrite Ht. simpl. split; [done|].
    destruct (first_turn_engagements bp a h w w1 Ht) as [He | [He Hnz]].
    + lia.
    + rewrite Hkeep; [lia | done].
Qed.

(** What the test on the counter achieves when the writer keeps up.  An
    analysis sends an opening message exactly when the profile it worked
    out is targeted, its conversation counter is 0 and the send goes
    through; the analysis then submits the profile with the counter
    incremented, so that once the writer has emptied its queue the stored
    counter is one more than the counter that was read; an analysis that
    reads a counter above 0 sends nothing; and in a sequence of analyses
    and public messages in which each is followed by the writer emptying
    its queue, at most one message is sent to any one handle.  The bot
    does not wait for the writer, and the bound does not hold in
    general. *)
Lemma drained_turns_engage_at_most_once :
  (forall bp e u w,
      exists w',
        _analyze_user e bp u w = Returned tt w' /\
        outbox w' = outbox w ++
                    (if engagement_fires e bp u w
                     then [(u, opening_message e bp u w)] else []))
  /\ (forall bp e u w,
        engagement_fires e bp u w = true ->
        targeted (analyzed_profile e bp u w) = true /\
        conversation_count (get_user_profile u (dbm w)) = 0)
  /\ (forall bp e u w,
        exists w',
          cycle bp (e, u) w = Returned tt w' /\
          stored_count u w' =
          stored_count u w + (if engagement_fires e bp u w then 1 else 0))
  /\ (forall bp e u w,
        0 < conversation_count (get_user_profile u (dbm w)) ->
        engagement_fires e bp u w = false)
  /\ (forall bp acts w h,
        exists w',
          turns bp acts w = Returned tt w' /\
          (engagements h w' <= engagements h w + 1)%nat).
Proof.
  refine (conj _ (conj _ (conj _ (conj _ _)))).
  - intros bp e u w. eexists. rewrite analyze_user_returns. split; reflexivity.
  - intros bp e u w H. split.
    + unfold engagement_fires in H. repeat (apply andb_prop in H as [H ?]). done.
    + by apply engagement_fires_count in H.
  - intros bp e u w. destruct (cycle_returns bp e u w) as (w' & Hc & _).
    exists w'. split; [done|]. by apply cycle_stored_count.
  - intros bp e u w Hpos. destruct (engagement_fires e bp u w) eqn:Hf; [|done].
    apply engagement_fires_count in Hf. unfold stored_count in Hf. lia.
  - intros bp acts w h. apply turns_bounded_any.
Qed.

End EngagementFacts.

(** ** Merge of stored and derived attributes *)

Section MergeFacts.
Import PyStr Database Bot Sequential Examples.

(** C4 as stated fails: a stored age of 0 is a known age, and the merge
    replaces it by the age 25 derived from the handle "bob25". *)
Lemma merge_replaces_stored_age_zero :
  age profile_age_zero = Some 0 /\
  Derivation.info_age (Derivation._analyze_username 2026 "bob25") = Some 25 /\
  age (merge_analyzed_info profile_age_zero
         (Derivation._analyze_username 2026 "bob25")) = Some 25.
Proof. vm_compute. repeat split. Qed.

Lemma truthy_int_Some a : a <> 0 -> truthy_int (Some a) = true.
Proof. intros H. simpl. by destruct (Z.eqb_spec a 0). Qed.

Lemma truthy_str_Some s : s <> "" -> truthy_str (Some s) = true.
Proof. by destruct s. Qed.

(** C4, amended: the merge keeps a stored age other than 0, a stored
    gender and a stored city other than the empty string, whatever was
    derived.  A stored age that is absent or 0, a stored gender or city
    that is absent or the empty string, is replaced by the derived value
    when there is one (an age other than 0, a text other than the empty
    string), and stays as it is otherwise.  The profile an analysis works
    out and submits follows the same rule: a row with such an age, gender
    or city keeps it through the analysis and the writer's turns, and a row
    with age 0 gets the derived age; in particular a row with age 40 keeps
    age 40 whatever the handle, and a profile with age 40 keeps it when the
    handle "bob25" gives 25. *)
Theorem stored_attributes_win :
  (forall p info a,
      age p = Some a -> a <> 0 -> age (merge_analyzed_info p info) = Some a)
  /\ (forall p info g,
      gender p = Some g -> g <> "" -> gender (merge_analyzed_info p info) = Some g)
  /\ (forall p info c,
      city p = Some c -> c <> "" -> city (merge_analyzed_info p info) = Some c)
  /\ (forall e bp u w r a,
      users (db (dbm w)) !! u = Some r -> col_age r = Some a -> a <> 0 ->
      age (analyzed_profile e bp u w) = Some a /\
      exists w' r',
        cycle bp (e, u) w = Returned tt w' /\
        users (db (dbm w')) !! u = Some r' /\ col_age r' = Some a)
  /\ (forall e bp u w r,
      users (db (dbm w)) !! u = Some r -> col_age r = Some 40 ->
      age (analyzed_profile e bp u w) = Some 40)
  /\ (forall p info d,
      age p = None \/ age p = Some 0 ->
      Derivation.info_age info = Some d -> d <> 0 ->
      age (merge_analyzed_info p info) = Some d)
  /\ (forall p info d,
      gender p = None \/ gender p = Some "" ->
      Derivation.info_gender info = Some d -> d <> "" ->
      gender (merge_analyzed_info p info) = Some d)
  /\ (forall p info d,
      city p = None \/ city p = Some "" ->
      Derivation.info_city info = Some d -> d <> "" ->
      city (merge_analyzed_info p info) = Some d)
  /\ (forall p info,
      (Derivation.info_age info = None \/ Derivation.info_age info = Some 0 ->
       age (merge_analyzed_info p info) = age p)
      /\ (Derivation.info_gender info = None \/ Derivation.info_gender info = Some "" ->
          gender (merge_analyzed_info p info) = gender p)
      /\ (Derivation.info_city info = None \/ Derivation.info_city info = Some "" ->
          city (merge_analyzed_info p info) = city p))
  /\ (forall e bp u w r g c,
      users (db (dbm w)) !! u = Some r ->
      (col_gender r = Some g -> g <> "" ->
       exists w' r',
         cycle bp (e, u) w = Returned tt w' /\
         users (db (dbm w')) !! u = Some r' /\ col_gender r' = Some g)
      /\ (col_city r = Some c -> c <> "" ->
          exists w' r',
            cycle bp (e, u) w = Returned tt w' /\
            users (db (dbm w')) !! u = Some r' /\ col_city r' = Some c))
  /\ (forall e bp u w r d,
      users (db (dbm w)) !! u = Some r -> col_age r = Some 0 ->
      Derivation.detect_age (current_year e) u = Some d -> d <> 0 ->
      age (analyzed_profile e bp u w) = Some d /\
      exists w' r',
        cycle bp (e, u) w = Returned tt w' /\
        users (db (dbm w')) !! u = Some r' /\ col_age r' = Some d)
  /\ (age profile_age_40 = Some 40 /\
      Derivation.info_age (Derivation._analyze_username 2026 "bob25") = Some 25 /\
      age (merge_analyzed_info profile_age_40
             (Derivation._analyze_username 2026 "bob25")) = Some 40).
Proof.
  assert (Hage : forall p info a,
             age p = Some a -> a <> 0 -> age (merge_analyzed_info p info) = Some a).
  { intros p info a Hp Ha. simpl. by rewrite Hp, truthy_int_Some. }
  assert (Hprof : forall e bp u w r a,
             users (db (dbm w)) !! u = Some r -> col_age r = Some a -> a <> 0 ->
             age (analyzed_profile e bp u w) = Some a).
  { intros e bp u w r a Hr Hc Ha. unfold analyzed_profile.
    change (age (with_targeted ?b ?p)) with (age p).
    apply Hage; [|done]. simpl. unfold get_user_profile. by rewrite Hr. }
  assert (Hgender : forall p info g,
             gender p = Some g -> g <> "" ->
             gender (merge_analyzed_info p info) = Some g).
  { intros p info g Hp Hg. simpl. by rewrite Hp, truthy_str_Some. }
  assert (Hcity : forall p info c,
             city p = Some c -> c <> "" ->
             city (merge_analyzed_info p info) = Some c).
  { intros p info c Hp Hc. simpl. by rewrite Hp, truthy_str_Some. }
  assert (Hrow : forall e bp u w,
             exists w' r',
               cycle bp (e, u) w = Returned tt w' /\
               users (db (dbm w')) !! u = Some r' /\
               col_age r' = age (analyzed_profile e bp u w) /\
               col_gender r' = gender (analyzed_profile e bp u w) /\
               col_city r' = city (analyzed_profile e bp u w)).
  { intros e bp u w.
    destruct (cycle_returns bp e u w) as (w' & Hcy & _ & _ & Husers).
    exists w'. eexists. split; [done|]. rewrite Husers, lookup_insert_eq.
    split; [done|]. by destruct (engagement_fires e bp u w). }
  assert (Hzero : forall p info d,
             age p = None \/ age p = Some 0 ->
             Derivation.info_age info = Some d -> d <> 0 ->
             age (merge_analyzed_info p info) = Some d).
  { intros p info d Hp Hi Hd. simpl. rewrite Hi, truthy_int_Some by done.
    by destruct Hp as [-> | ->]. }
  refine (conj Hage (conj Hgender (conj Hcity (conj _ (conj _ (conj Hzero
           (conj _ (conj _ (conj _ (conj _ (conj _ _))))))))))).
  - intros e bp u w r a Hr Hc Ha. split; [by eapply Hprof|].
    destruct (Hrow e bp u w) as (w' & r' & Hcy & Hr' & Ha' & _).
    exists w', r'. split; [done|]. split; [done|]. rewrite Ha'. by eapply Hprof.
  - intros e bp u w r Hr Hc. by eapply Hprof.
  - intros p info d Hp Hi Hd. simpl. rewrite Hi, truthy_str_Some by done.
    by destruct Hp as [-> | ->].
  - intros p info d Hp Hi Hd. simpl. rewrite Hi, truthy_str_Some by done.
    by destruct Hp as [-> | ->].
  - intros p info. split; [|split]; intros [H | H]; simpl; rewrite H; simpl;
      by rewrite andb_false_r.
  - intros e bp u w r g c Hr. split.
    + intros Hg Hne. destruct (Hrow e bp u w) as (w' & r' & Hcy & Hr' & _ & Hg' & _).
      exists w', r'. split; [done|]. split; [done|]. rewrite Hg'.
      unfold analyzed_profile. change (gender (with_targeted ?b ?p)) with (gender p).
      apply Hgender; [|done]. simpl. unfold get_user_profile. by rewrite Hr.
    + intros Hc Hne. destruct (Hrow e bp u w) as (w' & r' & Hcy & Hr' & _ & _ & Hc').
      exists w', r'. split; [done|]. split; [done|]. rewrite Hc'.
      unfold analyzed_profile. change (city (with_targeted ?b ?p)) with (city p).
      apply Hcity; [|done]. simpl. unfold get_user_profile. by rewrite Hr.
  - intros e bp u w r d Hr Hc Hd Hne.
    assert (age (analyzed_profile e bp u w) = Some d) as Hd'.
    { unfold analyzed_profile. change (age (with_targeted ?b ?p)) with (age p).
      apply Hzero; [|done|done]. right. simpl. unfold get_user_profile.
      by rewrite Hr. }
    split; [done|].
    destruct (Hrow e bp u w) as (w' & r' & Hcy & Hr' & Ha' & _).
    exists w', r'. split; [done|]. split; [done|]. by rewrite Ha'.
  - split; [|split]; vm_compute; reflexivity.
Qed.

End MergeFacts.

(** ** Targeting policy *)

Section TargetingFacts.
Import PyStr Targeting Examples.

(** C5 as stated fails: age 0 is a known age outside [18, 35], and the
    predicate accepts the profile. *)
Lemma targeting_accepts_age_zero :
  age profile_age_zero = Some 0 /\
  ~ (18 <= 0 <= 35) /\
  _matches_targeting_criteria (bot_18_35 "Tous") profile_age_zero = true.
Proof. split; [done|]. split; [lia|]. vm_compute. reflexivity. Qed.

Lemma string_eqb_false (a b : string) : a <> b -> String.eqb a b = false.
Proof. intros H. by apply String.eqb_neq. Qed.

(** C5, amended: a profile without age, or with age 0, is never rejected
    on its age; a profile whose age is known and not 0 is rejected unless
    the age lies in [age_min, age_max], bounds included; a rejection has
    one of two causes, such an age outside the bounds, or a gender
    criterion other than the wildcard "Tous" (the "any" of the claim)
    together with a known, non-empty gender that differs from it.  With
    bounds 18 and 35, the wildcard accepts a profile of unknown age and
    gender "Homme", and criterion "Femme" rejects a profile of age 40 and
    unknown gender. *)
Theorem targeting_is_permissive :
  (forall bp p,
      age p = None \/ age p = Some 0 ->
      _matches_targeting_criteria bp p = gender_check (target_criteria bp) p)
  /\ (forall bp p a,
      age p = Some a -> a <> 0 ->
      ~ (default 18 (age_min (target_criteria bp)) <= a
         <= default 99 (age_max (target_criteria bp))) ->
      _matches_targeting_criteria bp p = false)
  /\ (forall bp p,
      _matches_targeting_criteria bp p = false ->
      (exists a, age p = Some a /\ a <> 0 /\
                 ~ (default 18 (age_min (target_criteria bp)) <= a
                    <= default 99 (age_max (target_criteria bp))))
      \/ (default Tous (target_gender (target_criteria bp)) <> Tous /\
          exists g, gender p = Some g /\ g <> "" /\
                    g <> default Tous (target_gender (target_criteria bp))))
  /\ (forall bp p g,
      target_criteria bp = criteria_18_35 "Tous" ->
      age p = None -> gender p = Some g ->
      _matches_targeting_criteria bp p = true)
  /\ (forall bp p,
      target_criteria bp = criteria_18_35 "Femme" ->
      age p = Some 40 -> gender p = None ->
      _matches_targeting_criteria bp p = false)
  /\ _matches_targeting_criteria (bot_18_35 "Tous") profile_homme = true
  /\ _matches_targeting_criteria (bot_18_35 "Femme") profile_age_40 = false.
Proof.
  refine (conj _ (conj _ (conj _ (conj _ (conj _ (conj _ _)))))).
  - intros bp p [H | H]; unfold _matches_targeting_criteria, age_check;
      rewrite H; simpl; by destruct (gender_check _ _).
  - intros bp p a Hp Ha Hout. unfold _matches_targeting_criteria, age_check.
    rewrite Hp, truthy_int_Some by done.
    destruct (_ <=? a) eqn:E1; destruct (a <=? _) eqn:E2; simpl; try done.
    exfalso. apply Hout. lia.
  - intros bp p. unfold _matches_targeting_criteria.
    destruct (age_check _ p) eqn:Ea; simpl.
    + destruct (gender_check _ p) eqn:Eg; simpl; [done|]. intros _. right.
      unfold gender_check in Eg.
      destruct (String.eqb _ Tous) eqn:Et; cbn [negb andb] in Eg; [done|].
      apply String.eqb_neq in Et. split; [done|].
      destruct (gender p) as [[|c g]|]; cbn [truthy_str] in Eg; try done.
      exists (String c g). apply String.eqb_neq in Eg. done.
    + intros _. left. unfold age_check in Ea.
      destruct (age p) as [a|]; simpl in Ea; [|done].
      destruct (Z.eqb_spec a 0); simpl in Ea; [done|].
      exists a. repeat split; [done|]. lia.
  - intros bp p g Hc Hp Hg. unfold _matches_targeting_criteria, age_check, gender_check.
    rewrite Hc, Hp. reflexivity.
  - intros bp p Hc Hp Hg. unfold _matches_targeting_criteria, age_check.
    rewrite Hc, Hp. reflexivity.
  - vm_compute. reflexivity.
  - vm_compute. reflexivity.
Qed.

End TargetingFacts.

(** ** The in-flight set and the analysis queue *)

Section ThreadFacts.
Import PyStr Database Bot Threads.

Lemma occurrences_app u l1 l2 :
  occurrences u (l1 ++ l2) = (occurrences u l1 + occurrences u l2)%nat.
Proof. unfold occurrences. by rewrite filter_app, length_app. Qed.

Lemma occurrences_cons u x l :
  occurrences u (x :: l) =
  ((if bool_decide (x = u) then 1 else 0) + occurrences u l)%nat.
Proof.
  unfold occurrences. rewrite filter_cons.
  case_decide; case_bool_decide; simpl; congruence.
Qed.

Lemma occurrences_not_elem u l : u ∉ l -> occurrences u l = 0%nat.
Proof.
  induction l as [|x l IH]; [done|].
  intros H. apply not_elem_of_cons in H as [Hne Hl].
  rewrite occurrences_cons, bool_decide_false by done. simpl. by apply IH.
Qed.

Lemma occurrences_NoDup u l : NoDup l -> (occurrences u l <= 1)%nat.
Proof.
  induction 1 as [|x l Hx _ IH]; [cbv; lia|].
  rewrite occurrences_cons. case_bool_decide as E; simpl; [|lia]. subst x.
  rewrite occurrences_not_elem by done. lia.
Qed.

Lemma on_pubmsg_frame e bp nick w :
  match on_pubmsg e bp nick w with
  | Returned _ w' | Raised w' => same_pipeline w w'
  | Hung => True
  end.
Proof.
  unfold on_pubmsg, db_call, save_user_profile. rewrite submit_enqueues.
  destruct (String.eqb nick (nickname bp)); simpl; done.
Qed.

Lemma on_privmsg_frame e bp nick message w :
  match on_privmsg e bp nick message w with
  | Returned _ w' | Raised w' => same_pipeline w w'
  | Hung => True
  end.
Proof.
  unfold on_privmsg, _generate_intelligent_response, db_call,
    save_conversation_record.
  rewrite submit_enqueues.
  destruct (String.eqb nick (nickname bp)); simpl; [done|].
  destruct (conn e); simpl; try done;
    destruct (DeepSeek.generate_response _ _ _ _); simpl; done.
Qed.

Lemma reactor_call_invariant m s s' :
  match m with
  | Returned _ w' | Raised w' => same_pipeline (bot s) w'
  | Hung => True
  end ->
  reactor_call m s = Some s' -> invariant s -> invariant s'.
Proof.
  unfold reactor_call. intros Hm Hs [Hnd Hmk Hih Had Hhi].
  destruct (reactor s) eqn:Hr; try done.
  assert (exists w', s' = with_bot w' s /\ same_pipeline (bot s) w') as (w' & -> & Hu & Hq & _).
  { destruct m; simplify_eq; eauto. }
  split; unfold pending in *; simpl in *; rewrite ?Hr, ?Hu, ?Hq; done.
Qed.


(** A step that changes none of the parts the invariant reads. *)
Lemma invariant_ext s s' :
  pending s' = pending s ->
  users_being_analyzed (bot s') = users_being_analyzed (bot s) ->
  in_hand (reactor s') = in_hand (reactor s) ->
  added (reactor s') = added (reactor s) ->
  admitted s' = admitted s -> finished s' = finished s ->
  invariant s -> invariant s'.
Proof.
  intros Hp Hu Hi Ha Had Hfi [Hnd Hmk Hih Hadd Hhi].
  split; rewrite ?Hp, ?Hu, ?Hi, ?Ha, ?Had, ?Hfi; done.
Qed.

Lemma reactor_step_invariant bp s s' :
  reactor_step bp s = Some s' -> invariant s -> invariant s'.
Proof.
  unfold reactor_step. intros Hs Hinv.
  destruct (reactor s) as [|k [|name rest]|k name rest|k name rest] eqn:Hr.
  - done.
  - simplify_eq.
    apply (invariant_ext s); unfold pending; simpl; rewrite ?Hr; by destruct k.
  - destruct (negb _ && negb _) eqn:Htest; simplify_eq.
    + apply andb_prop in Htest as [_ Hout].
      apply negb_true_iff, bool_decide_eq_false in Hout.
      destruct Hinv as [Hnd Hmk Hih Hadd Hhi].
      split; unfold pending in *; simpl in *; try done.
      * intros u ->%list_elem_of_singleton Hin. by apply Hout, Hmk.
      * intros u Hin. by apply elem_of_nil in Hin.
    + apply (invariant_ext s); unfold pending; simpl; by rewrite ?Hr.
  - simplify_eq. destruct Hinv as [Hnd Hmk Hih Hadd Hhi]. rewrite Hr in *.
    split; unfold pending in *; simpl in *; try done.
    + intros u Hin. apply elem_of_union_r. by apply Hmk.
    + intros u ->%list_elem_of_singleton. by apply elem_of_union_l, elem_of_singleton.
  - destruct Hinv as [Hnd Hmk Hih Hadd Hhi]. rewrite Hr in *.
    unfold PyQueue.put in Hs.
    destruct (PyQueue.full _ _); simplify_eq.
    + split; unfold pending in *; simpl in *; try done;
        intros u Hu; by apply elem_of_nil in Hu.
    + assert (name ∉ pending s) as Hfresh by (apply Hih; by left).
      assert (name ∈ users_being_analyzed (bot s)) as Hin by (apply Hadd; by left).
      unfold pending in *; simpl in *.
      split; unfold pending; simpl; rewrite ?app_assoc.
      * apply NoDup_app. split; [done|]. split; [|apply NoDup_singleton].
        intros x Hx ->%list_elem_of_singleton. done.
      * intros u [Hu | ->%list_elem_of_singleton]%elem_of_app; [by apply Hmk | done].
      * intros u Hu. by apply elem_of_nil in Hu.
      * intros u Hu. by apply elem_of_nil in Hu.
      * intros u. rewrite occurrences_app, Hhi, !occurrences_app. lia.
Qed.

Lemma worker_get_invariant s s' :
  worker_get s = Some s' -> invariant s -> invariant s'.
Proof.
  unfold worker_get. intros Hs.
  destruct (worker s) eqn:Hw; [|done].
  destruct (analysis_queue (bot s)) as [|u q] eqn:Hq; [done|]. simpl in Hs.
  destruct (analysis_worker_started (bot s)); simplify_eq.
  apply invariant_ext; try done.
  unfold pending. simpl. by rewrite Hw, Hq.
Qed.

Lemma worker_run_invariant e bp s s' :
  worker_run e bp s = Some s' -> invariant s -> invariant s'.
Proof.
  unfold worker_run. intros Hs [Hnd Hmk Hih Hadd Hhi].
  destruct (worker s) as [|u] eqn:Hw; [done|].
  rewrite analyze_user_returns in Hs. simplify_eq.
  unfold pending in *. rewrite Hw in *. simpl in *.
  apply NoDup_cons in Hnd as [Hu Hnd].
  split; unfold pending; simpl; try done.
  - intros v Hv. apply elem_of_difference. split; [apply Hmk; by right|].
    intros ->%elem_of_singleton. done.
  - intros v Hv Hq. apply (Hih v Hv). by right.
  - intros v Hv. apply elem_of_difference. split; [by apply Hadd|].
    intros ->%elem_of_singleton.
    apply (Hih u); [|by left].
    destruct (reactor s); simpl in *; try done; by apply elem_of_nil in Hv.
  - intros v. rewrite occurrences_app, Hhi, !occurrences_cons. simpl.
    change (occurrences v []) with 0%nat. case_bool_decide; lia.
Qed.

Lemma step_invariant bp l s s' :
  step bp l s = Some s' -> invariant s -> invariant s'.
Proof.
  destruct l; simpl.
  - destruct (reactor s) eqn:Hr; [|done..]. intros [= <-].
    apply invariant_ext; simpl; by rewrite ?Hr.
  - destruct (reactor s) eqn:Hr; [|done..]. intros [= <-].
    apply invariant_ext; simpl; by rewrite ?Hr.
  - apply reactor_call_invariant, on_pubmsg_frame.
  - apply reactor_call_invariant, on_privmsg_frame.
  - apply reactor_step_invariant.
  - apply worker_get_invariant.
  - apply worker_run_invariant.
  - intros [= <-]. by apply invariant_ext.
Qed.

Lemma init_invariant s0 : invariant (init s0).
Proof.
  split; unfold pending; simpl; try done;
    try (intros u Hu; by apply elem_of_nil in Hu).
  apply NoDup_nil_2.
Qed.

Lemma run_invariant bp ls : forall s s',
  run bp ls s = Some s' -> invariant s -> invariant s'.
Proof.
  induction ls as [|l ls IH]; intros s s'; simpl.
  - by intros [= <-].
  - destruct (step bp l s) as [s1|] eqn:Hs; [|done].
    intros Hrun Hinv. eapply IH; [done|]. by eapply step_invariant.
Qed.


(** C2: in every state the threads reach, whatever the events and the
    interleaving, no username has two uncompleted tasks (queued or held by
    the worker), every uncompleted task is marked in the in-flight set, a
    name the reactor has tested and not yet enqueued has no task, and the
    tasks admitted for a username exceed its completed analyses by at
    most one. *)
Theorem no_duplicate_dispatch bp s0 ls s :
  run bp ls (init s0) = Some s ->
  NoDup (pending s)
  /\ (forall u, u ∈ pending s -> u ∈ users_being_analyzed (bot s))
  /\ (forall u, u ∈ in_hand (reactor s) -> u ∉ pending s)
  /\ (forall u, (occurrences u (pending s) <= 1)%nat)
  /\ (forall u, (occurrences u (admitted s) <= occurrences u (finished s) + 1)%nat).
Proof.
  intros Hrun.
  destruct (run_invariant bp ls _ _ Hrun (init_invariant s0))
    as [Hnd Hmk Hih Hadd Hhi].
  repeat split; try done.
  - intros u. by apply occurrences_NoDup.
  - intros u. rewrite Hhi. pose proof (occurrences_NoDup u _ Hnd). lia.
Qed.

Lemma leaked_ext u s s' :
  pending s' = pending s ->
  users_being_analyzed (bot s') = users_being_analyzed (bot s) ->
  in_hand (reactor s') = in_hand (reactor s) \/ in_hand (reactor s') = [] ->
  admitted s' = admitted s ->
  leaked u s ->
  leaked u s' /\ occurrences u (admitted s') = occurrences u (admitted s).
Proof.
  intros Hp Hu Hi Ha (Hin & Hnp & Hnh). rewrite Ha. split; [|done].
  unfold leaked. rewrite Hp, Hu. repeat split; try done.
  destruct Hi as [-> | ->]; [done | apply not_elem_of_nil].
Qed.

Lemma leaked_reactor_call u m s s' :
  match m with
  | Returned _ w' | Raised w' => same_pipeline (bot s) w'
  | Hung => True
  end ->
  reactor_call m s = Some s' -> leaked u s ->
  leaked u s' /\ occurrences u (admitted s') = occurrences u (admitted s).
Proof.
  unfold reactor_call. intros Hm Hs.
  destruct (reactor s) eqn:Hr; try done.
  assert (exists w', s' = with_bot w' s /\ same_pipeline (bot s) w')
    as (w' & -> & Hu & Hq & _).
  { destruct m; simplify_eq; eauto. }
  apply leaked_ext; unfold pending; simpl; rewrite ?Hq; auto.
Qed.

Lemma leaked_step bp l u s s' :
  step bp l s = Some s' -> leaked u s ->
  leaked u s' /\ occurrences u (admitted s') = occurrences u (admitted s).
Proof.
  destruct l; simpl.
  - destruct (reactor s) eqn:Hr; [|done..]. intros [= <-].
    apply leaked_ext; simpl; auto.
  - destruct (reactor s) eqn:Hr; [|done..]. intros [= <-].
    apply leaked_ext; simpl; auto.
  - apply leaked_reactor_call, on_pubmsg_frame.
  - apply leaked_reactor_call, on_privmsg_frame.
  - unfold reactor_step.
    destruct (reactor s) as [|k [|name rest]|k name rest|k name rest] eqn:Hr.
    + done.
    + intros [= <-]. apply leaked_ext; unfold pending; simpl; auto; by destruct k.
    + destruct (negb _ && negb _) eqn:Htest; intros [= <-].
      * apply andb_prop in Htest as [_ Hout].
        apply negb_true_iff, bool_decide_eq_false in Hout.
        intros (Hin & Hnp & Hnh). split; [|done].
        repeat split; simpl; try done.
        intros ->%list_elem_of_singleton. done.
      * apply leaked_ext; simpl; auto.
    + intros [= <-] (Hin & Hnp & Hnh). rewrite Hr in Hnh. split; [|done].
      repeat split; simpl; try done. by apply elem_of_union_r.
    + unfold PyQueue.put. destruct (PyQueue.full _ _); intros [= <-].
      * apply leaked_ext; simpl; auto.
      * intros (Hin & Hnp & Hnh). rewrite Hr in Hnh. simpl in Hnh.
        apply not_elem_of_cons in Hnh as [Hne _].
        split.
        -- repeat split; simpl; try done; [|apply not_elem_of_nil].
           unfold pending in *. simpl. rewrite app_assoc.
           apply not_elem_of_app. split; [done|].
           apply not_elem_of_cons. split; [done | apply not_elem_of_nil].
        -- simpl. rewrite occurrences_app, occurrences_cons.
           rewrite bool_decide_false by congruence. simpl.
           change (occurrences u []) with 0%nat. lia.
  - unfold worker_get.
    destruct (worker s) eqn:Hw; [|done].
    destruct (analysis_queue (bot s)) as [|v q] eqn:Hq; [done|]. simpl.
    destruct (analysis_worker_started (bot s)); [|done]. intros [= <-].
    apply leaked_ext; unfold pending; simpl; rewrite ?Hw, ?Hq; auto.
  - unfold worker_run. destruct (worker s) as [|v] eqn:Hw; [done|].
    rewrite analyze_user_returns. intros [= <-] (Hin & Hnp & Hnh).
    unfold pending in Hnp. rewrite Hw in Hnp. simpl in Hnp.
    apply not_elem_of_cons in Hnp as [Hne Hnq].
    split; [|done]. repeat split; simpl; try done.
    apply elem_of_difference. split; [done|].
    intros ?%elem_of_singleton. done.
  - intros [= <-]. apply leaked_ext; simpl; auto.
Qed.

(** A leaked marker stays, and no task is ever admitted for its name. *)
Lemma leaked_forever bp ls : forall u s s',
  run bp ls s = Some s' -> leaked u s ->
  leaked u s' /\ occurrences u (admitted s') = occurrences u (admitted s).
Proof.
  induction ls as [|l ls IH]; intros u s s'; simpl.
  - by intros [= <-].
  - destruct (step bp l s) as [s1|] eqn:Hs; [|done].
    intros Hrun Hl. destruct (leaked_step _ _ _ _ _ Hs Hl) as [Hl1 Ho1].
    destruct (IH _ _ _ Hrun Hl1) as [Hl' Ho']. split; [done | congruence].
Qed.

End ThreadFacts.

Section ThreadExamples.
Import PyStr Database Bot Threads Examples.

Lemma no_duplicate_dispatch_witness :
  run (bot_18_35 "Tous") bob_thrice (init empty_store) = Some (after bob_thrice)
  /\ NoDup (pending (after bob_thrice))
  /\ (forall u, u ∈ pending (after bob_thrice) ->
                u ∈ users_being_analyzed (bot (after bob_thrice)))
  /\ (forall u, u ∈ in_hand (reactor (after bob_thrice)) ->
                u ∉ pending (after bob_thrice))
  /\ (forall u, (occurrences u (pending (after bob_thrice)) <= 1)%nat)
  /\ (forall u, (occurrences u (admitted (after bob_thrice))
                 <= occurrences u (finished (after bob_thrice)) + 1)%nat).
Proof.
  split; [vm_compute; reflexivity|].
  apply (no_duplicate_dispatch (bot_18_35 "Tous") empty_store bob_thrice).
  vm_compute. reflexivity.
Defined.

(** The bound on opening messages is about analyses that read what the
    earlier ones wrote.  When "bob" is analysed a second time
    before the writer has taken its turns, the second analysis reads the
    row as it was and a second opening message is sent; with the writer's
    turns in between, one message is sent. *)
Remark second_analysis_reads_what_writer_applied :
  map fst (outbox (bot (after bob_rejoins_unwritten))) = ["bob"; "bob"]
  /\ map fst (outbox (bot (after bob_rejoins_written))) = ["bob"].
Proof. split; vm_compute; reflexivity. Qed.

(** Whatever its outcome, [_analyze_user] ends with the username out of
    the in-flight set. *)
Lemma analyze_user_releases e bp u w :
  exists w', _analyze_user e bp u w = Returned tt w' /\
             u ∉ users_being_analyzed w'.
Proof.
  eexists. split; [apply analyze_user_returns|]. simpl.
  intros [_ Hu]%elem_of_difference. apply Hu. by apply elem_of_singleton.
Qed.

(** C9 fails on the code: with 50 tasks queued, the join of "u51" adds
    the name to the in-flight set and the [put] that follows raises
    [queue.Full]; nothing removes the name.  Once the worker has completed
    all 50 tasks the set still holds "u51", and in every later state
    "u51" is still in the set, has no task, and has never been admitted. *)
Theorem inflight_marker_never_released :
  run (bot_18_35 "Tous") burst (init empty_store) = Some (after burst)
  /\ pending (after burst) = []
  /\ reactor (after burst) = RIdle
  /\ users_being_analyzed (bot (after burst)) = {["u51"]}
  /\ length (finished (after burst)) = 50%nat
  /\ occurrences "u51" (admitted (after burst)) = 0%nat
  /\ (forall ls s',
        run (bot_18_35 "Tous") ls (after burst) = Some s' ->
        "u51" ∈ users_being_analyzed (bot s') /\
        ("u51" ∉ pending s') /\
        occurrences "u51" (admitted s') = 0%nat).
Proof.
  assert (leaked "u51" (after burst)) as Hleak.
  { split; [|split].
    - replace (users_being_analyzed (bot (after burst))) with ({["u51"]} : gset string)
        by (vm_compute; reflexivity).
      by apply elem_of_singleton.
    - replace (pending (after burst)) with (@nil string) by (vm_compute; reflexivity).
      apply not_elem_of_nil.
    - replace (reactor (after burst)) with RIdle by (vm_compute; reflexivity).
      apply not_elem_of_nil. }
  do 6 (split; [vm_compute; reflexivity|]).
  intros ls s' Hrun.
  destruct (leaked_forever _ _ _ _ _ Hrun Hleak) as [(Hin & Hnp & _) Hocc].
  split; [done|]. split; [done|]. rewrite Hocc. vm_compute. reflexivity.
Qed.

End ThreadExamples.

(** ** Opening messages sent twice *)

Section RepeatedEngagement.
Import PyStr Database Bot Serializer Sequential Threads Examples.

(** The condition of an opening message depends on the row of the user
    through its age, gender and counter, and on the environment
    through the year, the connection and the interface. *)
Lemma engagement_fires_ext e e' bp u w w' :
  current_year e' = current_year e ->
  conn e' = conn e -> gui_fault e' = gui_fault e ->
  age (get_user_profile u (dbm w')) = age (get_user_profile u (dbm w)) ->
  gender (get_user_profile u (dbm w')) = gender (get_user_profile u (dbm w)) ->
  conversation_count (get_user_profile u (dbm w')) =
    conversation_count (get_user_profile u (dbm w)) ->
  engagement_fires e' bp u w' = engagement_fires e bp u w.
Proof.
  intros Hy Hc Hg Ha Hge Hco.
  unfold engagement_fires, analyzed_profile. simpl.
  unfold Targeting._matches_targeting_criteria, Targeting.age_check,
    Targeting.gender_check. simpl.
  by rewrite Hy, Hc, Hg, Ha, Hge, Hco.
Qed.

(** What a public message leaves in the row of its author once the
    writer has emptied its queue: the attributes and the counter that were
    read when the message came in, whatever was submitted in between. *)
Lemma public_message_writes_back e bp nick w :
  nick <> nickname bp ->
  exists w',
    on_pubmsg e bp nick w = Returned tt w' /\
    outbox w' = outbox w /\
    let p := get_user_profile nick (dbm w) in
    let p' := get_user_profile nick (drain (dbm w')) in
    age p' = age p /\ gender p' = gender p /\
    conversation_count p' = conversation_count p.
Proof.
  intros Hn. unfold on_pubmsg, db_call, save_user_profile.
  apply String.eqb_neq in Hn. rewrite Hn, submit_enqueues. simpl.
  eexists. split; [reflexivity|]. split; [reflexivity|]. simpl.
  rewrite drain_replay. simpl. rewrite replay_app, get_user_profile_username.
  unfold replay at 1. simpl. rewrite get_inserted; [done|].
  exact (get_user_profile_storable (now e) nick (dbm w)).
Qed.

(** C1 fails on the code.  An opening message goes to a handle whose
    stored counter is 0, and the counter is persisted by the writer thread
    later on.  (1) When the user speaks on the channel before the writer
    has taken its turns, [on_pubmsg] reads the row as it was and submits it
    again with the counter it read; once the writer has emptied its queue
    the persisted counter is 0, and the next analysis of the handle sends a
    second opening message.  (2) The same happens when the handle is
    analysed again before the writer has taken its turns.  (3) The steps
    of (1) are steps of the running bot: "bob", whom the first analysis
    engages, is analysed, speaks, the writer executes the three intents,
    he joins again and is analysed again; two opening messages are sent to
    him. *)
Theorem engagement_fires_again :
  (forall bp e1 e2 e3 u w,
      u <> nickname bp ->
      engagement_fires e1 bp u w = true ->
      current_year e3 = current_year e1 ->
      conn e3 = Connected -> gui_fault e3 = false ->
      exists w1 w2 w3 w4,
        _analyze_user e1 bp u w = Returned tt w1 /\
        on_pubmsg e2 bp u w1 = Returned tt w2 /\
        w3 = set_dbm (drain (dbm w2)) w2 /\
        _analyze_user e3 bp u w3 = Returned tt w4 /\
        engagements u w1 = S (engagements u w) /\
        write_queue (dbm w3) = [] /\
        stored_count u w3 = 0 /\
        engagements u w3 = S (engagements u w) /\
        engagements u w4 = S (S (engagements u w)))
  /\ (forall bp e1 e2 u w,
      engagement_fires e1 bp u w = true ->
      current_year e2 = current_year e1 ->
      conn e2 = Connected -> gui_fault e2 = false ->
      exists w1 w2,
        _analyze_user e1 bp u w = Returned tt w1 /\
        _analyze_user e2 bp u w1 = Returned tt w2 /\
        engagements u w2 = S (S (engagements u w)))
  /\ ("bob" <> nickname (bot_18_35 "Tous")
      /\ engagement_fires env0 (bot_18_35 "Tous") "bob" idle_bot = true
      /\ run (bot_18_35 "Tous") bob_speaks_then_rejoins (init empty_store) =
        Some (after bob_speaks_then_rejoins)
      /\ run (bot_18_35 "Tous") bob_spoke (init empty_store) = Some (after bob_spoke)
      /\ write_queue (dbm (bot (after bob_spoke))) = []
      /\ map fst (outbox (bot (after bob_spoke))) = ["bob"]
      /\ stored_count "bob" (bot (after bob_spoke)) = 0
      /\ map fst (outbox (bot (after bob_speaks_then_rejoins))) = ["bob"; "bob"]).
Proof.
  assert (Hconn : forall e bp u w,
             engagement_fires e bp u w = true ->
             conn e = Connected /\ gui_fault e = false).
  { intros e bp u w H. unfold engagement_fires in H.
    destruct (gui_fault e), (conn e); try done;
      by rewrite ?andb_false_r in H. }
  assert (Hsent : forall e bp u w,
             engagement_fires e bp u w = true ->
             length (filter (fun m : string * string => m.1 = u)
                       (outbox w ++
                        (if engagement_fires e bp u w
                         then [(u, opening_message e bp u w)] else []))) =
             S (engagements u w)).
  { intros e bp u w H. rewrite engagements_app, H, filter_cons. simpl.
    case_decide; [simpl; lia | done]. }
  refine (conj _ (conj _ _)).
  - intros bp e1 e2 e3 u w Hn Hf Hy Hc Hg.
    destruct (Hconn _ _ _ _ Hf) as [Hc1 Hg1].
    rewrite analyze_user_returns.
    match goal with |- context [Returned tt ?x = Returned tt _] => set (w1 := x) end.
    destruct (public_message_writes_back e2 bp u w1 Hn)
      as (w2 & Hpub & Hob & Ha & Hge & Hco).
    exists w1, w2, (set_dbm (drain (dbm w2)) w2). eexists.
    split; [reflexivity|]. split; [done|]. split; [done|].
    rewrite analyze_user_returns. split; [reflexivity|].
    assert (engagements u w1 = S (engagements u w)) as H1.
    { unfold engagements at 1. simpl. by apply Hsent. }
    assert (engagement_fires e3 bp u (set_dbm (drain (dbm w2)) w2) = true) as Hf3.
    { rewrite <- Hf. apply engagement_fires_ext; try done; congruence. }
    split; [done|]. split; [simpl; by rewrite drain_replay|]. split.
    { unfold stored_count. simpl. rewrite Hco.
      by apply engagement_fires_count in Hf. }
    split.
    { unfold engagements. simpl. rewrite Hob. exact H1. }
    unfold engagements at 1. cbn [outbox]. rewrite (Hsent _ _ _ _ Hf3).
    f_equal. unfold engagements. simpl. rewrite Hob. exact H1.
  - intros bp e1 e2 u w Hf Hy Hc Hg.
    destruct (Hconn _ _ _ _ Hf) as [Hc1 Hg1].
    rewrite analyze_user_returns.
    match goal with |- context [Returned tt ?x = Returned tt _] => set (w1 := x) end.
    exists w1. eexists. split; [reflexivity|].
    rewrite analyze_user_returns. split; [reflexivity|].
    assert (engagement_fires e2 bp u w1 = true) as Hf2.
    { rewrite <- Hf. apply engagement_fires_ext; try done; congruence. }
    unfold engagements at 1. cbn [outbox]. rewrite (Hsent _ _ _ _ Hf2).
    f_equal. unfold engagements at 1. simpl. by apply Hsent.
  - split; [done|].
    do 6 (split; [vm_compute; reflexivity|]). vm_compute. reflexivity.
Qed.

End RepeatedEngagement.

(** ** Failures of the text-generation collaborator *)

Section GenerationFacts.
Import PyStr Database Bot DeepSeek Examples.

Lemma fallback_starts_with_tag pick bp :
  exists rest, _get_fallback_response pick bp = "[" +:+ rest.
Proof. unfold _get_fallback_response. by exists ("Mode démo] " +:+ random_choice pick (fallback_responses bp)). Qed.

(** C7 fails on the code: when the collaborator answers 401 or 429, times
    out or cannot be reached, [generate_response] returns a notice that
    describes the failure, [_generate_intelligent_response] records it and
    [on_privmsg] sends it to the user; none of these notices is a line of
    [_get_fallback_response].  Only a failure of another kind is replaced
    by a fallback line. *)
Theorem generation_failure_notice_is_sent :
  on_privmsg (env_with (Response 401 None)) (bot_18_35 "Tous") "alice" "salut" idle_bot =
  Returned tt
    {| dbm := {| db := empty_store;
                 write_queue :=
                   [save_conversation
                      {| conv_username := "alice"; conv_message := "salut";
                         conv_timestamp := "2026-01-01T12:00:00";
                         conv_bot_response :=
                           "❌ Clé API invalide. Vérifiez votre configuration.";
                         conv_prompt_used := "" |}] |};
       users_being_analyzed := ∅;
       analysis_queue := [];
       analysis_worker_started := false;
       outbox := [("alice", "❌ Clé API invalide. Vérifiez votre configuration.")] |}
  /\ sent (on_privmsg (env_with (Response 429 None)) (bot_18_35 "Tous")
             "alice" "salut" idle_bot) =
     [("alice", "⏳ Limite de taux atteinte. Attendez un moment.")]
  /\ sent (on_privmsg (env_with RaisesTimeout) (bot_18_35 "Tous")
             "alice" "salut" idle_bot) =
     [("alice", "⏰ Timeout de l'API. Réessayez.")]
  /\ sent (on_privmsg (env_with RaisesConnectionError) (bot_18_35 "Tous")
             "alice" "salut" idle_bot) =
     [("alice", "🌐 Problème de connexion à l'API.")]
  /\ sent (on_privmsg (env_with RaisesOther) (bot_18_35 "Tous")
             "alice" "salut" idle_bot) =
     [("alice", _get_fallback_response 0 (bot_18_35 "Tous"))]
  /\ (forall pick bp,
        _get_fallback_response pick bp <>
          "❌ Clé API invalide. Vérifiez votre configuration." /\
        _get_fallback_response pick bp <>
          "⏳ Limite de taux atteinte. Attendez un moment." /\
        _get_fallback_response pick bp <> "⏰ Timeout de l'API. Réessayez." /\
        _get_fallback_response pick bp <> "🌐 Problème de connexion à l'API.").
Proof.
  do 5 (split; [vm_compute; reflexivity|]).
  intros pick bp. destruct (fallback_starts_with_tag pick bp) as [rest ->].
  rewrite append_cons. repeat split; discriminate.
Qed.

End GenerationFacts.

(** * Further properties *)

(** ** Intake of usernames *)

Section IntakeFacts.
Import PyStr Database Bot Threads Intake Examples MoreExamples.

Lemma run_preserves bp (P : sys -> Prop) :
  (forall l s s', step bp l s = Some s' -> P s -> P s') ->
  forall ls s s', run bp ls s = Some s' -> P s -> P s'.
Proof.
  intros Hstep ls. induction ls as [|l ls IH]; intros s s'; simpl.
  - by intros [= <-].
  - destruct (step bp l s) as [s1|] eqn:Hs; [|done]. eauto.
Qed.

Lemma run_app bp ls1 ls2 s :
  run bp (ls1 ++ ls2) s =
  match run bp ls1 s with
  | Some s1 => run bp ls2 s1
  | None => None
  end.
Proof.
  revert s. induction ls1 as [|l ls1 IH]; intros s; simpl; [done|].
  by destruct (step bp l s).
Qed.

(** What a step can do to the analysis queue and to the history of
    admissions: nothing, take the head, or append the name in hand. *)
Lemma step_queue bp l s s' :
  step bp l s = Some s' ->
  (analysis_queue (bot s') = analysis_queue (bot s) /\ admitted s' = admitted s)
  \/ (exists u, analysis_queue (bot s) = u :: analysis_queue (bot s') /\
                admitted s' = admitted s)
  \/ (exists k name rest,
        reactor s = RPut k name rest /\
        PyQueue.full analysis_queue_maxsize (analysis_queue (bot s)) = false /\
        analysis_queue (bot s') = analysis_queue (bot s) ++ [name] /\
        admitted s' = admitted s ++ [name]).
Proof.
  destruct l; simpl.
  - destruct (reactor s); [|done..]. intros [= <-]. by left.
  - destruct (reactor s); [|done..]. intros [= <-]. by left.
  - unfold reactor_call. pose proof (on_pubmsg_frame e bp nick (bot s)) as Hf.
    destruct (reactor s); [|done..].
    destruct (on_pubmsg e bp nick (bot s)); intros [= <-]; left;
      destruct Hf as (_ & ? & _); done.
  - unfold reactor_call. pose proof (on_privmsg_frame e bp nick message (bot s)) as Hf.
    destruct (reactor s); [|done..].
    destruct (on_privmsg e bp nick message (bot s)); intros [= <-]; left;
      destruct Hf as (_ & ? & _); done.
  - unfold reactor_step.
    destruct (reactor s) as [|k [|name rest]|k name rest|k name rest] eqn:Hr.
    + done.
    + intros [= <-]. left. by destruct k.
    + destruct (negb _ && negb _); intros [= <-]; by left.
    + intros [= <-]. by left.
    + unfold PyQueue.put.
      destruct (PyQueue.full _ _) eqn:Hfull; intros [= <-]; [by left|].
      right. right. by exists k, name, rest.
  - unfold worker_get. destruct (worker s); [|done].
    destruct (analysis_queue (bot s)) as [|u q] eqn:Hq; [done|]. simpl.
    destruct (analysis_worker_started (bot s)); [|done]. intros [= <-].
    right. left. by exists u.
  - unfold worker_run. destruct (worker s); [done|].
    rewrite analyze_user_returns. intros [= <-]. by left.
  - intros [= <-]. by left.
Qed.

Lemma queue_at_most_50 bp s0 ls s :
  run bp ls (init s0) = Some s ->
  (length (analysis_queue (bot s)) <= 50)%nat.
Proof.
  intros Hrun.
  apply (run_preserves bp
           (fun s => (length (analysis_queue (bot s)) <= 50)%nat)) in Hrun;
    [done | | simpl; lia].
  intros l s1 s2 Hs Hle.
  destruct (step_queue _ _ _ _ Hs) as [[-> _] | [(u & Hq & _) | (k & name & rest & _ & Hfull & -> & _)]].
  - done.
  - rewrite Hq in Hle. simpl in Hle. lia.
  - rewrite length_app. simpl. unfold PyQueue.full, analysis_queue_maxsize in Hfull.
    simpl in Hfull. apply Z.leb_gt in Hfull. lia.
Qed.

(** X1: the analysis queue never holds more than 50 tasks, and a [put]
    that finds 50 tasks leaves the queue and the history of admissions as
    they are. *)
Theorem analysis_queue_bounded bp s0 ls s :
  run bp ls (init s0) = Some s ->
  (length (analysis_queue (bot s)) <= 50)%nat /\
  (forall k name rest s',
      reactor s = RPut k name rest ->
      length (analysis_queue (bot s)) = 50%nat ->
      reactor_step bp s = Some s' ->
      analysis_queue (bot s') = analysis_queue (bot s) /\
      admitted s' = admitted s /\
      name ∈ users_being_analyzed (bot s')).
Proof.
  intros Hrun. split; [by eapply queue_at_most_50|].
  intros k name rest s' Hr Hlen Hs.
  pose proof (run_invariant _ _ _ _ Hrun (init_invariant s0)) as [_ _ _ Hadd _].
  unfold reactor_step in Hs. rewrite Hr in Hs.
  unfold PyQueue.put, PyQueue.full, analysis_queue_maxsize in Hs.
  rewrite Hlen in Hs. simpl in Hs. injection Hs as <-. simpl.
  split; [done|]. split; [done|]. apply Hadd. rewrite Hr. by left.
Qed.



(** What a step can do to the tasks not yet completed and to the history
    of completed analyses. *)
Lemma step_pending bp l s s' :
  step bp l s = Some s' ->
  (pending s' = pending s /\ finished s' = finished s /\ admitted s' = admitted s)
  \/ (exists u, pending s = u :: pending s' /\ finished s' = finished s ++ [u] /\
                admitted s' = admitted s)
  \/ (exists name, name ∈ in_hand (reactor s) /\
                   pending s' = pending s ++ [name] /\ finished s' = finished s /\
                   admitted s' = admitted s ++ [name]).
Proof.
  destruct l; simpl.
  - destruct (reactor s); [|done..]. intros [= <-]. by left.
  - destruct (reactor s); [|done..]. intros [= <-]. by left.
  - unfold reactor_call. pose proof (on_pubmsg_frame e bp nick (bot s)) as Hf.
    destruct (reactor s); [|done..].
    destruct (on_pubmsg e bp nick (bot s)); intros [= <-]; left;
      destruct Hf as (_ & Hq & _); unfold pending; simpl; by rewrite Hq.
  - unfold reactor_call. pose proof (on_privmsg_frame e bp nick message (bot s)) as Hf.
    destruct (reactor s); [|done..].
    destruct (on_privmsg e bp nick message (bot s)); intros [= <-]; left;
      destruct Hf as (_ & Hq & _); unfold pending; simpl; by rewrite Hq.
  - unfold reactor_step.
    destruct (reactor s) as [|k [|name rest]|k name rest|k name rest] eqn:Hr.
    + done.
    + intros [= <-]. left. unfold pending. simpl. by destruct k.
    + destruct (negb _ && negb _); intros [= <-]; by left.
    + intros [= <-]. by left.
    + unfold PyQueue.put.
      destruct (PyQueue.full _ _) eqn:Hfull; intros [= <-]; [by left|].
      right. right. exists name. split; [by left|].
      unfold pending. simpl. by rewrite app_assoc.
  - unfold worker_get. destruct (worker s) eqn:Hw; [|done].
    destruct (analysis_queue (bot s)) as [|u q] eqn:Hq; [done|]. simpl.
    destruct (analysis_worker_started (bot s)); [|done]. intros [= <-].
    left. unfold pending. simpl. by rewrite Hw, Hq.
  - unfold worker_run. destruct (worker s) as [|u] eqn:Hw; [done|].
    rewrite analyze_user_returns. intros [= <-].
    right. left. exists u. unfold pending. simpl. by rewrite Hw.
  - intros [= <-]. by left.
Qed.

Lemma admitted_is_finished_then_pending bp s0 ls s :
  run bp ls (init s0) = Some s ->
  admitted s = finished s ++ pending s.
Proof.
  intros Hrun.
  apply (run_preserves bp (fun s => admitted s = finished s ++ pending s)) in Hrun;
    [done | | done].
  intros l s1 s2 Hs Heq.
  destruct (step_pending _ _ _ _ Hs)
    as [(-> & -> & ->) | [(u & Hp & -> & ->) | (name & _ & -> & -> & ->)]].
  - done.
  - rewrite Heq, Hp, <- app_assoc. done.
  - rewrite Heq, app_assoc. done.
Qed.

(** X3: the one worker takes the tasks in the order the handlers admitted
    them: the names admitted so far are the names whose analysis is over,
    followed by the task the worker holds and the queued ones. *)
Theorem analyses_complete_in_admission_order bp s0 ls s :
  run bp ls (init s0) = Some s ->
  admitted s = finished s ++ pending s /\
  finished s `prefix_of` admitted s /\
  (length (admitted s) <= length (finished s) + 51)%nat.
Proof.
  intros Hrun.
  pose proof (admitted_is_finished_then_pending _ _ _ _ Hrun) as Hord.
  pose proof (queue_at_most_50 _ _ _ _ Hrun) as Hlen.
  split; [done|]. rewrite Hord. split; [by apply prefix_app_r|].
  rewrite length_app. unfold pending. rewrite length_app.
  destruct (worker s); simpl; lia.
Qed.

Lemma analyses_complete_in_admission_order_witness :
  run (bot_18_35 "Tous") bob_thrice (init empty_store) = Some (after bob_thrice)
  /\ admitted (after bob_thrice) =
     finished (after bob_thrice) ++ pending (after bob_thrice)
  /\ finished (after bob_thrice) `prefix_of` admitted (after bob_thrice)
  /\ (length (admitted (after bob_thrice))
      <= length (finished (after bob_thrice)) + 51)%nat.
Proof.
  split; [vm_compute; reflexivity|].
  apply (analyses_complete_in_admission_order (bot_18_35 "Tous") empty_store bob_thrice).
  vm_compute. reflexivity.
Defined.

Lemma step_self_absent bp l s s' :
  step bp l s = Some s' -> self_absent bp s -> self_absent bp s'.
Proof.
  intros Hs (Hu & Hh & Ha). destruct l; simpl in Hs.
  - destruct (reactor s); [|done..]. injection Hs as <-.
    split; [done|]. split; [apply not_elem_of_nil | done].
  - destruct (reactor s); [|done..]. injection Hs as <-.
    split; [done|]. split; [apply not_elem_of_nil | done].
  - unfold reactor_call in Hs. pose proof (on_pubmsg_frame e bp nick (bot s)) as Hf.
    destruct (reactor s) eqn:Hr; [|done..].
    destruct (on_pubmsg e bp nick (bot s)); simplify_eq;
      destruct Hf as (Hu' & _ & _); (split; [simpl; by rewrite Hu'|]);
      (split; [simpl; rewrite Hr; apply not_elem_of_nil | done]).
  - unfold reactor_call in Hs.
    pose proof (on_privmsg_frame e bp nick message (bot s)) as Hf.
    destruct (reactor s) eqn:Hr; [|done..].
    destruct (on_privmsg e bp nick message (bot s)); simplify_eq;
      destruct Hf as (Hu' & _ & _); (split; [simpl; by rewrite Hu'|]);
      (split; [simpl; rewrite Hr; apply not_elem_of_nil | done]).
  - unfold reactor_step in Hs.
    destruct (reactor s) as [|k [|name rest]|k name rest|k name rest] eqn:Hr.
    + done.
    + injection Hs as <-. split; [by destruct k|].
      split; [apply not_elem_of_nil | done].
    + destruct (negb (String.eqb _ _)) eqn:Hne; simpl in Hs.
      * apply negb_true_iff, String.eqb_neq in Hne.
        destruct (negb (bool_decide _)); injection Hs as <-;
          (split; [done|]); (split; [|done]); [|apply not_elem_of_nil].
        apply not_elem_of_cons. split; [done | apply not_elem_of_nil].
      * injection Hs as <-. split; [done|]. split; [apply not_elem_of_nil | done].
    + injection Hs as <-. simpl in Hh.
      apply not_elem_of_cons in Hh as [Hne _].
      split; [|split; [|done]].
      * apply not_elem_of_union. split; [by apply not_elem_of_singleton | done].
      * apply not_elem_of_cons. split; [done | apply not_elem_of_nil].
    + unfold PyQueue.put in Hs. simpl in Hh. apply not_elem_of_cons in Hh as [Hne _].
      destruct (PyQueue.full _ _); injection Hs as <-;
        (split; [done|]); (split; [apply not_elem_of_nil|]); [done|].
      apply not_elem_of_app. split; [done|].
      apply not_elem_of_cons. split; [done | apply not_elem_of_nil].
  - unfold worker_get in Hs. destruct (worker s); [|done].
    destruct (analysis_queue (bot s)) as [|u q]; [done|]. simpl in Hs.
    destruct (analysis_worker_started (bot s)); [|done]. injection Hs as <-.
    by split.
  - unfold worker_run in Hs. destruct (worker s) as [|u]; [done|].
    rewrite analyze_user_returns in Hs. injection Hs as <-.
    split; [|by split]. simpl. intros [? _]%elem_of_difference. done.
  - injection Hs as <-. by split.
Qed.

(** X2: the bot never analyses itself: whatever the snapshots and joins
    list, with or without a role prefix in a snapshot, its own nickname is
    never marked in flight, never admitted to the queue and never
    analysed. *)
Theorem bot_never_analyses_itself bp s0 ls s :
  run bp ls (init s0) = Some s ->
  (nickname bp ∉ users_being_analyzed (bot s)) /\
  (nickname bp ∉ admitted s) /\
  (nickname bp ∉ pending s) /\
  (nickname bp ∉ finished s).
Proof.
  intros Hrun.
  pose proof (admitted_is_finished_then_pending _ _ _ _ Hrun) as Hord.
  apply (run_preserves bp (self_absent bp)) in Hrun.
  - destruct Hrun as (Hu & _ & Ha). rewrite Hord in Ha.
    apply not_elem_of_app in Ha as [Hf Hp]. rewrite Hord.
    split; [done|]. split; [by apply not_elem_of_app|]. by split.
  - apply step_self_absent.
  - split; [apply not_elem_of_empty|]. split; apply not_elem_of_nil.
Qed.

Lemma bot_never_analyses_itself_witness :
  run (bot_18_35 "Tous") bob_thrice (init empty_store) = Some (after bob_thrice)
  /\ ("camille" ∉ users_being_analyzed (bot (after bob_thrice)))
  /\ ("camille" ∉ admitted (after bob_thrice))
  /\ ("camille" ∉ pending (after bob_thrice))
  /\ ("camille" ∉ finished (after bob_thrice)).
Proof.
  split; [vm_compute; reflexivity|].
  apply (bot_never_analyses_itself (bot_18_35 "Tous") empty_store bob_thrice).
  vm_compute. reflexivity.
Defined.

(** While a handler runs, the names admitted since it started, followed
    by the names it may still admit, stay within the names it was given. *)
Lemma step_within bp l s s' (base target : list string) :
  no_event l = true ->
  step bp l s = Some s' ->
  (exists lst, admitted s = base ++ lst /\
               (lst ++ todo (reactor s)) `sublist_of` target) ->
  exists lst', admitted s' = base ++ lst' /\
               (lst' ++ todo (reactor s')) `sublist_of` target.
Proof.
  intros Hl Hs (lst & Hadm & Hsub).
  destruct l; try discriminate; simpl in Hs.
  - unfold reactor_step in Hs.
    destruct (reactor s) as [|k [|name rest]|k name rest|k name rest] eqn:Hr.
    + done.
    + injection Hs as <-. by exists lst.
    + simpl in Hsub.
      destruct (negb _ && negb _); injection Hs as <-; exists lst; simpl;
        (split; [done|]); [done|].
      etrans; [|exact Hsub]. apply sublist_app; [done|]. by apply sublist_cons.
    + injection Hs as <-. exists lst. by simpl.
    + unfold PyQueue.put in Hs. simpl in Hsub.
      destruct (PyQueue.full _ _); injection Hs as <-; simpl.
      * exists lst. split; [done|]. etrans; [|exact Hsub].
        apply sublist_app; [done|]. apply sublist_nil_l.
      * exists (lst ++ [name]). rewrite Hadm, <- !app_assoc. by split.
  - unfold worker_get in Hs. destruct (worker s); [|done].
    destruct (analysis_queue (bot s)) as [|u q]; [done|]. simpl in Hs.
    destruct (analysis_worker_started (bot s)); [|done]. injection Hs as <-.
    by exists lst.
  - unfold worker_run in Hs. destruct (worker s) as [|u]; [done|].
    rewrite analyze_user_returns in Hs. injection Hs as <-. by exists lst.
  - injection Hs as <-. by exists lst.
Qed.

Lemma run_within bp ls : forall s s' (base target : list string),
  forallb no_event ls = true ->
  run bp ls s = Some s' ->
  (exists lst, admitted s = base ++ lst /\
               (lst ++ todo (reactor s)) `sublist_of` target) ->
  exists lst', admitted s' = base ++ lst' /\
               (lst' ++ todo (reactor s')) `sublist_of` target.
Proof.
  induction ls as [|l ls IH]; intros s s' base target Hall; simpl.
  - by intros [= <-].
  - simpl in Hall. apply andb_prop in Hall as [Hl Hall].
    destruct (step bp l s) as [s1|] eqn:Hs; [|done].
    intros Hrun Hin. eapply IH; [done | done |]. by eapply step_within.
Qed.

(** X4: one membership snapshot admits at most 20 tasks, whatever the
    worker and the writer do meanwhile: the names admitted while
    [on_namreply] runs are, in order, some of the first 20 names of the
    snapshot with their role prefixes removed. *)
Theorem snapshot_admits_at_most_twenty bp names ls s s' :
  reactor s = RIdle ->
  forallb no_event ls = true ->
  run bp (EvNamreply names :: ls) s = Some s' ->
  exists l,
    admitted s' = admitted s ++ l /\
    l `sublist_of` map (lstrip role_prefixes) (take 20 names) /\
    (length l <= 20)%nat.
Proof.
  intros Hr Hall Hrun. simpl in Hrun. rewrite Hr in Hrun.
  destruct (run_within bp ls _ _ (admitted s)
              (map (lstrip role_prefixes) (take 20 names)) Hall Hrun)
    as (l & Hadm & Hsub).
  { exists []. simpl. by rewrite app_nil_r. }
  exists l. split; [done|].
  assert (l `sublist_of` map (lstrip role_prefixes) (take 20 names)) as Hl.
  { etrans; [|exact Hsub]. by apply sublist_inserts_r. }
  split; [done|]. apply sublist_length in Hl.
  rewrite length_map, length_take in Hl. lia.
Qed.

End IntakeFacts.

(** ** The profile store *)

Section StoreFacts.
Import PyStr Database Serializer.

(** X5: a saved profile whose age and counter fit in 64 bits is read
    back: once the writer has emptied its queue, [get_user_profile] returns
    the attributes, the counter and the flag that were saved, with a
    last-seen time in any case.  A profile with an age or a counter outside
    64 bits is submitted like any other, [sqlite3] refuses it and the
    database stays as the earlier intents make it.  Of two saves for one
    username the later one is read back when it fits; and a save leaves
    the rows of the other usernames as the earlier intents make them. *)
Theorem saved_profile_is_read_back :
  (forall now p dm,
      (forall a, age p = Some a -> - 2 ^ 63 <= a < 2 ^ 63) ->
      - 2 ^ 63 <= conversation_count p < 2 ^ 63 ->
      exists dm',
        save_user_profile now p dm = PyQueue.Enqueued dm' /\
        let p' := get_user_profile (username p) (drain dm') in
        username p' = username p /\ age p' = age p /\ gender p' = gender p /\
        city p' = city p /\ conversation_count p' = conversation_count p /\
        targeted p' = targeted p /\
        last_seen p' = Some (if truthy_str (last_seen p)
                             then default now (last_seen p) else now))
  /\ (forall now p dm,
      ~ ((forall a, age p = Some a -> - 2 ^ 63 <= a < 2 ^ 63) /\
         - 2 ^ 63 <= conversation_count p < 2 ^ 63) ->
      exists dm',
        save_user_profile now p dm = PyQueue.Enqueued dm' /\
        write_queue (drain dm') = [] /\
        db (drain dm') = db (drain dm))
  /\ (forall now1 now2 p1 p2 dm,
      username p1 = username p2 ->
      (forall a, age p2 = Some a -> - 2 ^ 63 <= a < 2 ^ 63) ->
      - 2 ^ 63 <= conversation_count p2 < 2 ^ 63 ->
      exists dm1 dm2,
        save_user_profile now1 p1 dm = PyQueue.Enqueued dm1 /\
        save_user_profile now2 p2 dm1 = PyQueue.Enqueued dm2 /\
        let p' := get_user_profile (username p2) (drain dm2) in
        age p' = age p2 /\ gender p' = gender p2 /\ city p' = city p2 /\
        conversation_count p' = conversation_count p2 /\
        targeted p' = targeted p2)
  /\ (forall now p dm v,
      v <> username p ->
      exists dm',
        save_user_profile now p dm = PyQueue.Enqueued dm' /\
        users (db (drain dm')) !! v = users (db (drain dm)) !! v).
Proof.
  refine (conj _ (conj _ (conj _ _))).
  - intros now p dm Hage Hcount. eexists. split; [apply submit_enqueues|].
    rewrite drain_submit. unfold get_user_profile. simpl.
    destruct (execute_write_stored (username p) (profile_tuple now p)
                (replay (write_queue dm) (db dm))) as [-> _].
    { by apply storable_profile. }
    by rewrite lookup_insert_eq.
  - intros now p dm Hno. eexists. split; [apply submit_enqueues|].
    rewrite drain_submit, drain_replay. simpl. split; [done|].
    apply execute_write_refused. by rewrite storable_profile.
  - intros now1 now2 p1 p2 dm Hu Hage Hcount. eexists. eexists.
    split; [apply submit_enqueues|]. split; [apply submit_enqueues|].
    rewrite drain_submit. unfold get_user_profile. simpl.
    destruct (execute_write_stored (username p2) (profile_tuple now2 p2)
                (replay (write_queue dm ++
                           [save_user (username p1) (profile_tuple now1 p1)])
                        (db dm))) as [-> _].
    { by apply storable_profile. }
    by rewrite lookup_insert_eq.
  - intros now p dm v Hv. eexists. split; [apply submit_enqueues|].
    rewrite drain_submit, drain_replay. simpl.
    destruct (decide (Is_true (storable (profile_tuple now p)))) as [Yes|No].
    + destruct (execute_write_stored (username p) (profile_tuple now p)
                  (replay (write_queue dm) (db dm)) Yes) as [-> _].
      by rewrite lookup_insert_ne.
    + by rewrite execute_write_refused.
Qed.

Lemma execute_grows op s :
  dom (users s) ⊆ dom (users (_execute_write_operation op s)) /\
  conversations s `prefix_of` conversations (_execute_write_operation op s).
Proof.
  destruct op as [key data|data].
  - destruct (decide (Is_true (storable data))) as [Yes|No].
    + destruct (execute_write_stored key data s Yes) as [-> ->].
      split; [|done]. apply dom_insert_subseteq.
    + by rewrite execute_write_refused.
  - destruct (execute_write_conversation data s) as [-> ->].
    split; [done|]. by apply prefix_app_r.
Qed.

Lemma run_schedule_grows sched : forall dm dm',
  run_schedule sched dm = Some dm' ->
  dom (users (db dm)) ⊆ dom (users (db dm')) /\
  conversations (db dm) `prefix_of` conversations (db dm').
Proof.
  induction sched as [|ev sched IH]; intros dm dm'; simpl.
  - by intros [= <-].
  - destruct ev as [op|]; simpl.
    + intros H. by apply IH in H.
    + intros H. apply IH in H as [Hd Hc].
      unfold _database_writer_step in *.
      destruct (PyQueue.get (write_queue dm)) as [[op rest]|]; [|done].
      simpl in *. destruct (execute_grows op (db dm)) as [Hd' Hc'].
      split; by etrans.
Qed.

(** X6: the store only grows: whatever is submitted and whenever the
    writer runs, every username that has a row keeps a row, and the
    conversation rows already stored stay where they are, unchanged, the new
    ones coming after them. *)
Theorem store_only_grows :
  (forall sched dm,
      exists dm',
        run_schedule sched dm = Some dm' /\
        dom (users (db dm)) ⊆ dom (users (db dm')) /\
        conversations (db dm) `prefix_of` conversations (db dm'))
  /\ (forall dm,
        dom (users (db dm)) ⊆ dom (users (db (drain dm))) /\
        conversations (db dm) `prefix_of` conversations (db (drain dm))).
Proof.
  split.
  - intros sched dm.
    destruct (run_schedule_pending sched dm) as (dm' & Hrun & _).
    exists dm'. split; [done|]. by apply (run_schedule_grows sched).
  - intros dm. rewrite drain_replay. simpl.
    revert dm. intros [s q]. simpl. revert s.
    induction q as [|op q IH]; intros s; [done|].
    simpl. destruct (execute_grows op s) as [Hd Hc].
    destruct (IH (_execute_write_operation op s)) as [Hd' Hc'].
    split; by etrans.
Qed.

End StoreFacts.

(** ** Messages received *)

Section MessageFacts.
Import PyStr Database Bot Serializer Sequential DeepSeek.

Lemma lstrip_space_blank s :
  forallb is_space (String.list_ascii_of_string s) = true -> lstrip_space s = "".
Proof.
  induction s as [|c s IH]; simpl; [done|].
  intros [Hc Hs]%andb_prop. rewrite Hc. by apply IH.
Qed.

Lemma strip_blank s :
  forallb is_space (String.list_ascii_of_string s) = true -> strip s = "".
Proof. intros H. unfold strip. by rewrite lstrip_space_blank. Qed.

(** X7: [on_privmsg] ignores the bot's own messages and does nothing when
    the connection is down.  Otherwise it returns normally whatever the
    collaborator does, submits exactly one intent, the conversation row
    holding the message and the answer, and sends the answer when the
    answer is not empty and the send goes through: the row is submitted
    even when nothing is sent.  It never writes a row of [users].  An answer
    of the collaborator made of white space only is recorded as the empty
    string and not sent. *)
Theorem private_message_is_recorded_then_sent e bp nick message w :
  (nick = nickname bp \/ conn e = Disconnected ->
     on_privmsg e bp nick message w = Returned tt w)
  /\ (nick <> nickname bp -> conn e <> Disconnected ->
      let response := generate_response (api_key e) (reply e) (pick e) bp in
      exists w',
        on_privmsg e bp nick message w = Returned tt w' /\
        dbm w' =
          {| db := db (dbm w);
             write_queue := write_queue (dbm w) ++
               [save_conversation
                  {| conv_username := nick; conv_message := message;
                     conv_timestamp := now e; conv_bot_response := response;
                     conv_prompt_used := "" |}] |} /\
        outbox w' = outbox w ++
          match conn e, response with
          | Connected, String _ _ => [(nick, response)]
          | _, _ => []
          end /\
        users (db (drain (dbm w'))) = users (db (drain (dbm w))) /\
        Threads.same_pipeline w w')
  /\ (forall text,
        truthy_str (api_key e) = true ->
        reply e = Response 200 (Some text) ->
        forallb is_space (String.list_ascii_of_string text) = true ->
        generate_response (api_key e) (reply e) (pick e) bp = "").
Proof.
  refine (conj _ (conj _ _)).
  - unfold on_privmsg. intros [-> | Hc].
    + by rewrite String.eqb_refl.
    + rewrite Hc. simpl. by destruct (String.eqb nick (nickname bp)).
  - intros Hn Hc response. unfold on_privmsg, _generate_intelligent_response,
      db_call, save_conversation_record.
    rewrite submit_enqueues. fold response.
    apply String.eqb_neq in Hn. rewrite Hn.
    destruct w as [[s q] uba aq st ob].
    destruct (conn e); [|done|]; simpl; destruct response; simpl;
      (eexists; split; [reflexivity|]); simpl;
      rewrite ?app_nil_r, !drain_replay; simpl; rewrite replay_app; done.
  - intros text Hk Hr Hblank. unfold generate_response.
    rewrite Hk, Hr. simpl. by apply strip_blank.
Qed.

(** X8: [on_pubmsg] ignores the bot's own messages.  For any other nick it
    sends nothing and records no conversation; once the writer has emptied
    its queue the row of the nick holds the attributes, the counter and the
    flag that were read, with the time of the message as last-seen time (a
    nick without a row gets one, with no attribute, counter 0 and the flag
    down), and the other rows are as the earlier intents make them. *)
Theorem public_message_updates_last_seen_only e bp nick w :
  on_pubmsg e bp (nickname bp) w = Returned tt w
  /\ (nick <> nickname bp ->
      exists w',
        public_message bp (e, nick) w = Returned tt w' /\
        outbox w' = outbox w /\
        conversations (db (dbm w')) = conversations (db (drain (dbm w))) /\
        (let p := get_user_profile nick (dbm w) in
         let p' := get_user_profile nick (dbm w') in
         age p' = age p /\ gender p' = gender p /\ city p' = city p /\
         conversation_count p' = conversation_count p /\
         targeted p' = targeted p /\ last_seen p' = Some (now e)) /\
        (users (db (dbm w)) !! nick = None ->
         let p' := get_user_profile nick (dbm w') in
         age p' = None /\ gender p' = None /\ city p' = None /\
         conversation_count p' = 0 /\ targeted p' = false) /\
        (forall v, v <> nick ->
           users (db (dbm w')) !! v = users (db (drain (dbm w))) !! v)).
Proof.
  split.
  - unfold on_pubmsg. by rewrite String.eqb_refl.
  - intros Hn. unfold public_message, on_pubmsg, db_call, save_user_profile.
    cbn [fst snd]. rewrite submit_enqueues.
    apply String.eqb_neq in Hn. rewrite Hn. simpl.
    eexists. split; [reflexivity|]. simpl.
    rewrite !drain_replay. simpl. rewrite replay_app. simpl.
    rewrite get_user_profile_username.
    set (S := replay (write_queue (dbm w)) (db (dbm w))).
    set (t := profile_tuple (now e)
                (with_last_seen (now e) (get_user_profile nick (dbm w)))).
    destruct (execute_write_stored nick t S
                (get_user_profile_storable (now e) nick (dbm w))) as [Hus Hcv].
    split; [reflexivity|]. split; [exact Hcv|].
    assert (Hread :
              get_user_profile nick
                {| db := _execute_write_operation (save_user nick t) S;
                   write_queue := [] |} =
              {| username := nick; age := col_age t; gender := col_gender t;
                 city := col_city t; last_seen := col_last_seen t;
                 conversation_count := col_conversation_count t;
                 targeted := col_targeted t; whois_info := col_whois_info t |}).
    { unfold get_user_profile. simpl. by rewrite Hus, lookup_insert_eq. }
    rewrite Hread. subst t. simpl. split; [by destruct (now e)|]. split.
    + intros Hnone. unfold get_user_profile. by rewrite Hnone.
    + intros v Hv. by rewrite Hus, lookup_insert_ne.
Qed.

End MessageFacts.

(** ** Opening messages and analyses *)

Section OpeningFacts.
Import PyStr Database Bot Serializer Sequential DeepSeek Derivation.

Lemma random_choice_elem pick (l : list string) :
  l <> [] -> random_choice pick l ∈ l.
Proof.
  intros Hl. unfold random_choice. apply list_elem_of_In, nth_In.
  apply Nat.mod_upper_bound. by destruct l.
Qed.

Lemma contains_middle pre u post : contains u (pre +:+ u +:+ post) = true.
Proof. apply contains_spec. by exists pre, post. Qed.

Lemma opening_messages_address_user u p m :
  m ∈ opening_messages u p -> contains u m = true.
Proof.
  unfold opening_messages. intros Hm.
  repeat (apply elem_of_app in Hm as [Hm | Hm]).
  - repeat (apply elem_of_cons in Hm as [-> | Hm]; [apply contains_middle|]).
    by apply elem_of_nil in Hm.
  - destruct (truthy_str (city p)); [|by apply elem_of_nil in Hm].
    apply list_elem_of_singleton in Hm as ->. apply contains_middle.
  - destruct (_ && _); [|by apply elem_of_nil in Hm].
    apply list_elem_of_singleton in Hm as ->. apply contains_middle.
Qed.

(** X9: [_initiate_conversation] always returns.  When the connection is
    down or the send fails it changes nothing: no intent is submitted and
    the stored counter stays.  When the send goes through, the message is
    one of the candidate lines, each of which names the user, and exactly
    one intent is submitted, the profile with its counter incremented by
    one.  There are between four and six candidate lines. *)
Theorem opening_message_is_counted_when_sent e u p w :
  (conn e <> Connected -> _initiate_conversation e u p w = Returned tt w)
  /\ (conn e = Connected ->
      exists m,
        m ∈ opening_messages u p /\ contains u m = true /\
        _initiate_conversation e u p w =
        Returned tt
          {| dbm := {| db := db (dbm w);
                       write_queue := write_queue (dbm w) ++
                         [save_user (username p)
                            (profile_tuple (now e) (incr_conversation_count p))] |};
             users_being_analyzed := users_being_analyzed w;
             analysis_queue := analysis_queue w;
             analysis_worker_started := analysis_worker_started w;
             outbox := outbox w ++ [(u, m)] |})
  /\ (4 <= length (opening_messages u p) <= 6)%nat.
Proof.
  refine (conj _ (conj _ _)).
  - intros Hc. unfold _initiate_conversation, privmsg.
    destruct (conn e); simpl; done.
  - intros Hc. exists (random_choice (pick e) (opening_messages u p)).
    assert (random_choice (pick e) (opening_messages u p) ∈ opening_messages u p) as Hin.
    { apply random_choice_elem. by unfold opening_messages. }
    split; [done|]. split; [by eapply opening_messages_address_user|].
    unfold _initiate_conversation, privmsg. rewrite Hc. reflexivity.
  - unfold opening_messages. rewrite !length_app.
    destruct (truthy_str (city p)), (_ && _); simpl; lia.
Qed.

End OpeningFacts.

Section ReanalysisFacts.
Import PyStr Database Bot Serializer Sequential DeepSeek Derivation Targeting.

Lemma conversations_replay_analysis_writes e bp u w s :
  conversations (replay (analysis_writes e bp u w) s) = conversations s.
Proof.
  unfold analysis_writes, replay.
  destruct (engagement_fires e bp u w); simpl;
    by rewrite !execute_write_user_conversations.
Qed.

(** The profile read back after one cycle. *)
Lemma cycle_profile bp e u w w' :
  cycle bp (e, u) w = Returned tt w' ->
  let p := analyzed_profile e bp u w in
  let q := get_user_profile u (dbm w') in
  age q = age p /\ gender q = gender p /\ city q = city p /\
  targeted q = targeted p /\
  conversation_count q =
    conversation_count p + (if engagement_fires e bp u w then 1 else 0).
Proof.
  destruct (cycle_returns bp e u w) as (w1 & -> & _ & _ & Husers).
  intros [= <-]. cbv zeta. unfold get_user_profile.
  rewrite Husers, lookup_insert_eq.
  destruct (engagement_fires e bp u w); simpl;
    do 4 (split; [reflexivity|]); lia.
Qed.

(** X10: an analysis touches its own user only: it always returns, takes
    the username out of the in-flight set, leaves the analysis queue and
    the conversation rows alone, leaves a row for the username, and leaves
    the rows of the other usernames as the earlier intents make them; when
    the interface raises in the middle, the profile is saved all the same
    and no message is sent. *)
Theorem analysis_touches_only_its_user e bp u w :
  exists w',
    cycle bp (e, u) w = Returned tt w' /\
    users_being_analyzed w' = users_being_analyzed w ∖ {[u]} /\
    analysis_queue w' = analysis_queue w /\
    conversations (db (dbm w')) = conversations (db (drain (dbm w))) /\
    is_Some (users (db (dbm w')) !! u) /\
    (forall v, v <> u ->
       users (db (dbm w')) !! v = users (db (drain (dbm w))) !! v) /\
    (gui_fault e = true -> outbox w' = outbox w).
Proof.
  unfold cycle. cbn [fst snd]. rewrite analyze_user_returns. simpl.
  eexists. split; [reflexivity|]. simpl. rewrite !drain_replay. simpl.
  rewrite replay_app, conversations_replay_analysis_writes,
    users_replay_analysis_writes.
  split; [done|]. split; [done|]. split; [done|].
  split; [rewrite lookup_insert_eq; eauto|].
  split; [intros v Hv; by rewrite lookup_insert_ne|].
  intros Hg. unfold engagement_fires. rewrite Hg. simpl. by rewrite app_nil_r.
Qed.

Lemma matches_ext bp p p' :
  age p = age p' -> gender p = gender p' ->
  _matches_targeting_criteria bp p = _matches_targeting_criteria bp p'.
Proof.
  intros Ha Hg. unfold _matches_targeting_criteria, age_check, gender_check.
  by rewrite Ha, Hg.
Qed.

(** X11: after an analysis the stored flag is the verdict of the targeting
    policy on the stored attributes, whatever the flag was before, a manual
    toggle included. *)
Theorem stored_flag_is_policy_verdict e bp u w :
  exists w',
    cycle bp (e, u) w = Returned tt w' /\
    targeted (get_user_profile u (dbm w')) =
    _matches_targeting_criteria bp (get_user_profile u (dbm w')).
Proof.
  destruct (cycle_returns bp e u w) as (w' & Hc & _).
  exists w'. split; [done|].
  destruct (cycle_profile bp e u w w' Hc) as (Ha & Hg & _ & Ht & _).
  rewrite Ht. unfold analyzed_profile at 1. simpl.
  apply matches_ext; [by rewrite Ha | by rewrite Hg].
Qed.





End ReanalysisFacts.

(** ** What derivation can return *)

Section DerivedValueFacts.
Import PyStr Database Bot Serializer Sequential Derivation.

(** A [for x in l] loop that stops at the first hit returns the first hit
    in the order of [l]. *)
Lemma find_first {A} (f : A -> bool) (l : list A) x :
  find f l = Some x ->
  exists l1 l2, l = l1 ++ x :: l2 /\ f x = true /\
                forall y, y ∈ l1 -> f y = false.
Proof.
  induction l as [|a l IH]; simpl; [done|].
  destruct (f a) eqn:E.
  - intros [= <-]. exists [], l. split; [done|]. split; [done|].
    intros y Hy. by apply elem_of_nil in Hy.
  - intros H. destruct (IH H) as (l1 & l2 & -> & Hx & Hmin).
    exists (a :: l1), l2. split; [done|]. split; [done|].
    intros y [-> | Hy]%elem_of_cons; [done | by apply Hmin].
Qed.

Lemma find_None_all {A} (f : A -> bool) (l : list A) :
  find f l = None -> forall y, y ∈ l -> f y = false.
Proof.
  induction l as [|a l IH]; simpl.
  - intros _ y Hy. by apply elem_of_nil in Hy.
  - destruct (f a) eqn:E; [done|].
    intros H y [-> | Hy]%elem_of_cons; [done | by apply IH].
Qed.

Lemma cities_not_empty c : c ∈ cities -> c <> "".
Proof.
  intros Hc ->. unfold cities in Hc.
  repeat (apply elem_of_cons in Hc as [Hc | Hc]; [discriminate|]).
  by apply elem_of_nil in Hc.
Qed.

Lemma capitalize_not_empty c : c <> "" -> capitalize c <> "".
Proof. by destruct c. Qed.

Lemma detect_gender_values x :
  detect_gender x = None \/ detect_gender x = Some "Homme" \/
  detect_gender x = Some "Femme".
Proof.
  unfold detect_gender.
  destruct (find _ male_indicators); [by right; left|].
  destruct (find _ female_indicators); [by right; right | by left].
Qed.

Lemma detect_city_first x :
  match detect_city x with
  | None => forall c, c ∈ cities -> contains c x = false
  | Some name =>
      exists l1 c l2,
        cities = l1 ++ c :: l2 /\ name = capitalize c /\ contains c x = true /\
        forall c', c' ∈ l1 -> contains c' x = false
  end.
Proof.
  unfold detect_city.
  destruct (find (fun city => contains city x) cities) as [c|] eqn:E.
  - apply find_first in E as (l1 & l2 & Hl & Hc & Hmin).
    by exists l1, c, l2.
  - by apply find_None_all.
Qed.

(** X13: the values derivation can return.  The gender is absent, "Homme"
    or "Femme".  The city is the capitalised form of the first name of the
    city list, in the order of the list, that occurs in the lower-cased
    handle, wherever it stands in the handle; it is absent when none
    occurs, and never the empty string.  The age, when present, is between
    18 and 99 or between [current_year - 2009] and [current_year - 1980].
    Two handles that differ in letter case only get the same gender and the
    same city. *)
Theorem derived_values cy u :
  (info_gender (_analyze_username cy u) = None \/
   info_gender (_analyze_username cy u) = Some "Homme" \/
   info_gender (_analyze_username cy u) = Some "Femme")
  /\ match info_city (_analyze_username cy u) with
     | None => forall c, c ∈ cities -> contains c (lower u) = false
     | Some name =>
         name <> "" /\
         exists l1 c l2,
           cities = l1 ++ c :: l2 /\ name = capitalize c /\
           contains c (lower u) = true /\
           forall c', c' ∈ l1 -> contains c' (lower u) = false
     end
  /\ (forall a, info_age (_analyze_username cy u) = Some a ->
        18 <= a <= 99 \/ cy - 2009 <= a <= cy - 1980)
  /\ (forall v, lower v = lower u ->
        info_gender (_analyze_username cy v) = info_gender (_analyze_username cy u) /\
        info_city (_analyze_username cy v) = info_city (_analyze_username cy u))
  /\ (forall cy', info_city (_analyze_username cy' "lyonparis") = Some "Paris").
Proof.
  refine (conj _ (conj _ (conj _ (conj _ _)))).
  - apply detect_gender_values.
  - simpl. pose proof (detect_city_first (lower u)) as H.
    destruct (detect_city (lower u)) as [name|]; [|done].
    split; [|done]. destruct H as (l1 & c & l2 & Hl & -> & _).
    apply capitalize_not_empty, cities_not_empty. rewrite Hl.
    apply elem_of_app. right. by left.
  - intros a Ha. simpl in Ha.
    apply detect_age_origin in Ha as [(y & Hy & _ & _ & ->) | (_ & Hr & _)]; lia.
  - intros v Hv. simpl. by rewrite Hv.
  - intros cy'. vm_compute. reflexivity.
Qed.

Lemma detect_gender_truthy x :
  detect_gender x = None \/ truthy_str (detect_gender x) = true.
Proof. destruct (detect_gender_values x) as [-> | [-> | ->]]; auto. Qed.

Lemma detect_city_truthy x :
  detect_city x = None \/ truthy_str (detect_city x) = true.
Proof.
  pose proof (detect_city_first x) as H.
  destruct (detect_city x) as [name|]; [right | by left].
  destruct H as (l1 & c & l2 & Hl & -> & _).
  assert (capitalize c <> "") as Hne.
  { apply capitalize_not_empty, cities_not_empty. rewrite Hl.
    apply elem_of_app. right. by left. }
  by destruct (capitalize c).
Qed.

(** X14: the first analysis of a handle that has no row stores what
    derivation found: the derived gender and city, the derived age unless
    it is 0, the verdict of the targeting policy as flag, and counter 1 if
    an opening message was sent, 0 otherwise. *)
Theorem first_analysis_stores_derived_attributes e bp u w :
  users (db (dbm w)) !! u = None ->
  exists w',
    cycle bp (e, u) w = Returned tt w' /\
    let info := _analyze_username (current_year e) u in
    let q := get_user_profile u (dbm w') in
    gender q = info_gender info /\
    city q = info_city info /\
    age q = (if truthy_int (info_age info) then info_age info else None) /\
    conversation_count q = (if engagement_fires e bp u w then 1 else 0) /\
    targeted q = Targeting._matches_targeting_criteria bp q.
Proof.
  intros Hnone.
  destruct (cycle_returns bp e u w) as (w' & Hc & _).
  exists w'. split; [done|]. cbv zeta.
  destruct (cycle_profile bp e u w w' Hc) as (Ha & Hg & Hci & Ht & Hn).
  assert (Hread : get_user_profile u (dbm w) = default_profile u)
    by (unfold get_user_profile; by rewrite Hnone).
  split; [|split; [|split; [|split]]].
  - rewrite Hg. unfold analyzed_profile. rewrite Hread. simpl.
    destruct (detect_gender_truthy (lower u)) as [-> | ->]; done.
  - rewrite Hci. unfold analyzed_profile. rewrite Hread. simpl.
    destruct (detect_city_truthy (lower u)) as [-> | ->]; done.
  - rewrite Ha. unfold analyzed_profile. rewrite Hread. reflexivity.
  - rewrite Hn. unfold analyzed_profile.
    change (conversation_count (with_targeted ?b ?p)) with (conversation_count p).
    simpl. rewrite Hread. simpl. by destruct (engagement_fires e bp u w).
  - rewrite Ht. unfold analyzed_profile at 1. simpl.
    apply matches_ext; [by rewrite Ha | by rewrite Hg].
Qed.

End DerivedValueFacts.

(** ** The API key *)

Section ApiKeyFacts.
Import PyStr DeepSeek ApiKey.

(** X15: where the API key comes from.  A key given to the constructor
    wins; otherwise a non-empty environment variable wins; otherwise an
    existing, readable configuration file decides alone, its text without
    surrounding white space being the key, and the database is used only
    when the file is missing or unreadable.  So a configuration file that
    is empty or blank hides the key stored in the database:
    [generate_response] then answers that no key is configured, whatever
    the collaborator would reply. *)
Theorem api_key_source_priority :
  (forall k env_var file db_key,
      truthy_str k = true -> init_api_key k env_var file db_key = k)
  /\ (forall k env_var file db_key,
      truthy_str k = false -> truthy_str env_var = true ->
      init_api_key k env_var file db_key = env_var)
  /\ (forall k env_var content db_key,
      truthy_str k = false -> truthy_str env_var = false ->
      init_api_key k env_var (FileText content) db_key = Some (strip content))
  /\ (forall k env_var file db_key,
      truthy_str k = false -> truthy_str env_var = false ->
      file = NoFile \/ file = FileUnreadable ->
      init_api_key k env_var file db_key = db_key)
  /\ (forall k env_var content db_key reply pick bp,
      truthy_str k = false -> truthy_str env_var = false ->
      forallb is_space (String.list_ascii_of_string content) = true ->
      generate_response (init_api_key k env_var (FileText content) db_key)
        reply pick bp = not_configured).
Proof.
  unfold init_api_key, _load_api_key.
  refine (conj _ (conj _ (conj _ (conj _ _)))).
  - by intros k env_var file db_key ->.
  - by intros k env_var file db_key -> ->.
  - by intros k env_var content db_key -> ->.
  - intros k env_var file db_key -> -> [-> | ->]; done.
  - intros k env_var content db_key reply pick bp -> -> Hb.
    rewrite (strip_blank _ Hb). reflexivity.
Qed.

End ApiKeyFacts.

(** ** The users tab *)

Section ControlFacts.
Import PyStr Database Bot Serializer Control.

Lemma filter_all_true {A} (f : A -> bool) (l : list A) :
  (forall x, f x = true) -> filter (fun x => f x = true) l = l.
Proof.
  intros H. induction l as [|a l IH]; [done|].
  rewrite filter_cons_True by done. by rewrite IH.
Qed.

(** X16: the filters of the users list.  With the settings the window
    starts with, every user is listed.  Whatever the settings, the users
    listed are users of the query, in the order of the query.  A user
    whose age is unknown or 0 passes every age filter; a user whose age is
    known passes "18-25", "26-35", "36-45" or "46+" exactly when the age is
    in that range, hence passes at most one of them, and none below 18.
    The gender boxes decide on "Homme" and "Femme", and the third box on
    every other gender, an unknown one included.  The search term is
    compared without regard to letter case. *)
Theorem users_list_filters :
  (forall users, update_users_list initial_filters users = users)
  /\ (forall f users, update_users_list f users `sublist_of` users)
  /\ (forall f r, lu_age r = None \/ lu_age r = Some 0 -> age_rejects f r = false)
  /\ (forall f r a,
      lu_age r = Some a -> a <> 0 ->
      (age_rejects (with_age_filter "18-25" f) r = false <-> 18 <= a <= 25) /\
      (age_rejects (with_age_filter "26-35" f) r = false <-> 26 <= a <= 35) /\
      (age_rejects (with_age_filter "36-45" f) r = false <-> 36 <= a <= 45) /\
      (age_rejects (with_age_filter "46+" f) r = false <-> 46 <= a) /\
      age_rejects (with_age_filter "Tous" f) r = false)
  /\ (forall f r,
      gender_rejects f r =
      negb (if bool_decide (lu_gender r = Some "Homme") then filter_homme f
            else if bool_decide (lu_gender r = Some "Femme") then filter_femme f
            else filter_autre f))
  /\ (forall f r, lu_gender r = None -> gender_rejects f r = negb (filter_autre f))
  /\ (forall f f' r r',
      lower (search_var f) = lower (search_var f') ->
      lower (lu_username r) = lower (lu_username r') ->
      search_rejects f r = search_rejects f' r').
Proof.
  refine (conj _ (conj _ (conj _ (conj _ (conj _ (conj _ _)))))).
  - intros users. unfold update_users_list. apply filter_all_true.
    intros r. unfold listed, search_rejects, gender_rejects, age_rejects. simpl.
    by repeat case_bool_decide.
  - intros f users. apply sublist_filter.
  - intros f r [H | H]; unfold age_rejects; rewrite H; simpl;
      by rewrite andb_false_r.
  - intros f r a Hr Ha. unfold age_rejects. rewrite Hr. simpl.
    destruct (Z.eqb_spec a 0) as [|_]; [done|]. simpl.
    rewrite !negb_false_iff, !andb_true_iff, !Z.leb_le, Z.ltb_ge.
    split; [done|]. split; [done|]. split; [done|]. split; done.
  - intros f r. unfold gender_rejects. by repeat case_bool_decide.
  - intros f r Hg. unfold gender_rejects. rewrite Hg.
    by repeat (case_bool_decide; [done|]).
  - intros f f' r r' Hs Hu. unfold search_rejects. by rewrite Hs, Hu.
Qed.

Lemma toggle_read now u dm :
  let p := get_user_profile u dm in
  exists dm',
    toggle_user_targeting now u dm = PyQueue.Enqueued dm' /\
    write_queue dm' = write_queue dm ++
      [save_user u (profile_tuple now (with_targeted (negb (targeted p)) p))] /\
    db dm' = db dm /\
    let q := get_user_profile u (drain dm') in
    targeted q = negb (targeted p) /\ age q = age p /\ gender q = gender p /\
    city q = city p /\ conversation_count q = conversation_count p.
Proof.
  cbv zeta. unfold toggle_user_targeting, save_user_profile.
  rewrite submit_enqueues. eexists. split; [reflexivity|]. simpl.
  rewrite get_user_profile_username. split; [done|]. split; [done|].
  rewrite drain_replay. simpl. rewrite replay_app. simpl.
  rewrite get_inserted; [done|].
  exact (get_user_profile_storable now u dm).
Qed.

(** X17: the manual toggle.  Once the writer has emptied its queue, a
    toggle has inverted the flag of the user and kept age, gender, city and
    counter; a second toggle made after that restores the flag.  Two
    toggles made before the writer has run both read the same row, and the
    flag ends up inverted once, not restored. *)
Theorem toggle_inverts_stored_flag now1 now2 u dm :
  exists dm1,
    toggle_user_targeting now1 u dm = PyQueue.Enqueued dm1
    /\ (let p := get_user_profile u dm in
        let q := get_user_profile u (drain dm1) in
        targeted q = negb (targeted p) /\ age q = age p /\ gender q = gender p /\
        city q = city p /\ conversation_count q = conversation_count p)
    /\ (exists dm2,
          toggle_user_targeting now2 u (drain dm1) = PyQueue.Enqueued dm2 /\
          targeted (get_user_profile u (drain dm2)) =
          targeted (get_user_profile u dm))
    /\ (exists dm2,
          toggle_user_targeting now2 u dm1 = PyQueue.Enqueued dm2 /\
          targeted (get_user_profile u (drain dm2)) =
          negb (targeted (get_user_profile u dm))).
Proof.
  destruct (toggle_read now1 u dm) as (dm1 & H1 & Hq1 & Hdb1 & Hp1).
  exists dm1. split; [done|]. split; [exact Hp1|]. split.
  - destruct (toggle_read now2 u (drain dm1)) as (dm2 & H2 & _ & _ & Ht2 & _).
    exists dm2. split; [done|]. cbv zeta in Ht2, Hp1.
    destruct Hp1 as [Ht1 _]. rewrite Ht2, Ht1. apply negb_involutive.
  - destruct (toggle_read now2 u dm1) as (dm2 & H2 & _ & _ & Ht2 & _).
    exists dm2. split; [done|]. cbv zeta in Ht2. rewrite Ht2.
    unfold get_user_profile. by rewrite Hdb1.
Qed.

End ControlFacts.

Section KeyTestFacts.
Import PyStr DeepSeek ApiKey.

Lemma fallback_has_no_error_mark m :
  m ∈ fallback_responses test_bot_profile ->
  contains "❌" ("[Mode démo] " +:+ m) || contains "⚠️" ("[Mode démo] " +:+ m) = false.
Proof.
  unfold fallback_responses. intros Hm.
  repeat (apply elem_of_cons in Hm as [-> | Hm]; [vm_compute; reflexivity|]).
  by apply elem_of_nil in Hm.
Qed.

Lemma test_with_key entry reply pick :
  strip entry <> "" ->
  test_api_key entry reply pick =
  let response := generate_response (Some (strip entry)) reply pick test_bot_profile in
  if contains "❌" response || contains "⚠️" response then KeyInvalid else KeyValid.
Proof. intros H. unfold test_api_key. by destruct (strip entry). Qed.

Lemma generate_with_key k reply pick bp :
  k <> "" ->
  generate_response (Some k) reply pick bp =
  match reply with
  | Response status_code content =>
      if status_code =? 200 then
        match content with
        | Some text => strip text
        | None => _get_fallback_response pick bp
        end
      else if status_code =? 401 then
        "❌ Clé API invalide. Vérifiez votre configuration."
      else if status_code =? 429 then
        "⏳ Limite de taux atteinte. Attendez un moment."
      else "❌ Erreur API: " +:+ str status_code
  | RaisesTimeout => "⏰ Timeout de l'API. Réessayez."
  | RaisesConnectionError => "🌐 Problème de connexion à l'API."
  | RaisesOther => _get_fallback_response pick bp
  end.
Proof. intros H. unfold generate_response. by destruct k. Qed.

(** X18: what the key test of the control window concludes.  A blank entry
    is refused before any request.  Otherwise the key is declared invalid
    when the collaborator answers 401 or any status other than 200 and 429,
    and declared valid when the collaborator answers 429, when the request
    times out, when the connection fails, when the request raises anything
    else, and when the answer has status 200 without the expected content:
    the verdict "valid" does not require an answer of the collaborator.
    With status 200 and content the verdict depends on the content alone. *)
Theorem api_key_test_verdicts :
  (forall entry reply pick,
      forallb is_space (String.list_ascii_of_string entry) = true ->
      test_api_key entry reply pick = NoKeyEntered)
  /\ (forall entry pick c,
      strip entry <> "" ->
      test_api_key entry (Response 401 c) pick = KeyInvalid /\
      test_api_key entry (Response 429 c) pick = KeyValid /\
      test_api_key entry RaisesTimeout pick = KeyValid /\
      test_api_key entry RaisesConnectionError pick = KeyValid /\
      test_api_key entry RaisesOther pick = KeyValid /\
      test_api_key entry (Response 200 None) pick = KeyValid)
  /\ (forall entry pick code c,
      strip entry <> "" -> code <> 200 -> code <> 401 -> code <> 429 ->
      test_api_key entry (Response code c) pick = KeyInvalid)
  /\ (forall entry pick text,
      strip entry <> "" ->
      test_api_key entry (Response 200 (Some text)) pick =
      if contains "❌" (strip text) || contains "⚠️" (strip text)
      then KeyInvalid else KeyValid).
Proof.
  assert (Hfb : forall pick,
             contains "❌" (_get_fallback_response pick test_bot_profile)
             || contains "⚠️" (_get_fallback_response pick test_bot_profile) = false).
  { intros pick. apply fallback_has_no_error_mark, random_choice_elem. done. }
  refine (conj _ (conj _ (conj _ _))).
  - intros entry reply pick Hb. unfold test_api_key. by rewrite strip_blank.
  - intros entry pick c Hk.
    rewrite !test_with_key by done. cbv zeta. rewrite !generate_with_key by done.
    do 4 (split; [vm_compute; reflexivity|]).
    rewrite Z.eqb_refl. lazy beta iota. by rewrite Hfb.
  - intros entry pick code c Hk H200 H401 H429.
    rewrite test_with_key by done. cbv zeta. rewrite generate_with_key by done.
    destruct (Z.eqb_spec code 200); [done|].
    destruct (Z.eqb_spec code 401); [done|].
    destruct (Z.eqb_spec code 429); [done|].
    replace (contains "❌" ("❌ Erreur API: " +:+ str code)) with true; [done|].
    symmetry. apply contains_spec. by exists "", (" Erreur API: " +:+ str code).
  - intros entry pick text Hk.
    rewrite test_with_key by done. cbv zeta. by rewrite generate_with_key.
Qed.

End KeyTestFacts.

Section WorkerFacts.
Import PyStr Database Bot Threads Intake Examples MoreExamples.

Lemma worker_takes_all e bp : forall q s,
  analysis_queue (bot s) = q -> worker s = WWaiting ->
  analysis_worker_started (bot s) = true ->
  exists s',
    run bp (flat_map (fun _ : string => [WorkerGet; WorkerRun e]) q) s = Some s' /\
    pending s' = [] /\
    finished s' = finished s ++ q /\
    users_being_analyzed (bot s') = users_being_analyzed (bot s) ∖ list_to_set q /\
    admitted s' = admitted s.
Proof.
  induction q as [|u q IH]; intros s Hq Hw Hst.
  - exists s. simpl. unfold pending. rewrite Hq, Hw, !app_nil_r.
    split; [done|]. split; [done|]. split; [done|]. split; [|done].
    by rewrite ?list_to_set_nil, difference_empty_L.
  - simpl. unfold worker_get. rewrite Hw, Hq, Hst. simpl.
    unfold worker_run. simpl. rewrite analyze_user_returns. simpl.
    edestruct IH as (s' & Hrun & Hp & Hf & Hu & Ha);
      [| | | exists s'; split; [exact Hrun|]]; simpl; try done.
    rewrite Hf, Hu, Ha. simpl. rewrite <- app_assoc.
    split; [done|]. split; [done|]. split; [|done].
    by rewrite ?list_to_set_cons, difference_difference_l_L.
Qed.

(** X19: the worker never gets stuck on a task: once it is started, it can
    take and analyse every uncompleted task, in order and whatever each
    analysis finds outside; this ends with no task left, every one of them
    recorded as finished and its username out of the in-flight set, and
    admits nothing. *)
Theorem worker_completes_every_task e bp s :
  analysis_worker_started (bot s) = true ->
  exists s',
    run bp (worker_labels e s) s = Some s' /\
    pending s' = [] /\
    finished s' = finished s ++ pending s /\
    users_being_analyzed (bot s') =
      users_being_analyzed (bot s) ∖ list_to_set (pending s) /\
    admitted s' = admitted s.
Proof.
  intros Hst. unfold worker_labels, pending.
  destruct (worker s) as [|u] eqn:Hw; simpl.
  - destruct (worker_takes_all e bp (analysis_queue (bot s)) s)
      as (s' & Hrun & Hp & Hf & Hu & Ha); try done.
    by exists s'.
  - unfold worker_run. rewrite Hw, analyze_user_returns.
    edestruct (worker_takes_all e bp (analysis_queue (bot s)))
      as (s' & Hrun & Hp & Hf & Hu & Ha);
      [| | | exists s'; split; [exact Hrun|]]; simpl; try done.
    rewrite Hf, Hu, Ha. simpl. rewrite <- app_assoc.
    split; [done|]. split; [done|]. split; [|done].
    by rewrite ?list_to_set_cons, difference_difference_l_L.
Qed.

End WorkerFacts.

(** ** The worker thread and the counter *)

Section LazyWorkerFacts.
Import PyStr Database Bot Threads Intake Sequential Examples MoreExamples.

Lemma step_started bp l s s' :
  step bp l s = Some s' ->
  analysis_worker_started (bot s') = false ->
  analysis_worker_started (bot s) = false.
Proof.
  destruct l; simpl.
  - destruct (reactor s); [|done..]. by intros [= <-].
  - destruct (reactor s); [|done..]. by intros [= <-].
  - unfold reactor_call. pose proof (on_pubmsg_frame e bp nick (bot s)) as Hf.
    destruct (reactor s); [|done..].
    destruct (on_pubmsg e bp nick (bot s)); intros [= <-];
      destruct Hf as (_ & _ & Hst); simpl; by rewrite Hst.
  - unfold reactor_call. pose proof (on_privmsg_frame e bp nick message (bot s)) as Hf.
    destruct (reactor s); [|done..].
    destruct (on_privmsg e bp nick message (bot s)); intros [= <-];
      destruct Hf as (_ & _ & Hst); simpl; by rewrite Hst.
  - unfold reactor_step.
    destruct (reactor s) as [|k [|name rest]|k name rest|k name rest].
    + done.
    + intros [= <-]. by destruct k.
    + destruct (negb _ && negb _); by intros [= <-].
    + by intros [= <-].
    + destruct (PyQueue.put _ _ _ _); [| |done]; intros [= <-]; simpl; done.
  - unfold worker_get. destruct (worker s); [|done].
    destruct (PyQueue.get _) as [[u q]|]; [|done].
    destruct (analysis_worker_started (bot s)) eqn:Hst; [|done].
    intros [= <-]. simpl. by rewrite Hst.
  - unfold worker_run. destruct (worker s); [done|].
    rewrite analyze_user_returns. by intros [= <-].
  - by intros [= <-].
Qed.


(** What a step that is no step of the worker leaves alone. *)
Lemma step_worker_untouched bp l s s' :
  step bp l s = Some s' ->
  match l with
  | WorkerGet | WorkerRun _ => True
  | _ => finished s' = finished s /\ worker s' = worker s
  end.
Proof.
  destruct l; simpl; try done.
  - destruct (reactor s); [|done..]. by intros [= <-].
  - destruct (reactor s); [|done..]. by intros [= <-].
  - unfold reactor_call. destruct (reactor s); [|done..].
    destruct (on_pubmsg e bp nick (bot s)); intros [= <-]; done.
  - unfold reactor_call. destruct (reactor s); [|done..].
    destruct (on_privmsg e bp nick message (bot s)); intros [= <-]; done.
  - unfold reactor_step.
    destruct (reactor s) as [|k [|name rest]|k name rest|k name rest].
    + done.
    + by intros [= <-].
    + destruct (negb _ && negb _); by intros [= <-].
    + by intros [= <-].
    + destruct (PyQueue.put _ _ _ _); [| |done]; by intros [= <-].
  - by intros [= <-].
Qed.

Lemma step_lazy_worker bp l s s' :
  step bp l s = Some s' ->
  (analysis_worker_started (bot s) = false ->
   finished s = [] /\ worker s = WWaiting) ->
  analysis_worker_started (bot s') = false ->
  finished s' = [] /\ worker s' = WWaiting.
Proof.
  intros Hs Hinv Hst'.
  pose proof (step_started _ _ _ _ Hs Hst') as Hst.
  destruct (Hinv Hst) as [Hf Hw].
  pose proof (step_worker_untouched _ _ _ _ Hs) as Hun.
  destruct l;
    lazymatch type of Hun with
    | True => idtac
    | _ => destruct Hun as [Hf' Hw']; rewrite Hf', Hw'; done
    end; simpl in Hs.
  - unfold worker_get in Hs. rewrite Hw, Hst in Hs.
    by destruct (PyQueue.get _) as [[u q]|].
  - unfold worker_run in Hs. by rewrite Hw in Hs.
Qed.

(** X20: the worker thread is started at the end of the first membership
    snapshot and not before: as long as no snapshot has been handled to its
    end, joins may admit tasks but no analysis starts or ends, and once
    started the worker stays started. *)
Theorem no_analysis_before_first_snapshot bp s0 ls s :
  run bp ls (init s0) = Some s ->
  (analysis_worker_started (bot s) = false ->
   finished s = [] /\ worker s = WWaiting /\ worker_get s = None) /\
  (forall l s', step bp l s = Some s' ->
     analysis_worker_started (bot s) = true ->
     analysis_worker_started (bot s') = true).
Proof.
  intros Hrun. split.
  - intros Hst.
    assert (finished s = [] /\ worker s = WWaiting) as [Hf Hw].
    { revert Hst.
      apply (run_preserves bp
               (fun s => analysis_worker_started (bot s) = false ->
                         finished s = [] /\ worker s = WWaiting)
               (step_lazy_worker bp) ls (init s0) s Hrun).
      done. }
    split; [done|]. split; [done|].
    unfold worker_get. rewrite Hw, Hst. by destruct (PyQueue.get _) as [[u q]|].
  - intros l s' Hs Hst.
    destruct (analysis_worker_started (bot s')) eqn:Hst'; [done|].
    apply (step_started _ _ _ _ Hs) in Hst'. congruence.
Qed.

End LazyWorkerFacts.

Section CounterFacts.
Import PyStr Database Bot Sequential Examples MoreExamples.

Lemma turns_counter bp acts : forall w h,
  write_queue (dbm w) = [] ->
  exists w',
    turns bp acts w = Returned tt w' /\
    (stored_count h w' = stored_count h w \/
     (stored_count h w = 0 /\ stored_count h w' = 1)).
Proof.
  induction acts as [|a acts IH]; intros w h Hq.
  - exists w. split; [done | by left].
  - destruct (turn_returns bp a w) as (w1 & Ht & Hq1).
    destruct (IH w1 h Hq1) as (w' & Hts & Hc).
    exists w'. simpl. rewrite Ht. simpl. split; [done|].
    destruct (turn_effect bp a h w w1 Hq Ht) as [[_ Hc1] | (_ & Hc0 & Hc1)];
      destruct Hc as [Hc | [Hc Hc']]; lia.
Qed.

(** X21: the conversation counter records the opening message only: over
    any sequence of analyses and public messages, each followed by the
    writer emptying its queue, the counter stored for a handle keeps its
    value, except that a counter of 0 may become 1; it never decreases and
    never goes from 1 to 2. *)
Theorem conversation_counter_records_the_opening bp acts w h :
  write_queue (dbm w) = [] ->
  exists w',
    turns bp acts w = Returned tt w' /\
    (stored_count h w' = stored_count h w \/
     (stored_count h w = 0 /\ stored_count h w' = 1)) /\
    stored_count h w <= stored_count h w'.
Proof.
  intros Hq. destruct (turns_counter bp acts w h Hq) as (w' & Ht & Hc).
  exists w'. split; [done|]. split; [done|]. lia.
Qed.

End CounterFacts.

(** ** Instances *)

Section FurtherInstances.
Import PyStr Database Bot Threads Intake Sequential Examples MoreExamples.

Lemma analysis_queue_bounded_witness :
  run (bot_18_35 "Tous") put_on_full (init empty_store) = Some (after put_on_full)
  /\ (length (analysis_queue (bot (after put_on_full))) <= 50)%nat
  /\ (forall k name rest s',
        reactor (after put_on_full) = RPut k name rest ->
        length (analysis_queue (bot (after put_on_full))) = 50%nat ->
        reactor_step (bot_18_35 "Tous") (after put_on_full) = Some s' ->
        analysis_queue (bot s') = analysis_queue (bot (after put_on_full)) /\
        admitted s' = admitted (after put_on_full) /\
        name ∈ users_being_analyzed (bot s')).
Proof.
  split; [vm_compute; reflexivity|].
  apply (analysis_queue_bounded (bot_18_35 "Tous") empty_store put_on_full).
  vm_compute. reflexivity.
Defined.

Lemma snapshot_admits_at_most_twenty_witness :
  reactor (init empty_store) = RIdle
  /\ forallb no_event snapshot_steps = true
  /\ run (bot_18_35 "Tous") (EvNamreply ["@bob"; "+amy"; "camille"] :: snapshot_steps)
       (init empty_store) =
     Some (after (EvNamreply ["@bob"; "+amy"; "camille"] :: snapshot_steps))
  /\ exists l,
       admitted (after (EvNamreply ["@bob"; "+amy"; "camille"] :: snapshot_steps)) =
       admitted (init empty_store) ++ l /\
       l `sublist_of` map (lstrip role_prefixes) (take 20 ["@bob"; "+amy"; "camille"]) /\
       (length l <= 20)%nat.
Proof.
  split; [reflexivity|]. split; [reflexivity|]. split; [vm_compute; reflexivity|].
  apply (snapshot_admits_at_most_twenty (bot_18_35 "Tous")
           ["@bob"; "+amy"; "camille"] snapshot_steps (init empty_store)).
  - reflexivity.
  - reflexivity.
  - vm_compute. reflexivity.
Defined.

Lemma first_analysis_stores_derived_attributes_witness :
  users (db (dbm idle_bot)) !! "alex1990paris07" = None
  /\ exists w',
       cycle (bot_18_35 "Tous") (env0, "alex1990paris07") idle_bot = Returned tt w' /\
       let info := Derivation._analyze_username (current_year env0) "alex1990paris07" in
       let q := get_user_profile "alex1990paris07" (dbm w') in
       gender q = Derivation.info_gender info /\
       city q = Derivation.info_city info /\
       age q = (if truthy_int (Derivation.info_age info)
                then Derivation.info_age info else None) /\
       conversation_count q =
         (if engagement_fires env0 (bot_18_35 "Tous") "alex1990paris07" idle_bot
          then 1 else 0) /\
       targeted q = Targeting._matches_targeting_criteria (bot_18_35 "Tous") q.
Proof.
  split; [reflexivity|].
  apply (first_analysis_stores_derived_attributes env0 (bot_18_35 "Tous")
           "alex1990paris07" idle_bot).
  reflexivity.
Defined.

Lemma worker_completes_every_task_witness :
  analysis_worker_started (bot (after two_joined)) = true
  /\ exists s',
       run (bot_18_35 "Tous") (worker_labels env0 (after two_joined)) (after two_joined)
       = Some s' /\
       pending s' = [] /\
       finished s' = finished (after two_joined) ++ pending (after two_joined) /\
       users_being_analyzed (bot s') =
         users_being_analyzed (bot (after two_joined))
         ∖ list_to_set (pending (after two_joined)) /\
       admitted s' = admitted (after two_joined).
Proof.
  split; [vm_compute; reflexivity|].
  apply (worker_completes_every_task env0 (bot_18_35 "Tous") (after two_joined)).
  vm_compute. reflexivity.
Defined.

Lemma no_analysis_before_first_snapshot_witness :
  run (bot_18_35 "Tous") joined_before_snapshot (init empty_store) =
  Some (after joined_before_snapshot)
  /\ (analysis_worker_started (bot (after joined_before_snapshot)) = false ->
      finished (after joined_before_snapshot) = [] /\
      worker (after joined_before_snapshot) = WWaiting /\
      worker_get (after joined_before_snapshot) = None)
  /\ (forall l s',
        step (bot_18_35 "Tous") l (after joined_before_snapshot) = Some s' ->
        analysis_worker_started (bot (after joined_before_snapshot)) = true ->
        analysis_worker_started (bot s') = true).
Proof.
  split; [vm_compute; reflexivity|].
  apply (no_analysis_before_first_snapshot (bot_18_35 "Tous") empty_store
           joined_before_snapshot).
  vm_compute. reflexivity.
Defined.

Lemma conversation_counter_records_the_opening_witness :
  write_queue (dbm idle_bot) = []
  /\ exists w',
       turns (bot_18_35 "Tous") bob_activities idle_bot = Returned tt w' /\
       (stored_count "bob" w' = stored_count "bob" idle_bot \/
        (stored_count "bob" idle_bot = 0 /\ stored_count "bob" w' = 1)) /\
       stored_count "bob" idle_bot <= stored_count "bob" w'.
Proof.
  split; [reflexivity|].
  apply (conversation_counter_records_the_opening (bot_18_35 "Tous")
           bob_activities idle_bot "bob").
  reflexivity.
Defined.

End FurtherInstances.
